(** * layabase / pycommon_database: the Mongo field-and-model engine

    A shallow embedding of [pycommon_database/database_mongo.py]: the
    [Column] / [DictColumn] / [ListColumn] hierarchy and the [CRUDModel]
    record lifecycle, followed by the properties proved about them.

    Conventions of the embedding:
    - Python values are the closed type [value]; a [dict] is an association
      list in insertion order, as a Python dict iterates.
    - A method that mutates its [model_as_dict] argument returns the mapping
      as the call leaves it (explicit state passing).
    - A Python exception is the [Raise] outcome of [result].
    - A column object carries no name of its own: [self.name] is set by
      [_update_name] when the column is bound to an attribute or to a key,
      so every method takes the bound [name] next to the column.
    - The libraries the module calls ([dateutil], [bson], [pymongo]) and
      the audit model are collaborators: the classes [Runtime] and
      [Driver] and the log of the [world]. [Reference] implements them to
      run the model on examples.
    - [Objects] holds the record-level validation once more, over a heap
      of dict and list objects, for what depends on [copy.deepcopy]. *)

From Stdlib Require Import ZArith String Ascii List Bool Lia.
From Stdlib Require Import Floats.SpecFloat DecimalString.
From Stdlib Require Import DecimalNat.
From stdpp Require Import base option list.
Import ListNotations.

Set Warnings "-register-all".
Local Open Scope string_scope.
Local Open Scope Z_scope.

(** ** Python values *)

Record date := mk_date { year : Z; month : Z; day : Z }.

Record time := mk_time {
  hour : Z; minute : Z; second : Z; microsecond : Z;
  utcoffset : option Z
}.

Record datetime := mk_datetime { dt_date : date; dt_time : time }.

(** [datetime.datetime.min.time()] *)
Definition midnight : time := mk_time 0 0 0 0 None.

Inductive value : Type :=
| VNone
| VBool (b : bool)
| VInt (n : Z)
| VFloat (f : spec_float)
| VStr (s : string)
| VDate (d : date)
| VDateTime (d : datetime)
| VEnum (cls : string) (member : string) (v : value)
| VObjectId (oid : string)
| VList (items : list value)
| VDict (entries : list (string * value)).

(** A Python dict with string keys, in insertion order. *)
Definition pydict (V : Type) : Type := list (string * V).
Definition dict : Type := pydict value.

Section PyDict.
Context {V : Type}.

(** [key in d] *)
Definition dict_in (k : string) (d : pydict V) : bool :=
  existsb (fun kv => String.eqb (fst kv) k) d.

(** [d[key]] where the key is present, [None] where it is not. *)
Fixpoint dict_lookup (k : string) (d : pydict V) : option V :=
  match d with
  | [] => None
  | (k', v) :: d' => if String.eqb k' k then Some v else dict_lookup k d'
  end.

(** [d[key] = v]: an existing key keeps its position, a new key goes last. *)
Fixpoint dict_set (k : string) (v : V) (d : pydict V) : pydict V :=
  match d with
  | [] => [(k, v)]
  | (k', v') :: d' =>
      if String.eqb k' k then (k', v) :: d' else (k', v') :: dict_set k v d'
  end.

(** [d.pop(key, None)] and [del d[key]] on a present key. *)
Definition dict_pop (k : string) (d : pydict V) : pydict V :=
  filter (fun kv => negb (String.eqb (fst kv) k)) d.

(** [d.update(other)] *)
Definition dict_update (d other : pydict V) : pydict V :=
  fold_left (fun acc kv => dict_set (fst kv) (snd kv) acc) other d.

Definition dict_keys (d : pydict V) : list string := map fst d.
End PyDict.

(** [name in names] for a list of strings. *)
Definition str_in (k : string) (l : list string) : bool :=
  existsb (String.eqb k) l.

(** ** Exceptions and results *)

(** Validation errors of one record: field path to messages. *)
Definition errors : Type := pydict (list string).

(** The [errors] argument of [ValidationFailed]. *)
Inductive failure_detail : Type :=
| FieldErrors (e : errors)
| BatchErrors (e : list (nat * errors))
| Message (msg : string).

Inductive exn : Type :=
| ValidationFailed (received_data : value) (detail : failure_detail)
| ModelCouldNotBeFound (requested : dict)
| ConfigurationError (msg : string)   (* [raise Exception(msg)] *)
| InvalidId (msg : string)            (* [bson.errors.InvalidId] *)
| DuplicateKeyError
| BulkWriteError (details : string)
| KeyError (key : string)
| TypeError
| AttributeError
| ValueError
| RecursionError.

Inductive result (A : Type) : Type :=
| Ok (a : A)
| Raise (e : exn).
Arguments Ok {A} a.
Arguments Raise {A} e.

#[global] Instance result_ret : MRet result := fun _ a => Ok a.
#[global] Instance result_bind : MBind result := fun _ _ f r =>
  match r with
  | Ok a => f a
  | Raise e => Raise e
  end.

(** A [for] loop whose body may raise, threading the loop state. *)
Fixpoint foldM {A S : Type} (body : S -> A -> result S) (s : S) (l : list A)
  : result S :=
  match l with
  | [] => Ok s
  | x :: l' =>
      match body s x with
      | Ok s' => foldM body s' l'
      | Raise e => Raise e
      end
  end.

(** ** The Python runtime and the libraries the module calls

    [dateutil.parser.parse], [isoformat], [bson.ObjectId] and [str] of a
    compound value belong to libraries outside the repository; the module
    is embedded over their interface. *)

Inductive objectid_outcome : Type :=
| OidOk (oid : string)
| OidInvalid (msg : string)   (* [bson.errors.InvalidId], a [BSONError] *)
| OidTypeError.               (* neither [str], [bytes] nor [ObjectId] *)

Class Runtime : Type := {
  (** [dateutil.parser.parse(s)]; [None] when it raises. *)
  dateutil_parse : string -> option datetime;
  (** [datetime.isoformat()] and [date.isoformat()]. *)
  datetime_isoformat : datetime -> string;
  date_isoformat : date -> string;
  (** [ObjectId(v)] for a [v] that is not an [ObjectId]. *)
  objectid_of : value -> objectid_outcome;
  (** [str(v)] for values other than [str] and [ObjectId]. *)
  str_of : value -> string
}.

(** [str(v)], as [str()] and f-strings compute it. *)
Definition py_str {rt : Runtime} (v : value) : string :=
  match v with
  | VStr s => s
  | VObjectId oid => oid
  | _ => str_of v
  end.

(** ** Truthiness, equality, iteration *)

(** [bool(v)] *)
Definition truthy (v : value) : bool :=
  match v with
  | VNone => false
  | VBool b => b
  | VInt n => negb (n =? 0)
  | VFloat (S754_zero _) => false
  | VStr s => negb (String.eqb s EmptyString)
  | VList [] => false
  | VDict [] => false
  | _ => true
  end.

(** The exact value [m * 2^e] of a finite float, for comparison with ints. *)
Definition float_dyadic (f : spec_float) : option (Z * Z) :=
  match f with
  | S754_zero _ => Some (0, 0)
  | S754_finite s m e => Some (if s then Z.neg m else Z.pos m, e)
  | _ => None
  end.

Definition dyadic_eqb (a b : Z * Z) : bool :=
  let '(m1, e1) := a in
  let '(m2, e2) := b in
  if e1 <=? e2 then m1 =? m2 * 2 ^ (e2 - e1) else m1 * 2 ^ (e1 - e2) =? m2.

(** The number a value denotes, where it is one ([bool] is an [int]). *)
Definition as_number (v : value) : option (Z * Z) :=
  match v with
  | VBool b => Some (if b then 1 else 0, 0)
  | VInt n => Some (n, 0)
  | VFloat f => float_dyadic f
  | _ => None
  end.

Definition is_float_inf (v : value) : option bool :=
  match v with
  | VFloat (S754_infinity s) => Some s
  | _ => None
  end.

Definition date_eqb (a b : date) : bool :=
  (year a =? year b) && (month a =? month b) && (day a =? day b).

Definition option_Z_eqb (a b : option Z) : bool :=
  match a, b with
  | Some x, Some y => x =? y
  | None, None => true
  | _, _ => false
  end.

Definition time_eqb (a b : time) : bool :=
  (hour a =? hour b) && (minute a =? minute b) && (second a =? second b)
  && (microsecond a =? microsecond b)
  && option_Z_eqb (utcoffset a) (utcoffset b).

Definition datetime_eqb (a b : datetime) : bool :=
  date_eqb (dt_date a) (dt_date b) && time_eqb (dt_time a) (dt_time b).

(** [a == b]. Numbers compare by value across [bool], [int] and [float];
    dicts compare as mappings, whatever the order of their keys. *)
Fixpoint py_eq (a b : value) {struct a} : bool :=
  match a, b with
  | VNone, VNone => true
  | VStr s, VStr t => String.eqb s t
  | VDate d, VDate d' => date_eqb d d'
  | VDateTime d, VDateTime d' => datetime_eqb d d'
  | VEnum c m _, VEnum c' m' _ => String.eqb c c' && String.eqb m m'
  | VObjectId o, VObjectId o' => String.eqb o o'
  | VList l, VList l' =>
      (fix go (l l' : list value) : bool :=
         match l, l' with
         | [], [] => true
         | x :: r, y :: r' => py_eq x y && go r r'
         | _, _ => false
         end) l l'
  | VDict d, VDict d' =>
      (length d =? length d')%nat
      && (fix go (d : list (string * value)) : bool :=
            match d with
            | [] => true
            | (k, x) :: r =>
                match dict_lookup k d' with
                | Some y => py_eq x y && go r
                | None => false
                end
            end) d
  | _, _ =>
      match as_number a, as_number b with
      | Some x, Some y => dyadic_eqb x y
      | _, _ =>
          match is_float_inf a, is_float_inf b with
          | Some s, Some s' => Bool.eqb s s'
          | _, _ => false
          end
      end
  end.

(** [v in l] for a list [l]. *)
Definition py_in (v : value) (l : list value) : bool :=
  existsb (fun x => py_eq x v) l.

(** The items a [for] loop over [v] visits; [TypeError] where [v] is not
    iterable. *)
Definition chars (s : string) : list value :=
  map (fun c => VStr (String c EmptyString)) (list_ascii_of_string s).

Definition py_iter (v : value) : result (list value) :=
  match v with
  | VList l => Ok l
  | VStr s => Ok (chars s)
  | VDict d => Ok (map (fun kv => VStr (fst kv)) d)
  | _ => Raise TypeError
  end.

(** Decimal text of an index, as an f-string prints it. *)
Definition decimal (n : nat) : string :=
  NilZero.string_of_uint (Nat.to_uint n).

(** ** Field types *)

Inductive IndexType : Type := Unique | Other.

Inductive field_type_tag : Type :=
| TStr | TInt | TFloat | TBool
| TDate | TDateTime
| TEnum (cls : string) (members : list (string * value))
| TObjectId
| TDict | TList.

(** [field_type.__name__] *)
Definition type_name (t : field_type_tag) : string :=
  match t with
  | TStr => "str" | TInt => "int" | TFloat => "float" | TBool => "bool"
  | TDate => "date" | TDateTime => "datetime"
  | TEnum cls _ => cls
  | TObjectId => "ObjectId"
  | TDict => "dict" | TList => "list"
  end.

(** [isinstance(v, t)]: [bool] is a subclass of [int], [datetime] of
    [date]. *)
Definition isinstance (v : value) (t : field_type_tag) : bool :=
  match t, v with
  | TStr, VStr _ => true
  | TInt, VInt _ | TInt, VBool _ => true
  | TFloat, VFloat _ => true
  | TBool, VBool _ => true
  | TDate, VDate _ | TDate, VDateTime _ => true
  | TDateTime, VDateTime _ => true
  | TEnum cls _, VEnum cls' _ _ => String.eqb cls cls'
  | TObjectId, VObjectId _ => true
  | TDict, VDict _ => true
  | TList, VList _ => true
  | _, _ => false
  end.

Definition is_enum (t : field_type_tag) : bool :=
  match t with TEnum _ _ => true | _ => false end.
Definition is_int (t : field_type_tag) : bool :=
  match t with TInt => true | _ => false end.
Definition is_dict (t : field_type_tag) : bool :=
  match t with TDict => true | _ => false end.

(** ** Column declarations *)

(** The [choices] argument: absent, a list, or a zero-argument supplier
    (given by what it returns). *)
Inductive choices_arg : Type :=
| NoChoices
| ChoiceList (l : list value)
| ChoiceSupplier (returns : option (list value)).

(** Keyword arguments of [Column.__init__]. *)
Record kwargs : Type := {
  kw_name : option string;
  kw_choices : choices_arg;
  kw_default_value : value;
  kw_description : option string;
  kw_index_type : option IndexType;
  kw_allow_none_as_filter : bool;
  kw_is_primary_key : bool;
  kw_should_auto_increment : bool;
  kw_is_nullable : bool;
  kw_is_required : bool
}.

(** The defaults [kwargs.pop(key, default)] falls back to. *)
Definition no_kwargs : kwargs := {|
  kw_name := None;
  kw_choices := NoChoices;
  kw_default_value := VNone;
  kw_description := None;
  kw_index_type := None;
  kw_allow_none_as_filter := false;
  kw_is_primary_key := false;
  kw_should_auto_increment := false;
  kw_is_nullable := true;
  kw_is_required := false
|}.

(** The attributes [Column.__init__] leaves on the object. *)
Record attrs : Type := {
  field_type : field_type_tag;
  choices : choices_arg;
  default_value : value;
  description : option string;
  index_type : option IndexType;
  allow_none_as_filter : bool;
  is_primary_key : bool;
  should_auto_increment : bool;
  is_nullable : bool;
  is_required : bool
}.

Inductive column : Type :=
| Column (a : attrs)
| DictColumn (a : attrs) (get_fields : dict -> list (string * column))
| ListColumn (a : attrs) (list_item_column : column).

Definition column_attrs (c : column) : attrs :=
  match c with
  | Column a | DictColumn a _ | ListColumn a _ => a
  end.

Definition index_type_of (c : column) : option IndexType :=
  index_type (column_attrs c).

Definition contains_dot (s : string) : bool :=
  existsb (Ascii.eqb "."%char) (list_ascii_of_string s).

(** [field_name.split('.', maxsplit=1)] when it yields two parts. *)
Fixpoint split_dot (s : string) : option (string * string) :=
  match s with
  | EmptyString => None
  | String c r =>
      if Ascii.eqb c "."%char then Some (EmptyString, r)
      else match split_dot r with
           | Some (a, b) => Some (String c a, b)
           | None => None
           end
  end.

(** [Column._update_name]: the check it performs on the name. *)
Definition _update_name (name : string) : result unit :=
  if contains_dot name then
    Raise (ConfigurationError
      (name ++ " is not a valid name. Dots are not allowed in Mongo field names."))
  else Ok tt.

(** [self.field_type] of a column bound to [name]: [_update_name] turns the
    type of a field called [_id] into [ObjectId]. *)
Definition self_field_type (name : string) (a : attrs) : field_type_tag :=
  if String.eqb "_id" name then TObjectId else field_type a.

(** [Column.__init__(field_type, **kwargs)] *)
Definition Column_init (ft : option field_type_tag) (kw : kwargs)
  : result attrs :=
  let ft0 := default TStr ft in
  ft1 ← match kw_name kw with
        | Some name =>
            if String.eqb name EmptyString then Ok ft0
            else _ ← _update_name name;
                 Ok (if String.eqb "_id" name then TObjectId else ft0)
        | None => Ok ft0
        end;
  let mk nullable := {|
    field_type := ft1;
    choices := kw_choices kw;
    default_value := kw_default_value kw;
    description := kw_description kw;
    index_type := kw_index_type kw;
    allow_none_as_filter := kw_allow_none_as_filter kw;
    is_primary_key := kw_is_primary_key kw;
    should_auto_increment := kw_should_auto_increment kw;
    is_nullable := nullable;
    is_required := kw_is_required kw
  |} in
  if kw_should_auto_increment kw && negb (is_int ft1) then
    Raise (ConfigurationError "Only int fields can be auto incremented.")
  else if negb (kw_is_nullable kw) then
    if kw_should_auto_increment kw then
      Raise (ConfigurationError
        "A field cannot be mandatory and auto incremented at the same time.")
    else if truthy (kw_default_value kw) then
      Raise (ConfigurationError
        "A field cannot be mandatory and having a default value at the same time.")
    else Ok (mk false)
  else
    (* Field will be optional only if it is not a primary key without
       default value and not auto incremented *)
    Ok (mk (negb (kw_is_primary_key kw)
            || truthy (kw_default_value kw)
            || kw_should_auto_increment kw)).

(** The [fields] argument of [DictColumn.__init__]. *)
Inductive fields_arg : Type :=
| NoFields
| StaticFields (fields : list (string * column))
| FieldsSupplier (supplier : dict -> list (string * column)).

(** [DictColumn.__init__(fields, **kwargs)] *)
Definition DictColumn_init (fields : fields_arg) (kw : kwargs) : result column :=
  match fields with
  | NoFields | StaticFields [] =>
      Raise (ConfigurationError "fields is a mandatory parameter.")
  | StaticFields fs =>
      a ← Column_init (Some TDict) kw; Ok (DictColumn a (fun _ => fs))
  | FieldsSupplier get_fields =>
      a ← Column_init (Some TDict) kw; Ok (DictColumn a get_fields)
  end.

(** [ListColumn.__init__(list_item_type, **kwargs)] *)
Definition ListColumn_init (list_item_type : column) (kw : kwargs)
  : result column :=
  a ← Column_init (Some TList) kw; Ok (ListColumn a list_item_type).

(** [self.get_choices()]: [None] is Python's [None]. *)
Definition get_choices (a : attrs) : option (list value) :=
  match choices a with
  | ChoiceList (x :: l) => Some (x :: l)
  | ChoiceSupplier returns => returns
  | _ =>
      match field_type a with
      | TEnum _ members => Some (map (fun kv => VStr (fst kv)) members)
      | _ => None
      end
  end.

Definition choices_value (a : attrs) : value :=
  match get_choices a with
  | Some l => VList l
  | None => VNone
  end.

(** [model_as_dict.get(name)] *)
Definition py_get (name : string) (model_as_dict : dict) : value :=
  default VNone (dict_lookup name model_as_dict).

Definition is_none (v : value) : bool :=
  match v with VNone => true | _ => false end.

Definition is_empty {A : Type} (l : list A) : bool :=
  match l with [] => true | _ => false end.

(** A nested record handed to [CRUDModel] code. Validation lets only dicts
    through; a value of another type reaches this point when the caller
    skipped validation or the field is bound to [_id], and Python then
    fails on its first dict operation. *)
Definition as_mapping (v : value) : result dict :=
  match v with
  | VDict d => Ok d
  | _ => Raise TypeError
  end.

(** ** Column: validation of one field *)

Section Fields.
Context {rt : Runtime}.

Definition not_within (name : string) (a : attrs) (v : value) : errors :=
  [(name, ["Value " ++ String (ascii_of_nat 34) (py_str v)
           ++ String (ascii_of_nat 34) " is not within "
           ++ py_str (choices_value a) ++ "."])].

(** What the type-specific part of [_validate_value] leaves: an early
    [return], or the (possibly converted) value for the final check. *)
Inductive checked : Type :=
| Return (e : errors)
| Continue (v : value).

(** [Column._validate_value] *)
Definition _validate_value (name : string) (a : attrs) (value : value)
  : result errors :=
  let ft := self_field_type name a in
  let excluded := (match get_choices a with
                     | Some l => negb (is_empty l) && negb (py_in value l)
                     | None => false
                     end) in
  step ← match ft, value with
         | TDateTime, VStr s =>
             match dateutil_parse s with
             | Some d => Ok (Continue (VDateTime d))
             | None => Ok (Return [(name, ["Not a valid datetime."])])
             end
         | TDate, VStr s =>
             match dateutil_parse s with
             | Some d => Ok (Continue (VDate (dt_date d)))
             | None => Ok (Return [(name, ["Not a valid date."])])
             end
         | TEnum _ _, VStr s =>
             match get_choices a with
             | None => Raise TypeError
             | Some l =>
                 if negb (py_in value l) then Ok (Return (not_within name a value))
                 else Ok (Return [])  (* Consider string values valid for Enum type *)
             end
         | TObjectId, VObjectId _ => Ok (Continue value)
         | TObjectId, _ =>
             match objectid_of value with
             | OidOk oid => Ok (Continue (VObjectId oid))
             | OidInvalid msg => Ok (Return [(name, [msg])])
             | OidTypeError => Raise TypeError
             end
         | TStr, VStr _ =>
             if excluded then Ok (Return (not_within name a value))
             else Ok (Continue value)
         | TInt, VInt _ | TInt, VBool _ =>
             if excluded then Ok (Return (not_within name a value))
             else Ok (Continue value)
         | _, _ => Ok (Continue value)
         end;
  match step with
  | Return e => Ok e
  | Continue v =>
      if negb (isinstance v ft) then
        Ok [(name, ["Not a valid " ++ type_name ft ++ "."])]
      else Ok []
  end.

Definition missing_data (name : string) : errors :=
  [(name, ["Missing data for required field."])].

(** [Column.validate_query] *)
Definition Column_validate_query (name : string) (a : attrs)
    (model_as_dict : dict) : result errors :=
  let value := py_get name model_as_dict in
  if is_none value then Ok []
  else _validate_value name a value.

(** [Column.validate_insert] *)
Definition Column_validate_insert (name : string) (a : attrs)
    (model_as_dict : dict) : result errors :=
  let value := py_get name model_as_dict in
  if is_none value then
    if negb (is_nullable a) then Ok (missing_data name)
    else Ok []
  else _validate_value name a value.

(** [Column.validate_update] *)
Definition Column_validate_update (name : string) (a : attrs)
    (model_as_dict : dict) : result errors :=
  let value := py_get name model_as_dict in
  if is_none value then
    if negb (is_nullable a) then Ok (missing_data name)
    else Ok []
  else _validate_value name a value.

(** ** CRUDModel: validation of one record *)

(** [CRUDModel._handle_dot_notation]; of the column found, callers use the
    name only. *)
Definition _handle_dot_notation (fields : list (string * column))
    (field_name : string) (value : value) : option (string * dict) :=
  match split_dot field_name with
  | Some (parent, child) =>
      match List.find (fun f => String.eqb (fst f) parent
                         && is_dict (self_field_type (fst f) (column_attrs (snd f))))
                      fields with
      | Some f => Some (fst f, [(child, value)])
      | None => None
      end
  | None => None
  end.

(** [previous_dict = d.setdefault(known_field.name, {})] followed by
    [previous_dict.update(field_value)]. *)
Definition setdefault_update (known_field : string) (field_value : dict)
    (d : dict) : result dict :=
  match dict_lookup known_field d with
  | None => Ok (dict_set known_field (VDict (dict_update [] field_value)) d)
  | Some (VDict previous_dict) =>
      Ok (dict_set known_field (VDict (dict_update previous_dict field_value)) d)
  | Some _ => Raise AttributeError
  end.

(** The loop of the three [validate_*] methods that folds dot notation
    fields into known fields of the copy. *)
Definition fold_dot_notation (fields : list (string * column))
    (unknown_fields : list string) (new_model_as_dict : dict) : result dict :=
  foldM (fun new unknown_field =>
    match dict_lookup unknown_field new with
    | None => Raise (KeyError unknown_field)
    | Some v =>
        match _handle_dot_notation fields unknown_field v with
        | Some (known_field, field_value) =>
            setdefault_update known_field field_value new
        | None => Ok new
        end
    end) new_model_as_dict unknown_fields.

Definition field_names (fields : list (string * column)) : list string :=
  map fst fields.

(** Names of the declared fields that are keys of the mapping. *)
Definition present_field_names {V : Type} (fields : list (string * column))
    (model_as_dict : pydict V) : list string :=
  map fst (List.filter (fun f => dict_in (fst f) model_as_dict) fields).

Definition keys_not_in {V : Type} (names : list string)
    (model_as_dict : pydict V) : list string :=
  List.filter (fun k => negb (str_in k names)) (dict_keys model_as_dict).

Definition no_data : errors := [(EmptyString, ["No data provided."])].

Section Record.
(** The per-field methods, dispatched on the class of the column. *)
Variable field_validate_query : string -> column -> dict -> result errors.
Variable field_validate_insert : string -> column -> dict -> result errors.
Variable field_validate_update : string -> column -> dict -> result errors.

(** Last loop of [CRUDModel.validate_query], over the fields whose name
    is a key of the copy. *)
Definition validate_fields_query (fields : list (string * column))
    (new_model_as_dict : dict) : result errors :=
  foldM (fun errors f =>
           let '(name, c) := f in
           if dict_in name new_model_as_dict then
             e ← field_validate_query name c new_model_as_dict;
             Ok (dict_update errors e)
           else Ok errors)
        [] fields.

(** Last loop of [CRUDModel.validate_insert], over all the fields. *)
Definition validate_fields_insert (fields : list (string * column))
    (new_model_as_dict : dict) : result errors :=
  foldM (fun errors f =>
           let '(name, c) := f in
           e ← field_validate_insert name c new_model_as_dict;
           Ok (dict_update errors e))
        [] fields.

(** Last loop of [CRUDModel.validate_update], over the fields whose name
    is a key of the copy and the primary keys. *)
Definition validate_fields_update (fields : list (string * column))
    (new_model_as_dict : dict) : result errors :=
  foldM (fun errors f =>
           let '(name, c) := f in
           if dict_in name new_model_as_dict
              || is_primary_key (column_attrs c) then
             e ← field_validate_update name c new_model_as_dict;
             Ok (dict_update errors e)
           else Ok errors)
        [] fields.

(** [CRUDModel.validate_query] *)
Definition record_validate_query (fields : list (string * column))
    (model_as_dict : dict) : result errors :=
  let queried_fields_names := present_field_names fields model_as_dict in
  let unknown_fields := keys_not_in queried_fields_names model_as_dict in
  new_model_as_dict ← fold_dot_notation fields unknown_fields model_as_dict;
  validate_fields_query fields new_model_as_dict.

(** [CRUDModel.validate_insert] *)
Definition record_validate_insert (fields : list (string * column))
    (model_as_dict : value) : result errors :=
  if negb (truthy model_as_dict) then Ok no_data
  else
    new_model_as_dict ← as_mapping model_as_dict;
    let unknown_fields := keys_not_in (field_names fields) new_model_as_dict in
    new_model_as_dict ← fold_dot_notation fields unknown_fields new_model_as_dict;
    validate_fields_insert fields new_model_as_dict.

(** [CRUDModel.validate_update] *)
Definition record_validate_update (fields : list (string * column))
    (model_as_dict : value) : result errors :=
  if negb (truthy model_as_dict) then Ok no_data
  else
    new_model_as_dict ← as_mapping model_as_dict;
    let updated_field_names := present_field_names fields new_model_as_dict in
    let unknown_fields := keys_not_in updated_field_names new_model_as_dict in
    new_model_as_dict ← fold_dot_notation fields unknown_fields new_model_as_dict;
    (* Also ensure that Primary keys will contain a valid value *)
    validate_fields_update fields new_model_as_dict.
End Record.

(** [DictColumn._description_model]: every key becomes the name of its
    column, which [_update_name] refuses when it holds a dot. *)
Definition check_names (fields : list (string * column)) : result unit :=
  foldM (fun _ f => _update_name (fst f)) tt fields.

(** Error keys of a nested record: [f'{self.name}.{field_name}']. *)
Definition prefix_errors (name : string) (e : errors) : errors :=
  map (fun kv => (name ++ "." ++ fst kv, snd kv)) e.

(** Error keys of a list item: [f'{field_name}[{index}]']. *)
Definition index_errors (index : nat) (e : errors) : errors :=
  map (fun kv => (fst kv ++ "[" ++ decimal index ++ "]", snd kv)) e.

(** [enumerate(values)] running [body] on each item. *)
Definition for_enumerate (values : list value) (errors0 : errors)
    (body : value -> result errors) : result errors :=
  e ← foldM (fun st value =>
               let '(index, errors) := st in
               e ← body value;
               Ok (S index, dict_update errors (index_errors index e)))
            (O, errors0) values;
  Ok (snd e).

(** [values or []] *)
Definition or_empty_list (v : value) : value :=
  if truthy v then v else VList [].

(** [validate_query] of a field: [Column], [DictColumn] and [ListColumn]. *)
Fixpoint validate_query (name : string) (c : column) (model_as_dict : dict)
    {struct c} : result errors :=
  match c with
  | Column a => Column_validate_query name a model_as_dict
  | DictColumn a get_fields =>
      errors ← Column_validate_query name a model_as_dict;
      if is_empty errors then
        let value := py_get name model_as_dict in
        if negb (is_none value) then
          let fields := get_fields model_as_dict in
          _ ← check_names fields;
          value ← as_mapping value;
          nested ← record_validate_query validate_query fields value;
          Ok (dict_update errors (prefix_errors name nested))
        else Ok errors
      else Ok errors
  | ListColumn a list_item_column =>
      errors ← Column_validate_query name a model_as_dict;
      if is_empty errors then
        values ← py_iter (or_empty_list (py_get name model_as_dict));
        for_enumerate values errors
          (fun value => validate_query name list_item_column [(name, value)])
      else Ok errors
  end.

(** [validate_insert] of a field *)
Fixpoint validate_insert (name : string) (c : column) (model_as_dict : dict)
    {struct c} : result errors :=
  match c with
  | Column a => Column_validate_insert name a model_as_dict
  | DictColumn a get_fields =>
      errors ← Column_validate_insert name a model_as_dict;
      if is_empty errors then
        let value := py_get name model_as_dict in
        if negb (is_none value) then
          let fields := get_fields model_as_dict in
          _ ← check_names fields;
          nested ← record_validate_insert validate_insert fields value;
          Ok (dict_update errors (prefix_errors name nested))
        else Ok errors
      else Ok errors
  | ListColumn a list_item_column =>
      errors ← Column_validate_insert name a model_as_dict;
      if is_empty errors then
        values ← py_iter (or_empty_list (py_get name model_as_dict));
        for_enumerate values errors
          (fun value => validate_insert name list_item_column [(name, value)])
      else Ok errors
  end.

(** [model_as_dict[name]] *)
Definition py_getitem (name : string) (model_as_dict : dict) : result value :=
  match dict_lookup name model_as_dict with
  | Some v => Ok v
  | None => Raise (KeyError name)
  end.

(** [validate_update] of a field *)
Fixpoint validate_update (name : string) (c : column) (model_as_dict : dict)
    {struct c} : result errors :=
  match c with
  | Column a => Column_validate_update name a model_as_dict
  | DictColumn a get_fields =>
      errors ← Column_validate_update name a model_as_dict;
      if is_empty errors then
        let value := py_get name model_as_dict in
        if negb (is_none value) then
          let fields := get_fields model_as_dict in
          _ ← check_names fields;
          nested ← record_validate_update validate_update fields value;
          Ok (dict_update errors (prefix_errors name nested))
        else Ok errors
      else Ok errors
  | ListColumn a list_item_column =>
      errors ← Column_validate_update name a model_as_dict;
      if is_empty errors then
        values ← py_getitem name model_as_dict;
        values ← py_iter values;
        for_enumerate values errors
          (fun value => validate_update name list_item_column [(name, value)])
      else Ok errors
  end.

(** ** Column: deserialization of one field *)

(** [EnumClass[name].value] *)
Definition enum_value_of_name (members : list (string * value)) (name : string)
  : result value :=
  match dict_lookup name members with
  | Some v => Ok v
  | None => Raise (KeyError name)
  end.

(** [Column._deserialize_value] *)
Definition _deserialize_value (name : string) (a : attrs) (v : value)
  : result value :=
  match self_field_type name a, v with
  | _, VNone => Ok VNone
  | TDateTime, VStr s =>
      match dateutil_parse s with
      | Some d => Ok (VDateTime d)
      | None => Raise ValueError
      end
  | TDate, VStr s =>
      match dateutil_parse s with
      | Some d => Ok (VDateTime d)
      | None => Raise ValueError
      end
  | TDate, VDate d =>
      (* dates cannot be stored in Mongo, use datetime instead *)
      Ok (VDateTime (mk_datetime d midnight))
  | TDate, VDateTime d =>
      (* Ensure that time is not something else than midnight *)
      Ok (VDateTime (mk_datetime (dt_date d) midnight))
  | TEnum _ members, VEnum _ _ v =>
      (* Enum cannot be stored in Mongo, use enum value instead *)
      Ok v
  | TEnum _ members, VStr s => enum_value_of_name members s
  | TObjectId, VObjectId _ => Ok v
  | TObjectId, _ =>
      match objectid_of v with
      | OidOk oid => Ok (VObjectId oid)
      | OidInvalid msg => Raise (InvalidId msg)
      | OidTypeError => Raise TypeError
      end
  | _, _ => Ok v
  end.

(** [Column.deserialize_query] *)
Definition Column_deserialize_query (name : string) (a : attrs)
    (model_as_dict : dict) : result dict :=
  let value := py_get name model_as_dict in
  if is_none value then
    if negb (allow_none_as_filter a) then Ok (dict_pop name model_as_dict)
    else Ok model_as_dict
  else
    v ← _deserialize_value name a value;
    Ok (dict_set name v model_as_dict).

(** [Column.deserialize_insert] *)
Definition Column_deserialize_insert (name : string) (a : attrs)
    (model_as_dict : dict) : result dict :=
  let value := py_get name model_as_dict in
  if is_none value then
    (* Ensure that None value are not stored to save space *)
    Ok (dict_pop name model_as_dict)
  else
    v ← _deserialize_value name a value;
    Ok (dict_set name v model_as_dict).

(** [Column.deserialize_update] *)
Definition Column_deserialize_update (name : string) (a : attrs)
    (model_as_dict : dict) : result dict :=
  let value := py_get name model_as_dict in
  if is_none value then
    (* Ensure that None value are not stored to save space *)
    Ok (dict_pop name model_as_dict)
  else
    v ← _deserialize_value name a value;
    Ok (dict_set name v model_as_dict).

(** ** CRUDModel: deserialization of one record *)

(** First loop of [deserialize_query] and [deserialize_update]: unknown
    fields leave the mapping, dot notation ones are gathered in
    [dot_model_as_dict]. The state is [(model_as_dict, dot_model_as_dict)]. *)
Definition gather_dot_notation (fields : list (string * column))
    (unknown_fields : list string) (model_as_dict : dict)
  : result (dict * dict) :=
  foldM (fun st unknown_field =>
    let '(m, dot_model_as_dict) := st in
    v ← py_getitem unknown_field m;
    let m := dict_pop unknown_field m in
    match _handle_dot_notation fields unknown_field v with
    | Some (known_field, field_value) =>
        dot ← setdefault_update known_field field_value dot_model_as_dict;
        Ok (m, dot)
    | None => Ok (m, dot_model_as_dict)   (* logger.warning *)
    end) (model_as_dict, []) unknown_fields.

(** [for inner_field_name, value in dot_model_as_dict[field.name].items()]:
    put back deserialized values as dot notation fields. *)
Definition put_back_dotted (name : string) (dot_model_as_dict : dict)
    (model_as_dict : dict) : result dict :=
  v ← py_getitem name dot_model_as_dict;
  match v with
  | VDict inner =>
      Ok (fold_left (fun m kv => dict_set (name ++ "." ++ fst kv) (snd kv) m)
                    inner model_as_dict)
  | _ => Raise AttributeError
  end.

Section RecordDeserialize.
Variable field_deserialize_query : string -> column -> dict -> result dict.
Variable field_deserialize_insert : string -> column -> dict -> result dict.
Variable field_deserialize_update : string -> column -> dict -> result dict.

(** Second loop of [deserialize_query] / [deserialize_update], over the
    fields whose name is a key of [dot_model_as_dict] when it starts. *)
Definition deserialize_dotted
    (field_deserialize : string -> column -> dict -> result dict)
    (fields : list (string * column)) (dot_model_as_dict : dict)
    (model_as_dict : dict) : result dict :=
  st ← foldM (fun st f =>
                let '(name, c) := f in
                let '(dot, m) := st in
                if dict_in name dot_model_as_dict then
                  dot ← field_deserialize name c dot;
                  m ← put_back_dotted name dot m;
                  Ok (dot, m)
                else Ok (dot, m))
             (dot_model_as_dict, model_as_dict) fields;
  Ok (snd st).

(** [CRUDModel.deserialize_query] *)
Definition record_deserialize_query (fields : list (string * column))
    (model_as_dict : dict) : result dict :=
  let queried_fields_names := present_field_names fields model_as_dict in
  let unknown_fields := keys_not_in queried_fields_names model_as_dict in
  st ← gather_dot_notation fields unknown_fields model_as_dict;
  let '(model_as_dict, dot_model_as_dict) := st in
  (* Deserialize dot notation values *)
  model_as_dict ← deserialize_dotted field_deserialize_query fields
                    dot_model_as_dict model_as_dict;
  let selected := model_as_dict in
  foldM (fun m f =>
           let '(name, c) := f in
           if dict_in name selected then field_deserialize_query name c m
           else Ok m)
        model_as_dict fields.

(** [CRUDModel.deserialize_update] *)
Definition record_deserialize_update (fields : list (string * column))
    (model_as_dict : dict) : result dict :=
  let updated_field_names := present_field_names fields model_as_dict in
  let unknown_fields := keys_not_in updated_field_names model_as_dict in
  st ← gather_dot_notation fields unknown_fields model_as_dict;
  let '(model_as_dict, dot_model_as_dict) := st in
  (* Deserialize dot notation values *)
  model_as_dict ← deserialize_dotted field_deserialize_update fields
                    dot_model_as_dict model_as_dict;
  let selected := model_as_dict in
  foldM (fun m f =>
           let '(name, c) := f in
           if dict_in name selected || is_primary_key (column_attrs c) then
             field_deserialize_update name c m
           else Ok m)
        model_as_dict fields.

(** First loop of [CRUDModel.deserialize_insert]: unknown fields leave
    the mapping, dot notation ones are folded into their known field. *)
Definition fold_unknown_insert (fields : list (string * column))
    (unknown_fields : list string) (model_as_dict : dict) : result dict :=
  foldM (fun m unknown_field =>
    v ← py_getitem unknown_field m;
    let m := dict_pop unknown_field m in
    match _handle_dot_notation fields unknown_field v with
    | Some (known_field, field_value) =>
        setdefault_update known_field field_value m
    | None => Ok m   (* logger.warning *)
    end) model_as_dict unknown_fields.

(** Second loop of [CRUDModel.deserialize_insert], over the state [S]
    that [cls._increment] reads and writes; what it wrote before an
    exception stays written. *)
Fixpoint deserialize_insert_fields {S : Type}
    (_increment : string -> S -> result value * S)
    (fields : list (string * column)) (model_as_dict : dict) (s : S)
  : result dict * S :=
  match fields with
  | [] => (Ok model_as_dict, s)
  | (name, c) :: fields' =>
      match field_deserialize_insert name c model_as_dict with
      | Raise e => (Raise e, s)
      | Ok m =>
          if should_auto_increment (column_attrs c) then
            match _increment name s with
            | (Ok v, s) =>
                deserialize_insert_fields _increment fields' (dict_set name v m) s
            | (Raise e, s) => (Raise e, s)
            end
          else deserialize_insert_fields _increment fields' m s
      end
  end.

(** [CRUDModel.deserialize_insert] *)
Definition record_deserialize_insert {S : Type}
    (_increment : string -> S -> result value * S)
    (fields : list (string * column)) (model_as_dict : dict) (s : S)
  : result dict * S :=
  let unknown_fields := keys_not_in (field_names fields) model_as_dict in
  match fold_unknown_insert fields unknown_fields model_as_dict with
  | Raise e => (Raise e, s)
  | Ok model_as_dict =>
      deserialize_insert_fields _increment fields model_as_dict s
  end.
End RecordDeserialize.

(** [_increment] of the record class [DictColumn._description_model]
    builds: it has no [__collection__], so [cls.__collection__.name]
    fails. *)
Definition unbound_increment (field_name : string) (s : unit)
  : result value * unit :=
  (Raise AttributeError, s).

(** Rebuilding a list from its items, each wrapped as [{name: value}]:
    the loop of [ListColumn.deserialize_*] and [ListColumn.serialize]. *)
Definition rebuild_list (name : string) (values : list value)
    (on_item : dict -> result dict) : result (list value) :=
  foldM (fun new_values value =>
           value_dict ← on_item [(name, value)];
           match dict_lookup name value_dict with
           | Some v => Ok (app new_values [v])
           | None => Ok new_values
           end)
        [] values.

(** [deserialize_query] of a field *)
Fixpoint deserialize_query (name : string) (c : column) (model_as_dict : dict)
    {struct c} : result dict :=
  match c with
  | Column a => Column_deserialize_query name a model_as_dict
  | DictColumn a get_fields =>
      let value := py_get name model_as_dict in
      if is_none value then
        if negb (allow_none_as_filter a) then Ok (dict_pop name model_as_dict)
        else Ok model_as_dict
      else
        let fields := get_fields model_as_dict in
        _ ← check_names fields;
        value ← as_mapping value;
        value ← record_deserialize_query deserialize_query fields value;
        Ok (dict_set name (VDict value) model_as_dict)
  | ListColumn a list_item_column =>
      let values := py_get name model_as_dict in
      if is_none values then
        if negb (allow_none_as_filter a) then Ok (dict_pop name model_as_dict)
        else Ok model_as_dict
      else
        values ← py_iter values;
        new_values ← rebuild_list name values
                       (deserialize_query name list_item_column);
        Ok (dict_set name (VList new_values) model_as_dict)
  end.

(** [deserialize_insert] of a field *)
Fixpoint deserialize_insert (name : string) (c : column) (model_as_dict : dict)
    {struct c} : result dict :=
  match c with
  | Column a => Column_deserialize_insert name a model_as_dict
  | DictColumn a get_fields =>
      let value := py_get name model_as_dict in
      if is_none value then
        (* Ensure that None value are not stored to save space *)
        Ok (dict_pop name model_as_dict)
      else
        let fields := get_fields model_as_dict in
        _ ← check_names fields;
        value ← as_mapping value;
        value ← fst (record_deserialize_insert deserialize_insert
                       unbound_increment fields value tt);
        Ok (dict_set name (VDict value) model_as_dict)
  | ListColumn a list_item_column =>
      let values := py_get name model_as_dict in
      if is_none values then
        (* Ensure that None value are not stored to save space *)
        Ok (dict_pop name model_as_dict)
      else
        values ← py_iter values;
        new_values ← rebuild_list name values
                       (deserialize_insert name list_item_column);
        Ok (dict_set name (VList new_values) model_as_dict)
  end.

(** [deserialize_update] of a field *)
Fixpoint deserialize_update (name : string) (c : column) (model_as_dict : dict)
    {struct c} : result dict :=
  match c with
  | Column a => Column_deserialize_update name a model_as_dict
  | DictColumn a get_fields =>
      let value := py_get name model_as_dict in
      if is_none value then
        (* Ensure that None value are not stored to save space *)
        Ok (dict_pop name model_as_dict)
      else
        let fields := get_fields model_as_dict in
        _ ← check_names fields;
        value ← as_mapping value;
        value ← record_deserialize_update deserialize_update fields value;
        Ok (dict_set name (VDict value) model_as_dict)
  | ListColumn a list_item_column =>
      let values := py_get name model_as_dict in
      if is_none values then
        (* Ensure that None value are not stored to save space *)
        Ok (dict_pop name model_as_dict)
      else
        values ← py_iter values;
        new_values ← rebuild_list name values
                       (deserialize_update name list_item_column);
        Ok (dict_set name (VList new_values) model_as_dict)
  end.

(** ** Serialization *)

(** [EnumClass(value).name]: a member of the class is itself, any other
    value is looked up among the member values. *)
Definition enum_name_of_value (cls : string) (members : list (string * value))
    (v : value) : result string :=
  let by_value := List.find (fun kv => py_eq (snd kv) v) members in
  match v, by_value with
  | VEnum cls' member _, _ =>
      if String.eqb cls cls' then Ok member
      else match by_value with
           | Some kv => Ok (fst kv)
           | None => Raise ValueError
           end
  | _, Some kv => Ok (fst kv)
  | _, None => Raise ValueError
  end.

(** [Column.serialize] *)
Definition Column_serialize (name : string) (a : attrs) (model_as_dict : dict)
  : result dict :=
  let value := py_get name model_as_dict in
  if is_none value then
    if is_nullable a then
      (* Make sure value is set in any case *)
      Ok (dict_set name (default_value a) model_as_dict)
    else Ok model_as_dict
  else
    match self_field_type name a with
    | TDateTime =>
        match value with
        | VDateTime d => Ok (dict_set name (VStr (datetime_isoformat d)) model_as_dict)
        | VDate d => Ok (dict_set name (VStr (date_isoformat d)) model_as_dict)
        | _ => Raise AttributeError
        end
    | TDate =>
        match value with
        | VDateTime d =>
            Ok (dict_set name (VStr (date_isoformat (dt_date d))) model_as_dict)
        | _ => Raise AttributeError
        end
    | TEnum cls members =>
        member ← enum_name_of_value cls members value;
        Ok (dict_set name (VStr member) model_as_dict)
    | TObjectId => Ok (dict_set name (VStr (py_str value)) model_as_dict)
    | _ => Ok model_as_dict
    end.

Section RecordSerialize.
Variable field_serialize : string -> column -> dict -> result dict.

(** [CRUDModel.serialize]: what it returns. For a truthy argument this
    is the argument itself, serialized in place. *)
Definition record_serialize (fields : list (string * column))
    (model_as_dict : value) : result dict :=
  if negb (truthy model_as_dict) then Ok []
  else
    m ← as_mapping model_as_dict;
    m ← foldM (fun m f => field_serialize (fst f) (snd f) m) m fields;
    (* Make sure fields that were stored in a previous version of a model
       are not returned if removed since then *)
    let known_fields := field_names fields in
    Ok (List.filter (fun kv => str_in (fst kv) known_fields) m).
End RecordSerialize.

(** [serialize] of a field *)
Fixpoint serialize (name : string) (c : column) (model_as_dict : dict)
    {struct c} : result dict :=
  match c with
  | Column a => Column_serialize name a model_as_dict
  | DictColumn a get_fields =>
      (* value = model_as_dict.get(self.name, {}) *)
      let value := default (VDict []) (dict_lookup name model_as_dict) in
      let fields := get_fields model_as_dict in
      _ ← check_names fields;
      if negb (truthy value) then Ok model_as_dict
      else
        value ← record_serialize serialize fields value;
        Ok (dict_set name (VDict value) model_as_dict)
  | ListColumn a list_item_column =>
      (* values = model_as_dict.get(self.name, []) *)
      let values := default (VList []) (dict_lookup name model_as_dict) in
      values ← py_iter values;
      new_values ← rebuild_list name values (serialize name list_item_column);
      Ok (dict_set name (VList new_values) model_as_dict)
  end.

(** ** The record class *)

(** A subclass of [CRUDModel], as [__init_subclass__] leaves it. *)
Record CRUDModel : Type := {
  __tablename__ : option string;
  __fields__ : list (string * column);
  (** [base is not None]: [__collection__] and [__counters__] are bound. *)
  has_base : bool;
  (** [audit_model] is set. *)
  audit_model : bool
}.

(** [inspect.getmembers] lists the attributes of the class sorted by
    name. *)
Fixpoint insert_sorted (f : string * column) (l : list (string * column))
  : list (string * column) :=
  match l with
  | [] => [f]
  | g :: l' =>
      if String.leb (fst f) (fst g) then f :: l else g :: insert_sorted f l'
  end.

Definition getmembers (attributes : list (string * column))
  : list (string * column) :=
  fold_right insert_sorted [] attributes.

Definition has_index (index_type : IndexType) (c : column) : bool :=
  match index_type, index_type_of c with
  | Unique, Some Unique | Other, Some Other => true
  | _, _ => false
  end.

(** [DictColumn.get_index_fields], as names: the indexed fields of the
    description model of a dict field, nested ones included. *)
Fixpoint column_index_fields (index_type : IndexType) (c : column)
  : result (list string) :=
  match c with
  | DictColumn a get_fields =>
      let fields := get_fields [] in
      _ ← check_names fields;
      let index_fields :=
        map fst (List.filter (fun f => has_index index_type (snd f)) fields) in
      foldM (fun acc f =>
               nested ← column_index_fields index_type (snd f);
               Ok (app acc nested))
            index_fields fields
  | _ => Ok []
  end.

(** [CRUDModel.get_index_fields], as names. *)
Definition record_index_fields (fields : list (string * column))
    (index_type : IndexType) : result (list string) :=
  let index_fields :=
    map fst (List.filter (fun f => has_index index_type (snd f)) fields) in
  foldM (fun acc f =>
           nested ← column_index_fields index_type (snd f);
           Ok (app acc nested))
        index_fields fields.

Definition get_index_fields (cls : CRUDModel) (index_type : IndexType)
  : result (list string) :=
  record_index_fields (__fields__ cls) index_type.

(** [CRUDModel.__init_subclass__]: the fields are the column attributes of
    the class, each bound to its attribute name; with a [base] the index
    criteria are computed for [create_index]. *)
Definition init_subclass (attributes : list (string * column))
    (base : bool) (table_name : option string) (audit : bool)
  : result CRUDModel :=
  let fields := getmembers attributes in
  _ ← check_names fields;
  _ ← (if base then
         _ ← record_index_fields fields Unique;
         _ ← record_index_fields fields Other; Ok tt
       else Ok tt);
  Ok {| __tablename__ := table_name; __fields__ := fields;
        has_base := base; audit_model := audit |}.

(** [CRUDModel.validate_query] *)
Definition CRUDModel_validate_query (cls : CRUDModel) (model_as_dict : dict)
  : result errors :=
  record_validate_query validate_query (__fields__ cls) model_as_dict.

(** [CRUDModel.validate_insert] *)
Definition CRUDModel_validate_insert (cls : CRUDModel) (model_as_dict : value)
  : result errors :=
  record_validate_insert validate_insert (__fields__ cls) model_as_dict.

(** [CRUDModel.validate_update] *)
Definition CRUDModel_validate_update (cls : CRUDModel) (model_as_dict : value)
  : result errors :=
  record_validate_update validate_update (__fields__ cls) model_as_dict.

(** [CRUDModel.deserialize_query] *)
Definition CRUDModel_deserialize_query (cls : CRUDModel) (model_as_dict : dict)
  : result dict :=
  record_deserialize_query deserialize_query (__fields__ cls) model_as_dict.

(** [CRUDModel.deserialize_update] *)
Definition CRUDModel_deserialize_update (cls : CRUDModel) (model_as_dict : dict)
  : result dict :=
  record_deserialize_update deserialize_update (__fields__ cls) model_as_dict.

(** [CRUDModel.serialize] *)
Definition CRUDModel_serialize (cls : CRUDModel) (model_as_dict : value)
  : result dict :=
  record_serialize serialize (__fields__ cls) model_as_dict.
End Fields.

(** ** Descriptions and documentation examples *)

(** [CRUDModel.description_dictionary] *)
Definition description_dictionary (cls : CRUDModel) : dict :=
  fold_left (fun description f => dict_set (fst f) (VStr (fst f)) description)
            (__fields__ cls)
            [("collection",
              match __tablename__ cls with
              | Some name => VStr name
              | None => VNone
              end)].

(** The float [1.4]: [6305039478318694 * 2^-52]. *)
Definition float_1_4 : spec_float := S754_finite false 6305039478318694 (-52).

(** [_get_default_example] of a column bound to [name]. *)
Definition _get_default_example (name : string) (a : attrs) : value :=
  match self_field_type name a with
  | TInt => VInt 1
  | TFloat => VFloat float_1_4
  | TBool => VBool true
  | TDate => VStr "2017-09-24"
  | TDateTime => VStr "2017-09-24T15:36:09"
  | TList => VList [VStr ("1st " ++ name ++ " sample");
                    VStr ("2nd " ++ name ++ " sample")]
  | TDict => VDict [("1st " ++ name ++ " key", VStr ("1st " ++ name ++ " sample"));
                    ("2nd " ++ name ++ " key", VStr ("2nd " ++ name ++ " sample"))]
  | TObjectId => VStr "1234567890QBCDEF01234567"
  | _ => VStr ("sample " ++ name)
  end.

(** [_get_example] of a column bound to [name]. *)
Fixpoint _get_example (name : string) (c : column) {struct c} : result value :=
  if negb (is_none (default_value (column_attrs c))) then
    Ok (default_value (column_attrs c))
  else
    match c with
    | DictColumn a get_fields =>
        let fields := get_fields [] in
        _ ← check_names fields;
        example ← foldM (fun example f =>
                           v ← _get_example (fst f) (snd f);
                           Ok (dict_set (fst f) v example))
                        [] fields;
        Ok (VDict example)
    | ListColumn a list_item_column =>
        v ← _get_example name list_item_column;
        Ok (VList [v])
    | Column a =>
        match get_choices a with
        | Some (first :: _) => Ok first
        | _ => Ok (_get_default_example name a)
        end
    end.

(** ** Storage and audit collaborators

    The collection and its counters live in MongoDB, behind [pymongo]; the
    audit model belongs to [audit_mongo]. The record class is embedded over
    a state that holds the documents of its collection, its counters, and
    the log of the calls issued to both collaborators. *)

(** What the driver decides: which documents a filter selects, when a
    document breaks a unique index, the [_id] it generates, what [$set]
    does to a document, and the text of a bulk write failure. *)
Class Driver : Type := {
  doc_matches : dict -> dict -> bool;
  duplicate_key : list string -> list dict -> dict -> bool;
  new_object_id : nat -> string;
  apply_set : dict -> dict -> dict;
  bulk_write_details : nat -> dict -> string
}.

Inductive event : Type :=
| Count (filter : dict)
| FindOne (filter : dict)
| Find (filter : dict) (skip limit : Z)
| InsertOne (doc : dict) (inserted : bool)
| InsertMany (docs : list dict) (inserted : nat)
| UpdateOne (filter update : dict) (updated : bool)
| DeleteMany (filter : dict) (deleted_count : nat)
| FindOneAndUpdate (field_name : string) (counter : Z)
| AuditAdd (doc : dict)
| AuditUpdate (doc : dict)
| AuditRemove (filter : dict).

Record world : Type := {
  documents : list dict;      (* the collection, in insertion order *)
  counters : pydict Z;        (* the counters document of the collection *)
  generated : nat;            (* how many [_id] the driver generated *)
  log : list event            (* calls issued so far, oldest first *)
}.

Definition emit (e : event) (w : world) : world :=
  {| documents := documents w; counters := counters w;
     generated := generated w; log := app (log w) [e] |}.

Definition set_documents (docs : list dict) (w : world) : world :=
  {| documents := docs; counters := counters w;
     generated := generated w; log := log w |}.

(** A computation: it reads and writes the world, and returns or raises.
    What was written before an exception stays written. *)
Definition M (A : Type) : Type := world -> result A * world.

Definition ret {A : Type} (a : A) : M A := fun w => (Ok a, w).
Definition raise {A : Type} (e : exn) : M A := fun w => (Raise e, w).
Definition lift {A : Type} (r : result A) : M A := fun w => (r, w).
Definition bind {A B : Type} (c : M A) (k : A -> M B) : M B :=
  fun w => match c w with
           | (Ok a, w') => k a w'
           | (Raise e, w') => (Raise e, w')
           end.

Notation "'do' x <- c ; k" := (bind c (fun x => k))
  (at level 10, x name, c at level 100, k at level 200).
Notation "'do' ' p <- c ; k" := (bind c (fun x => match x with p => k end))
  (at level 10, p pattern, c at level 100, k at level 200).
Notation "'run' c ; k" := (bind c (fun _ => k))
  (at level 10, c at level 100, k at level 200).

Fixpoint forM {A S : Type} (body : S -> A -> M S) (s : S) (l : list A) : M S :=
  match l with
  | [] => ret s
  | x :: l' => do s' <- body s x; forM body s' l'
  end.

Section Storage.
Context {rt : Runtime} {dr : Driver}.
Variable cls : CRUDModel.

(** Any use of [cls.__collection__] or [cls.__counters__] fails on a class
    declared without [base]. *)
Definition bound : M unit :=
  if has_base cls then ret tt else raise AttributeError.

Definition unique_fields : list string :=
  match get_index_fields cls Unique with
  | Ok names => names
  | Raise _ => []
  end.

(** The driver adds an [_id] to a document that has none. *)
Definition with_id (doc : dict) (w : world) : dict * world :=
  if dict_in "_id" doc then (doc, w)
  else (dict_set "_id" (VObjectId (new_object_id (generated w))) doc,
        {| documents := documents w; counters := counters w;
           generated := S (generated w); log := log w |}).

(** [cls.__collection__.insert_one(doc)]: the document as the driver
    leaves it, and whether it was stored. *)
Definition insert_one (doc : dict) : M (dict * bool) :=
  run bound;
  fun w =>
    let '(doc, w) := with_id doc w in
    if duplicate_key unique_fields (documents w) doc then
      (Ok (doc, false), emit (InsertOne doc false) w)
    else
      (Ok (doc, true),
       emit (InsertOne doc true) (set_documents (app (documents w) [doc]) w)).

(** [cls.__collection__.insert_many(docs)], an ordered bulk write: it
    stops at the first document that cannot be stored. Returns the
    documents as the driver leaves them and the failure, if any. *)
Fixpoint insert_each (index : nat) (docs : list dict) (w : world)
  : list dict * option string * world :=
  match docs with
  | [] => ([], None, w)
  | doc :: docs' =>
      let '(doc, w) := with_id doc w in
      if duplicate_key unique_fields (documents w) doc then
        (doc :: docs', Some (bulk_write_details index doc), w)
      else
        let '(rest, failure, w) :=
          insert_each (S index) docs' (set_documents (app (documents w) [doc]) w) in
        (doc :: rest, failure, w)
  end.

Definition insert_many (docs : list dict) : M (list dict * option string) :=
  run bound;
  fun w =>
    let before := length (documents w) in
    let '(docs, failure, w) := insert_each O docs w in
    (Ok (docs, failure),
     emit (InsertMany docs (length (documents w) - before)%nat) w).

(** [cls.__collection__.count(filter)] *)
Definition count (filter : dict) : M nat :=
  run bound;
  fun w => (Ok (length (List.filter (doc_matches filter) (documents w))),
            emit (Count filter) w).

(** [cls.__collection__.find_one(filter)]: a document or [None]. *)
Definition find_one (filter : dict) : M value :=
  run bound;
  fun w => (Ok (match List.find (doc_matches filter) (documents w) with
                | Some doc => VDict doc
                | None => VNone
                end),
            emit (FindOne filter) w).

(** [cls.__collection__.find(filter, skip=offset, limit=limit)] *)
Definition find (filter : dict) (skip limit : Z) : M (list dict) :=
  run bound;
  fun w =>
    let found := List.filter (doc_matches filter) (documents w) in
    let found := drop (Z.to_nat skip) found in
    let found := if limit =? 0 then found else take (Z.to_nat limit) found in
    (Ok found, emit (Find filter skip limit) w).

(** The first document the filter selects is replaced by [f] of it. *)
Fixpoint update_first (filter : dict) (f : dict -> dict) (docs : list dict)
  : list dict :=
  match docs with
  | [] => []
  | doc :: docs' =>
      if doc_matches filter doc then f doc :: docs'
      else doc :: update_first filter f docs'
  end.

Fixpoint without_first (filter : dict) (docs : list dict) : list dict :=
  match docs with
  | [] => []
  | doc :: docs' =>
      if doc_matches filter doc then docs' else doc :: without_first filter docs'
  end.

(** [cls.__collection__.update_one(filter, {'$set': update})] *)
Definition update_one (filter update : dict) : M unit :=
  run bound;
  fun w =>
    match List.find (doc_matches filter) (documents w) with
    | None => (Ok tt, emit (UpdateOne filter update false) w)
    | Some doc =>
        if duplicate_key unique_fields (without_first filter (documents w))
                         (apply_set doc update) then
          (Raise DuplicateKeyError, emit (UpdateOne filter update false) w)
        else
          (Ok tt,
           emit (UpdateOne filter update true)
             (set_documents
                (update_first filter (fun doc => apply_set doc update) (documents w))
                w))
    end.

(** [cls.__collection__.delete_many(filter).deleted_count] *)
Definition delete_many (filter : dict) : M nat :=
  run bound;
  fun w =>
    let kept := List.filter (fun doc => negb (doc_matches filter doc)) (documents w) in
    let deleted_count := (length (documents w) - length kept)%nat in
    (Ok deleted_count, emit (DeleteMany filter deleted_count) (set_documents kept w)).

(** [CRUDModel._increment]: one [find_one_and_update] with [$inc],
    [upsert=True] and [ReturnDocument.AFTER]. *)
Definition _increment (field_name : string) : M value :=
  run bound;
  fun w =>
    let counter := default 0 (dict_lookup field_name (counters w)) + 1 in
    (Ok (VInt counter),
     emit (FindOneAndUpdate field_name counter)
       {| documents := documents w;
          counters := dict_set field_name counter (counters w);
          generated := generated w; log := log w |}).

(** The hooks of the audit model, called when one is linked. *)
Definition audit (e : event) : M unit :=
  if audit_model cls then fun w => (Ok tt, emit e w) else ret tt.
End Storage.

(** ** CRUDModel: the record lifecycle *)

Section Operations.
Context {rt : Runtime} {dr : Driver}.
Variable cls : CRUDModel.

(** [CRUDModel.deserialize_insert] on the class itself, where
    [cls._increment] reaches the counters. *)
Definition CRUDModel_deserialize_insert (model_as_dict : dict) : M dict :=
  record_deserialize_insert deserialize_insert (_increment cls)
    (__fields__ cls) model_as_dict.

Definition more_than_one : string :=
  "More than one result: Consider another filtering.".

(** [CRUDModel.get] *)
Definition get (model_to_query : dict) : M dict :=
  do errors <- lift (CRUDModel_validate_query cls model_to_query);
  if negb (is_empty errors) then
    raise (ValidationFailed (VDict model_to_query) (FieldErrors errors))
  else
    do model_to_query <- lift (CRUDModel_deserialize_query cls model_to_query);
    do n <- count cls model_to_query;
    if (1 <? n)%nat then
      raise (ValidationFailed (VDict model_to_query) (Message more_than_one))
    else
      do model <- find_one cls model_to_query;
      lift (CRUDModel_serialize cls model).

(** [model_to_query.pop(key, 0) or 0] *)
Definition pop_or_zero (key : string) (model_to_query : dict) : result Z :=
  let v := default (VInt 0) (dict_lookup key model_to_query) in
  if truthy v then
    match v with
    | VInt n => Ok n
    | VBool b => Ok (if b then 1 else 0)
    | _ => Raise TypeError
    end
  else Ok 0.

(** [[cls.serialize(model) for model in models]] *)
Definition serialize_all (models : list dict) : result (list dict) :=
  foldM (fun acc model =>
           r ← CRUDModel_serialize cls (VDict model); Ok (app acc [r]))
        [] models.

(** [CRUDModel.get_all] *)
Definition get_all (model_to_query : dict) : M (list dict) :=
  let limit := pop_or_zero "limit" model_to_query in
  let model_to_query := dict_pop "limit" model_to_query in
  let offset := pop_or_zero "offset" model_to_query in
  let model_to_query := dict_pop "offset" model_to_query in
  do errors <- lift (CRUDModel_validate_query cls model_to_query);
  if negb (is_empty errors) then
    raise (ValidationFailed (VDict model_to_query) (FieldErrors errors))
  else
    do model_to_query <- lift (CRUDModel_deserialize_query cls model_to_query);
    do offset <- lift offset;
    do limit <- lift limit;
    do models <- find cls model_to_query offset limit;
    lift (serialize_all models).

(** [CRUDModel.add] *)
Definition add (model_as_dict : value) : M dict :=
  do errors <- lift (CRUDModel_validate_insert cls model_as_dict);
  if negb (is_empty errors) then
    raise (ValidationFailed model_as_dict (FieldErrors errors))
  else
    do model_as_dict <- lift (as_mapping model_as_dict);
    do model_as_dict <- CRUDModel_deserialize_insert model_as_dict;
    do r <- insert_one cls model_as_dict;
    let '(model_as_dict, inserted) := r in
    if inserted then
      run audit cls (AuditAdd model_as_dict);
      lift (CRUDModel_serialize cls (VDict model_as_dict))
    else
      (* except pymongo.errors.DuplicateKeyError *)
      do received <- lift (CRUDModel_serialize cls (VDict model_as_dict));
      raise (ValidationFailed (VDict received) (Message "This item already exists.")).

(** The body of the loop of [CRUDModel.add_all] over the copy of the
    batch: the state is the index, the errors so far and the items already
    visited. *)
Definition validate_step (st : nat * list (nat * errors) * list value)
    (model_as_dict : value) : M (nat * list (nat * errors) * list value) :=
  let '(index, errors, visited) := st in
  do model_errors <- lift (CRUDModel_validate_insert cls model_as_dict);
  if negb (is_empty model_errors) then
    ret (S index, app errors [(index, model_errors)],
         app visited [model_as_dict])
  else
    do m <- lift (as_mapping model_as_dict);
    do m <- CRUDModel_deserialize_insert m;
    ret (S index, errors, app visited [VDict m]).

Definition validate_each (new_models_as_list_of_dict : list value)
  : M (list (nat * errors) * list value) :=
  do st <- forM validate_step (O, [], []) new_models_as_list_of_dict;
  ret (snd (fst st), snd st).

Definition as_mappings (models : list value) : result (list dict) :=
  foldM (fun acc model => m ← as_mapping model; Ok (app acc [m])) [] models.

(** [CRUDModel.add_all] *)
Definition add_all (models_as_list_of_dict : list value) : M (list dict) :=
  if is_empty models_as_list_of_dict then
    raise (ValidationFailed (VList []) (Message "No data provided."))
  else
    do st <- validate_each models_as_list_of_dict;
    let '(errors, new_models_as_list_of_dict) := st in
    if negb (is_empty errors) then
      raise (ValidationFailed (VList models_as_list_of_dict) (BatchErrors errors))
    else
      do docs <- lift (as_mappings new_models_as_list_of_dict);
      do r <- insert_many cls docs;
      let '(docs, failure) := r in
      match failure with
      | Some details =>
          (* except pymongo.errors.BulkWriteError *)
          raise (ValidationFailed (VList models_as_list_of_dict) (Message details))
      | None =>
          run forM (fun _ inserted_dict => audit cls (AuditAdd inserted_dict)) tt docs;
          lift (serialize_all docs)
      end.

(** [CRUDModel._to_primary_keys_model] *)
Definition _to_primary_keys_model (model_as_dict : dict) : dict :=
  let primary_key_field_names :=
    map fst (List.filter (fun f => is_primary_key (column_attrs (snd f)))
                         (__fields__ cls)) in
  List.filter (fun kv => str_in (fst kv) primary_key_field_names) model_as_dict.

(** [CRUDModel._update_one] *)
Definition _update_one (model_as_dict : dict) : M (value * value) :=
  let model_as_dict_keys := _to_primary_keys_model model_as_dict in
  do previous_model_as_dict <- find_one cls model_as_dict_keys;
  if negb (truthy previous_model_as_dict) then
    raise (ModelCouldNotBeFound model_as_dict_keys)
  else
    run update_one cls model_as_dict_keys model_as_dict;
    do new_model_as_dict <- find_one cls model_as_dict_keys;
    ret (previous_model_as_dict, new_model_as_dict).

Definition audited (v : value) : dict :=
  match v with VDict d => d | _ => [] end.

(** [CRUDModel.update] *)
Definition update (model_as_dict : value) : M (dict * dict) :=
  if negb (truthy model_as_dict) then
    raise (ValidationFailed (VDict []) (Message "No data provided."))
  else
    do errors <- lift (CRUDModel_validate_update cls model_as_dict);
    if negb (is_empty errors) then
      raise (ValidationFailed model_as_dict (FieldErrors errors))
    else
      do model_as_dict <- lift (as_mapping model_as_dict);
      do model_as_dict <- lift (CRUDModel_deserialize_update cls model_as_dict);
      do r <- _update_one model_as_dict;
      let '(previous_model_as_dict, new_model_as_dict) := r in
      run audit cls (AuditUpdate (audited new_model_as_dict));
      do previous <- lift (CRUDModel_serialize cls previous_model_as_dict);
      do new <- lift (CRUDModel_serialize cls new_model_as_dict);
      ret (previous, new).

(** [CRUDModel.remove] *)
Definition remove (model_to_query : dict) : M nat :=
  do errors <- lift (CRUDModel_validate_query cls model_to_query);
  if negb (is_empty errors) then
    raise (ValidationFailed (VDict model_to_query) (FieldErrors errors))
  else
    do model_to_query <- lift (CRUDModel_deserialize_query cls model_to_query);
    run audit cls (AuditRemove model_to_query);
    delete_many cls model_to_query.
End Operations.

(** ** A reference runtime and driver

    One implementation of each collaborator, used to run the model on
    concrete inputs: ISO dates, 24-character hexadecimal identifiers, and
    a driver that selects documents by equality on (dotted) paths. *)

Module Reference.

Definition is_digit (c : ascii) : bool :=
  let n := nat_of_ascii c in ((48 <=? n) && (n <=? 57))%nat.

Definition is_hex (c : ascii) : bool :=
  let n := nat_of_ascii c in
  (((48 <=? n) && (n <=? 57)) || ((97 <=? n) && (n <=? 102))
   || ((65 <=? n) && (n <=? 70)))%nat.

Definition number (l : list ascii) : Z :=
  fold_left (fun acc c => acc * 10 + Z.of_nat (nat_of_ascii c - 48)) l 0.

(** [YYYY-MM-DD], the only text this parser accepts. *)
Definition parse (s : string) : option datetime :=
  match list_ascii_of_string s with
  | [y1; y2; y3; y4; d1; m1; m2; d2; a1; a2] =>
      if forallb is_digit [y1; y2; y3; y4; m1; m2; a1; a2]
         && Ascii.eqb d1 "-"%char && Ascii.eqb d2 "-"%char
      then Some (mk_datetime
                   (mk_date (number [y1; y2; y3; y4]) (number [m1; m2])
                            (number [a1; a2]))
                   midnight)
      else None
  | _ => None
  end.

Definition digits (width : nat) (n : Z) : string :=
  let text := NilZero.string_of_uint (N.to_uint (Z.to_N n)) in
  string_of_list_ascii
    (app (repeat "0"%char (width - String.length text)) (list_ascii_of_string text)).

Definition iso_date (d : date) : string :=
  digits 4 (year d) ++ "-" ++ digits 2 (month d) ++ "-" ++ digits 2 (day d).

Definition iso_datetime (d : datetime) : string :=
  iso_date (dt_date d) ++ "T" ++ digits 2 (hour (dt_time d)) ++ ":"
  ++ digits 2 (minute (dt_time d)) ++ ":" ++ digits 2 (second (dt_time d)).

Definition object_id (v : value) : objectid_outcome :=
  match v with
  | VStr s =>
      if (String.length s =? 24)%nat && forallb is_hex (list_ascii_of_string s)
      then OidOk s
      else OidInvalid (s ++ " is not a valid ObjectId, it must be a 12-byte input or a 24-character hex string")
  | _ => OidTypeError
  end.

Definition join (sep : string) (l : list string) : string :=
  match l with
  | [] => EmptyString
  | x :: r => fold_left (fun acc y => acc ++ sep ++ y) r x
  end.

(** [repr(v)] for the values whose text is plain; the others print as
    their type name. *)
Fixpoint repr (v : value) : string :=
  match v with
  | VNone => "None"
  | VBool b => if b then "True" else "False"
  | VInt n => NilZero.string_of_int (Z.to_int n)
  | VFloat _ => "float"
  | VStr s => "'" ++ s ++ "'"
  | VDate d => iso_date d
  | VDateTime d => iso_datetime d
  | VEnum cls member _ => cls ++ "." ++ member
  | VObjectId oid => oid
  | VList l => "[" ++ join ", " (map repr l) ++ "]"
  | VDict d =>
      "{" ++ join ", " (map (fun kv => "'" ++ fst kv ++ "': " ++ repr (snd kv)) d)
      ++ "}"
  end.

#[export] Instance runtime : Runtime := {|
  dateutil_parse := parse;
  datetime_isoformat := iso_datetime;
  date_isoformat := iso_date;
  objectid_of := object_id;
  str_of := repr
|}.

(** The value a dotted path reaches in a document; [None] when it reaches
    nothing. *)
Fixpoint path_get (fuel : nat) (path : string) (doc : dict) : value :=
  match dict_lookup path doc with
  | Some v => v
  | None =>
      match fuel, split_dot path with
      | S fuel', Some (parent, child) =>
          match dict_lookup parent doc with
          | Some (VDict inner) => path_get fuel' child inner
          | _ => VNone
          end
      | _, _ => VNone
      end
  end.

Fixpoint path_set (fuel : nat) (path : string) (v : value) (doc : dict) : dict :=
  match fuel, split_dot path with
  | S fuel', Some (parent, child) =>
      match dict_lookup parent doc with
      | Some (VDict inner) => dict_set parent (VDict (path_set fuel' child v inner)) doc
      | _ => dict_set parent (VDict (path_set fuel' child v [])) doc
      end
  | _, _ => dict_set path v doc
  end.

Definition matches (filter doc : dict) : bool :=
  forallb (fun kv => py_eq (path_get (String.length (fst kv)) (fst kv) doc) (snd kv))
          filter.

Definition same_key (names : list string) (a b : dict) : bool :=
  forallb (fun name => py_eq (py_get name a) (py_get name b)) names.

(** A document is refused when its [_id], or its key in the unique index,
    is the one of a stored document. *)
Definition duplicate (unique : list string) (docs : list dict) (doc : dict)
  : bool :=
  existsb (fun stored =>
             same_key ["_id"] stored doc
             || (negb (is_empty unique) && same_key unique stored doc))
          docs.

#[export] Instance driver : Driver := {|
  doc_matches := matches;
  duplicate_key := duplicate;
  new_object_id := fun n => digits 24 (Z.of_nat n);
  apply_set := fun doc update =>
    fold_left (fun d kv => path_set (String.length (fst kv)) (fst kv) (snd kv) d)
              update doc;
  bulk_write_details := fun index doc =>
    "E11000 duplicate key error at index " ++ decimal index
|}.

Definition empty_world : world :=
  {| documents := []; counters := []; generated := 0; log := [] |}.

(** The model of the example scenario:
    [key = Column(str, is_primary_key=True)] and
    [value = Column(int, default_value=0)]. *)
Definition primary_key : kwargs := {|
  kw_name := None; kw_choices := NoChoices; kw_default_value := VNone;
  kw_description := None; kw_index_type := None;
  kw_allow_none_as_filter := false; kw_is_primary_key := true;
  kw_should_auto_increment := false; kw_is_nullable := true;
  kw_is_required := false |}.

Definition with_default (v : value) : kwargs := {|
  kw_name := None; kw_choices := NoChoices; kw_default_value := v;
  kw_description := None; kw_index_type := None;
  kw_allow_none_as_filter := false; kw_is_primary_key := false;
  kw_should_auto_increment := false; kw_is_nullable := true;
  kw_is_required := false |}.

Definition key_attrs : attrs := {|
  field_type := TStr; choices := NoChoices; default_value := VNone;
  description := None; index_type := None; allow_none_as_filter := false;
  is_primary_key := true; should_auto_increment := false;
  is_nullable := false; is_required := false |}.

Definition value_attrs : attrs := {|
  field_type := TInt; choices := NoChoices; default_value := VInt 0;
  description := None; index_type := None; allow_none_as_filter := false;
  is_primary_key := false; should_auto_increment := false;
  is_nullable := true; is_required := false |}.

(** [tags = ListColumn(Column(str))] and [details = Column(dict)]. *)
Definition text_attrs : attrs := {|
  field_type := TStr; choices := NoChoices; default_value := VNone;
  description := None; index_type := None; allow_none_as_filter := false;
  is_primary_key := false; should_auto_increment := false;
  is_nullable := true; is_required := false |}.

Definition tags_attrs : attrs := {|
  field_type := TList; choices := NoChoices; default_value := VNone;
  description := None; index_type := None; allow_none_as_filter := false;
  is_primary_key := false; should_auto_increment := false;
  is_nullable := true; is_required := false |}.

Definition tags_column : column := ListColumn tags_attrs (Column text_attrs).

Definition details_attrs : attrs := {|
  field_type := TDict; choices := NoChoices; default_value := VNone;
  description := None; index_type := None; allow_none_as_filter := false;
  is_primary_key := false; should_auto_increment := false;
  is_nullable := true; is_required := false |}.

(** A model with a dict field, for dot notation. *)
Definition details_model : CRUDModel := {|
  __tablename__ := Some "details_table_name";
  __fields__ := [("details", Column details_attrs); ("key", Column key_attrs)];
  has_base := true;
  audit_model := false |}.

(** [{'key': 3, 'details': {'x': 1}, 'details.y': 'z'}] *)
Definition dotted_record : value :=
  VDict [("key", VInt 3); ("details", VDict [("x", VInt 1)]);
         ("details.y", VStr "z")].

Definition key_value_model (audit : bool) : CRUDModel := {|
  __tablename__ := Some "sample_table_name";
  __fields__ := [("key", Column key_attrs); ("value", Column value_attrs)];
  has_base := true;
  audit_model := audit |}.

End Reference.

(** ** Mappings as objects

    The record-level [validate_*] methods work on [copy.deepcopy] of the
    mapping they receive. What that protects cannot be said over trees,
    where a copy and its original are the same value: here dicts and
    lists are objects of a heap, held by reference, and [setdefault],
    [update] and item assignment write into the object they are called
    on. *)

Module Objects.

(** A value as a variable or a slot holds it: an immutable value, or the
    location of a dict or list. *)
Inductive slot : Type :=
| Atom (v : value)
| Ref (l : nat).

Inductive object : Type :=
| ODict (entries : pydict slot)
| OList (items : list slot).

Abbreviation heap := (list object).

(** A new object goes to the end of the heap. *)
Definition alloc (o : object) (h : heap) : nat * heap :=
  (length h, app h [o]).

(** Putting a tree on the heap, as parsing a JSON body does: one object
    per dict and per list. *)
Fixpoint store (v : value) (h : heap) {struct v} : slot * heap :=
  match v with
  | VList items =>
      let '(slots, h) :=
        (fix store_items (items : list value) (h : heap) : list slot * heap :=
           match items with
           | [] => ([], h)
           | x :: items' =>
               let '(s, h) := store x h in
               let '(rest, h) := store_items items' h in
               (s :: rest, h)
           end) items h in
      let '(l, h) := alloc (OList slots) h in
      (Ref l, h)
  | VDict entries =>
      let '(slots, h) :=
        (fix store_entries (entries : list (string * value)) (h : heap)
           : pydict slot * heap :=
           match entries with
           | [] => ([], h)
           | (k, x) :: entries' =>
               let '(s, h) := store x h in
               let '(rest, h) := store_entries entries' h in
               ((k, s) :: rest, h)
           end) entries h in
      let '(l, h) := alloc (ODict slots) h in
      (Ref l, h)
  | _ => (Atom v, h)
  end.

(** The tree a slot denotes, read through at most [fuel] references. *)
Fixpoint view (fuel : nat) (h : heap) (s : slot) : option value :=
  match s with
  | Atom v => Some v
  | Ref l =>
      match fuel with
      | O => None
      | S fuel' =>
          match h !! l with
          | Some (ODict entries) =>
              entries ← mapM (fun kv => v ← view fuel' h (snd kv);
                                         Some (fst kv, v)) entries;
              Some (VDict entries)
          | Some (OList items) =>
              items ← mapM (view fuel' h) items;
              Some (VList items)
          | None => None
          end
      end
  end.

(** [copy.deepcopy]'s memo: original location to location of its copy. *)
Definition memo : Type := list (nat * nat).

Definition memo_lookup (l : nat) (m : memo) : option nat :=
  match List.find (fun p => Nat.eqb (fst p) l) m with
  | Some p => Some (snd p)
  | None => None
  end.

(** [y[key] = x] on the dict at [l]. *)
Definition setitem (l : nat) (key : string) (x : slot) (h : heap) : heap :=
  match h !! l with
  | Some (ODict entries) => <[l := ODict (dict_set key x entries)]> h
  | _ => h
  end.

(** [y.append(x)] on the list at [l]. *)
Definition append (l : nat) (x : slot) (h : heap) : heap :=
  match h !! l with
  | Some (OList items) => <[l := OList (app items [x])]> h
  | _ => h
  end.

Fixpoint fold_option {A S : Type} (f : S -> A -> option S) (s : S) (l : list A)
  : option S :=
  match l with
  | [] => Some s
  | x :: l' =>
      match f s x with
      | Some s' => fold_option f s' l'
      | None => None
      end
  end.

(** One turn of the loops of [copy.deepcopy] over the entries of a dict
    and the items of a list: [y[key] = copy(value)] and
    [y.append(copy(item))]. *)
Definition copy_entry (copy : slot -> heap -> memo -> option (slot * heap * memo))
    (y : nat) (st : heap * memo) (kv : string * slot) : option (heap * memo) :=
  r ← copy (snd kv) (fst st) (snd st);
  Some (setitem y (fst kv) (fst (fst r)) (snd (fst r)), snd r).

Definition copy_item (copy : slot -> heap -> memo -> option (slot * heap * memo))
    (y : nat) (st : heap * memo) (item : slot) : option (heap * memo) :=
  r ← copy item (fst st) (snd st);
  Some (append y (fst (fst r)) (snd (fst r)), snd r).

(** [copy.deepcopy(x, memo)]: an immutable value is its own copy; a dict
    or list already copied is found in the memo; otherwise an empty
    object is allocated, recorded in the memo, and filled with the copies
    of the items. [None] when the fuel runs out or a location holds
    nothing. *)
Fixpoint deepcopy (fuel : nat) (x : slot) (h : heap) (m : memo)
  : option (slot * heap * memo) :=
  match x with
  | Atom _ => Some (x, h, m)
  | Ref l =>
      match memo_lookup l m with
      | Some l' => Some (Ref l', h, m)
      | None =>
          match fuel with
          | O => None
          | S fuel' =>
              match h !! l with
              | Some (ODict entries) =>
                  st ← fold_option (copy_entry (deepcopy fuel') (length h))
                         (app h [ODict []], (l, length h) :: m) entries;
                  Some (Ref (length h), fst st, snd st)
              | Some (OList items) =>
                  st ← fold_option (copy_item (deepcopy fuel') (length h))
                         (app h [OList []], (l, length h) :: m) items;
                  Some (Ref (length h), fst st, snd st)
              | None => None
              end
          end
      end
  end.

(** [bool(x)] *)
Definition slot_truthy (h : heap) (x : slot) : bool :=
  match x with
  | Atom v => truthy v
  | Ref l =>
      match h !! l with
      | Some (ODict (_ :: _)) | Some (OList (_ :: _)) => true
      | _ => false
      end
  end.

(** The entries of the dict a slot refers to. *)
Definition entries_of (h : heap) (x : slot) : result (pydict slot) :=
  match x with
  | Ref l =>
      match h !! l with
      | Some (ODict entries) => Ok entries
      | _ => Raise TypeError
      end
  | Atom _ => Raise TypeError
  end.

(** [CRUDModel._handle_dot_notation]: the name of the known field and the
    key of the one-entry dict it returns with it. *)
Definition dot_notation (fields : list (string * column)) (field_name : string)
  : option (string * string) :=
  match split_dot field_name with
  | Some (parent, child) =>
      match List.find (fun f => String.eqb (fst f) parent
                         && is_dict (self_field_type (fst f) (column_attrs (snd f))))
                      fields with
      | Some f => Some (fst f, child)
      | None => None
      end
  | None => None
  end.

(** [previous_dict = new_model_as_dict.setdefault(known_field, {})]
    followed by [previous_dict.update({child: v})], on the dict at
    [new]. *)
Definition setdefault_update (known_field child : string) (v : slot)
    (new : nat) (h : heap) : heap * result unit :=
  match h !! new with
  | Some (ODict entries) =>
      let '(previous_dict, h) :=
        match dict_lookup known_field entries with
        | Some p => (p, h)
        | None =>
            let '(p, h) := alloc (ODict []) h in
            (Ref p, <[new := ODict (dict_set known_field (Ref p) entries)]> h)
        end in
      match previous_dict with
      | Ref p =>
          match h !! p with
          | Some (ODict previous) =>
              (<[p := ODict (dict_update previous [(child, v)])]> h, Ok tt)
          | _ => (h, Raise AttributeError)
          end
      | Atom _ => (h, Raise AttributeError)
      end
  | _ => (h, Raise TypeError)
  end.

(** The loop of the three [validate_*] methods over the unknown fields,
    on the copy at [new]. *)
Fixpoint fold_dot_notation (fields : list (string * column))
    (unknown_fields : list string) (new : nat) (h : heap)
  : heap * result unit :=
  match unknown_fields with
  | [] => (h, Ok tt)
  | unknown_field :: unknown_fields' =>
      match entries_of h (Ref new) with
      | Raise e => (h, Raise e)
      | Ok entries =>
          match dict_lookup unknown_field entries with
          | None => (h, Raise (KeyError unknown_field))
          | Some v =>
              match dot_notation fields unknown_field with
              | Some (known_field, child) =>
                  match setdefault_update known_field child v new h with
                  | (h, Ok _) => fold_dot_notation fields unknown_fields' new h
                  | (h, Raise e) => (h, Raise e)
                  end
              | None => fold_dot_notation fields unknown_fields' new h
              end
          end
      end
  end.

Section Validation.
Context {rt : Runtime}.
Variable cls : CRUDModel.

(** The per-field methods read the copy; what they report is computed on
    the tree it denotes. *)
Definition on_view (h : heap) (new : nat)
    (validate_fields : dict -> result errors) : result errors :=
  match view (S (length h)) h (Ref new) with
  | Some (VDict d) => validate_fields d
  | _ => Raise RecursionError
  end.

(** [new_model_as_dict = copy.deepcopy(model_as_dict)] followed by the
    loop over [unknown_fields] and by the per-field checks. *)
Definition validate_on_copy (h : heap) (model_as_dict : slot)
    (unknown_fields : pydict slot -> list string)
    (validate_fields : dict -> result errors) : heap * result errors :=
  match deepcopy (S (length h)) model_as_dict h [] with
  | Some (Ref new, h, _) =>
      match entries_of h (Ref new) with
      | Raise e => (h, Raise e)
      | Ok entries =>
          match fold_dot_notation (__fields__ cls) (unknown_fields entries) new h with
          | (h, Ok _) => (h, on_view h new validate_fields)
          | (h, Raise e) => (h, Raise e)
          end
      end
  | Some (Atom _, h, _) => (h, Raise TypeError)
  | None => (h, Raise RecursionError)
  end.

(** [CRUDModel.validate_query] on the mapping at [model_as_dict]: the
    heap it leaves and the errors it returns. *)
Definition CRUDModel_validate_query (h : heap) (model_as_dict : slot)
  : heap * result errors :=
  match entries_of h model_as_dict with
  | Raise e => (h, Raise e)
  | Ok entries =>
      let queried_fields_names := present_field_names (__fields__ cls) entries in
      validate_on_copy h model_as_dict
        (fun _ => keys_not_in queried_fields_names entries)
        (validate_fields_query validate_query (__fields__ cls))
  end.

(** [CRUDModel.validate_insert] *)
Definition CRUDModel_validate_insert (h : heap) (model_as_dict : slot)
  : heap * result errors :=
  if negb (slot_truthy h model_as_dict) then (h, Ok no_data)
  else
    validate_on_copy h model_as_dict
      (fun new => keys_not_in (field_names (__fields__ cls)) new)
      (validate_fields_insert validate_insert (__fields__ cls)).

(** [CRUDModel.validate_update] *)
Definition CRUDModel_validate_update (h : heap) (model_as_dict : slot)
  : heap * result errors :=
  if negb (slot_truthy h model_as_dict) then (h, Ok no_data)
  else
    validate_on_copy h model_as_dict
      (fun new => keys_not_in (present_field_names (__fields__ cls) new) new)
      (validate_fields_update validate_update (__fields__ cls)).
End Validation.

(** Every object of [h] is found unchanged, at its location, in [h']. *)
Definition unchanged (h h' : heap) : Prop :=
  forall l o, h !! l = Some o -> h' !! l = Some o.

(** The slot is an immutable value, or refers to an object allocated at
    or after location [n]. *)
Definition slot_from (n : nat) (s : slot) : Prop :=
  match s with
  | Atom _ => True
  | Ref l => (n <= l)%nat
  end.

Definition object_from (n : nat) (o : object) : Prop :=
  match o with
  | ODict entries => Forall (fun kv => slot_from n (snd kv)) entries
  | OList items => Forall (slot_from n) items
  end.

(** [h'] extends the first [n] objects of [h] with objects that refer to
    one another only: nothing past [n] leads back to the first [n]. *)
Definition extends_from (n : nat) (h h' : heap) : Prop :=
  (n <= length h')%nat
  /\ (forall l, (l < n)%nat -> h' !! l = h !! l)
  /\ (forall l o, (n <= l)%nat -> h' !! l = Some o -> object_from n o).

Definition memo_from (n : nat) (m : memo) : Prop :=
  Forall (fun p => (n <= snd p)%nat) m.

(** What [deepcopy] is asked to guarantee, for one [copy] function. *)
Definition copies_afresh (n : nat) (h0 : heap)
    (copy : slot -> heap -> memo -> option (slot * heap * memo)) : Prop :=
  forall x h m x' h' m',
    extends_from n h0 h -> memo_from n m ->
    copy x h m = Some (x', h', m') ->
    extends_from n h0 h' /\ memo_from n m' /\ slot_from n x'.

(** The slot is an immutable value, or refers to one of the first [n]
    objects. *)
Definition slot_in (n : nat) (s : slot) : Prop :=
  match s with
  | Atom _ => True
  | Ref l => (l < n)%nat
  end.

Definition object_in (n : nat) (o : object) : Prop :=
  match o with
  | ODict entries => Forall (fun kv => slot_in n (snd kv)) entries
  | OList items => Forall (slot_in n) items
  end.

(** No object of the heap refers outside the heap. *)
Definition closed (h : heap) : Prop :=
  forall l o, h !! l = Some o -> object_in (length h) o.

Definition not_copied (m : memo) (l : nat) : bool :=
  match memo_lookup l m with
  | None => true
  | Some _ => false
  end.

(** How many of the first [n] objects have no copy yet. *)
Definition unvisited (n : nat) (m : memo) : nat :=
  length (List.filter (not_copied m) (seq 0 n)).

(** With fuel for every object that has no copy yet, [copy] returns, and
    leaves no more objects without a copy than it found. *)
Definition copy_returns (h0 : heap)
    (copy : slot -> heap -> memo -> option (slot * heap * memo))
    (fuel : nat) : Prop :=
  forall x h m,
    extends_from (length h0) h0 h -> memo_from (length h0) m ->
    slot_in (length h0) x ->
    (unvisited (length h0) m < fuel)%nat ->
    exists x' h' m',
      copy x h m = Some (x', h', m')
      /\ (unvisited (length h0) m' <= unvisited (length h0) m)%nat.

End Objects.

(** ** Vocabulary of the properties *)

(** The slot of [name] is absent from the mapping, or bound to [None]. *)
Definition absent_or_null (name : string) (model_as_dict : dict) : Prop :=
  dict_lookup name model_as_dict = None
  \/ dict_lookup name model_as_dict = Some VNone.

Definition mandatory_zero : kwargs := {|
  kw_name := None; kw_choices := NoChoices; kw_default_value := VInt 0;
  kw_description := None; kw_index_type := None;
  kw_allow_none_as_filter := false; kw_is_primary_key := false;
  kw_should_auto_increment := false; kw_is_nullable := false;
  kw_is_required := false |}.

(** The declarations [Column.__init__] does refuse. *)
Definition refused (r : result attrs) : Prop :=
  exists msg, r = Raise (ConfigurationError msg).

(** The calls an operation issues from world [w], oldest first. *)
Definition new_events {A : Type} (c : M A) (w : world) : list event :=
  drop (length (log w)) (log (snd (c w))).

Definition counter_event (e : event) : bool :=
  match e with FindOneAndUpdate _ _ => true | _ => false end.

Definition is_audit (e : event) : bool :=
  match e with
  | AuditAdd _ | AuditUpdate _ | AuditRemove _ => true
  | _ => false
  end.

Definition is_insert (e : event) : bool :=
  match e with
  | InsertOne _ _ | InsertMany _ _ => true
  | _ => false
  end.

(** The extension of the world leaves the collection alone: the calls
    issued in between all went to the counters. *)
Definition counters_only (w w' : world) : Prop :=
  documents w' = documents w
  /\ generated w' = generated w
  /\ exists incs, log w' = app (log w) incs
                  /\ Forall (fun e => counter_event e = true) incs.

(** An audit call is justified by the calls issued before it when the
    primary operation it reports is among them, and succeeded: the insert
    of the document, an update that changed a document, the deletion for
    the filter. Other calls need no justification. *)
Definition justified (before : list event) (e : event) : Prop :=
  match e with
  | AuditAdd doc =>
      In (InsertOne doc true) before
      \/ exists docs, In (InsertMany docs (length docs)) before /\ In doc docs
  | AuditUpdate doc =>
      exists filter update, In (UpdateOne filter update true) before
  | AuditRemove filter => exists n, In (DeleteMany filter n) before
  | _ => True
  end.

(** Every call of [evs] is justified by [before] and the calls of [evs]
    that precede it. *)
Fixpoint ordered (before evs : list event) : Prop :=
  match evs with
  | [] => True
  | e :: evs' => justified before e /\ ordered (app before [e]) evs'
  end.

(** The audit hooks are called only after their primary operation. *)
Definition audit_after_primary (evs : list event) : Prop := ordered [] evs.

(** An operation extends the log by [evs]. *)
Definition extends_log {A : Type} (c : M A) (w : world) (evs : list event)
  : Prop :=
  log (snd (c w)) = app (log w) evs.

Section Vocabulary.
Context {rt : Runtime} {dr : Driver}.
Variable cls : CRUDModel.

(** The stored documents a filter selects. *)
Definition selected (filter : dict) (w : world) : list dict :=
  List.filter (doc_matches filter) (documents w).

(** The item fails insert validation, with errors [e]. *)
Definition fails_validation (item : value) (e : errors) : Prop :=
  CRUDModel_validate_insert cls item = Ok e /\ e <> [].

(** Validation of the item returns an error mapping, empty or not. *)
Definition returns_verdict (item : value) : Prop :=
  exists e, CRUDModel_validate_insert cls item = Ok e.

(** Deserialization of the item, when it is valid, returns. *)
Definition deserializes (item : value) : Prop :=
  forall m w, item = VDict m ->
    CRUDModel_validate_insert cls item = Ok [] ->
    exists m', fst (CRUDModel_deserialize_insert cls m w) = Ok m'.

(** The errors of the items that fail, keyed by their index in the batch,
    counting from [index]. *)
Fixpoint batch_errors (index : nat) (items : list value)
  : list (nat * errors) :=
  match items with
  | [] => []
  | item :: items' =>
      match CRUDModel_validate_insert cls item with
      | Ok ((_ :: _) as e) => (index, e) :: batch_errors (S index) items'
      | _ => batch_errors (S index) items'
      end
  end.

End Vocabulary.

(** The world after [{'key': 'a'}] was added to the empty collection of
    the example model. *)
Definition one_record (audit : bool) : world :=
  snd (add (rt := Reference.runtime) (dr := Reference.driver)
         (Reference.key_value_model audit) (VDict [("key", VStr "a")])
         Reference.empty_world).

(** The batch of the example: item 0 lacks its mandatory key, item 1 is
    valid. *)
Definition sample_batch : list value :=
  [VDict [("value", VInt 1)]; VDict [("key", VStr "a")]].

(** C1 as stated: whatever [add] returned is what [get] returns for the
    primary key of the record. *)
Definition reads_back (rt : Runtime) (dr : Driver) (cls : CRUDModel)
    (model_as_dict : value) (w : world) : Prop :=
  forall r w1,
    add cls model_as_dict w = (Ok r, w1) ->
    fst (get cls (_to_primary_keys_model cls r) w1) = Ok r.

(** ** Vocabulary of the further properties *)

(** The column [a], declared with the choices [c] instead of its own. *)
Definition with_choices (c : choices_arg) (a : attrs) : attrs := {|
  field_type := field_type a;
  choices := c;
  default_value := default_value a;
  description := description a;
  index_type := index_type a;
  allow_none_as_filter := allow_none_as_filter a;
  is_primary_key := is_primary_key a;
  should_auto_increment := should_auto_increment a;
  is_nullable := is_nullable a;
  is_required := is_required a
|}.

(** The types for which [_validate_value] looks at the choices. *)
Definition checks_choices (t : field_type_tag) : bool :=
  match t with
  | TStr | TInt | TEnum _ _ => true
  | _ => false
  end.

(** The types whose values are stored as they are received. *)
Definition stored_as_received (t : field_type_tag) : bool :=
  match t with
  | TStr | TInt | TFloat | TBool | TDict | TList => true
  | _ => false
  end.

(** What [_deserialize_value] leaves for a value of a field of type [t]. *)
Definition stored_form (t : field_type_tag) (received stored : value) : Prop :=
  match t with
  | TDate | TDateTime => exists d, stored = VDateTime d
  | TObjectId => exists oid, stored = VObjectId oid
  | TEnum _ _ => True
  | _ => stored = received
  end.

(** The three occasions on which a field is validated. *)
Inductive method : Type := OnQuery | OnInsert | OnUpdate.

(** [validate_query], [validate_insert] or [validate_update] of a field. *)
Definition validate_with {rt : Runtime} (k : method)
  : string -> column -> dict -> result errors :=
  match k with
  | OnQuery => validate_query
  | OnInsert => validate_insert
  | OnUpdate => validate_update
  end.

(** [f'{name}[{index}]'] *)
Definition item_path (name : string) (index : nat) : string :=
  name ++ "[" ++ decimal index ++ "]".

(** The columns whose [serialize] binds the name of the field whatever
    the mapping holds: a nullable [Column] and a [ListColumn]. *)
Definition always_serialized (c : column) : bool :=
  match c with
  | Column a => is_nullable a
  | DictColumn _ _ => false
  | ListColumn _ _ => true
  end.

(** [name] is the name of a declared field. *)
Definition declared (fields : list (string * column)) (name : string) : bool :=
  str_in name (field_names fields).

(** [[f(x) for x in l]] where [f] may raise. *)
Fixpoint traverse {A B : Type} (f : A -> result B) (l : list A)
  : result (list B) :=
  match l with
  | [] => Ok []
  | x :: l' => y ← f x; r ← traverse f l'; Ok (y :: r)
  end.

(** The items of a list that are not [None]. *)
Definition non_null (values : list value) : list value :=
  List.filter (fun v => negb (is_none v)) values.

(** The counter of a field before any increment is 0. *)
Definition counter_of (field_name : string) (w : world) : Z :=
  default 0 (dict_lookup field_name (counters w)).

(** The documents [find(filter, skip=offset, limit=limit)] returns of
    those the filter selects: a [limit] of 0 is no limit. *)
Definition window (offset limit : Z) (found : list dict) : list dict :=
  let found := drop (Z.to_nat offset) found in
  if limit =? 0 then found else take (Z.to_nat limit) found.

(** No key of the mapping is [name] followed by a dot. *)
Definition no_dotted_key (name : string) (model_as_dict : dict) : Prop :=
  forall child, dict_in (name ++ "." ++ child) model_as_dict = false.

(** The fields are in the order of their names. *)
Fixpoint sorted_by_name (fields : list (string * column)) : Prop :=
  match fields with
  | [] => True
  | f :: fields' =>
      match fields' with
      | [] => True
      | g :: _ => String.leb (fst f) (fst g) = true
      end /\ sorted_by_name fields'
  end.

(** [day = Column(datetime.date)] *)
Definition day_attrs : attrs := {|
  field_type := TDate; choices := NoChoices; default_value := VNone;
  description := None; index_type := None; allow_none_as_filter := false;
  is_primary_key := false; should_auto_increment := false;
  is_nullable := true; is_required := false |}.

(** [2020-01-02T03:04:05] *)
Definition sample_datetime : datetime :=
  mk_datetime (mk_date 2020 1 2) (mk_time 3 4 5 0 None).

(** [id = Column(int, should_auto_increment=True)] *)
Definition counter_attrs : attrs := {|
  field_type := TInt; choices := NoChoices; default_value := VNone;
  description := None; index_type := None; allow_none_as_filter := false;
  is_primary_key := false; should_auto_increment := true;
  is_nullable := true; is_required := false |}.

(** A model with an auto-incremented [id] next to its [key]. *)
Definition counted_model : CRUDModel := {|
  __tablename__ := Some "counted_table_name";
  __fields__ := [("id", Column counter_attrs); ("key", Column Reference.key_attrs)];
  has_base := true;
  audit_model := false |}.

(** [key = Column(str, is_primary_key=True, index_type=IndexType.Unique)] *)
Definition unique_key_attrs : attrs := {|
  field_type := TStr; choices := NoChoices; default_value := VNone;
  description := None; index_type := Some Unique; allow_none_as_filter := false;
  is_primary_key := true; should_auto_increment := false;
  is_nullable := false; is_required := false |}.

(** The example model, with a unique index on its [key]. *)
Definition unique_key_model : CRUDModel := {|
  __tablename__ := Some "unique_table_name";
  __fields__ := [("key", Column unique_key_attrs);
                 ("value", Column Reference.value_attrs)];
  has_base := true;
  audit_model := false |}.

(** The world after [{'key': 'a'}] was added to the empty collection of
    the model with a unique key. *)
Definition stored_once : world :=
  snd (add (rt := Reference.runtime) (dr := Reference.driver)
         unique_key_model (VDict [("key", VStr "a")]) Reference.empty_world).

(** [{'tags': ['a', 1]}] and [{'tags': ['a', None, 'b']}] *)
Definition mixed_tags : dict := [("tags", VList [VStr "a"; VInt 1])].
Definition sparse_tags : dict := [("tags", VList [VStr "a"; VNone; VStr "b"])].

(** ** Vocabulary of the amended properties *)

(** C7 as stated: on a mapping where the slot is absent or null,
    [Column.serialize] binds the slot to the default of a nullable field
    and leaves the slot of a mandatory field absent. *)
Definition default_or_absent (rt : Runtime) (name : string) (a : attrs)
    (model_as_dict : dict) : Prop :=
  absent_or_null name model_as_dict ->
  exists out,
    Column_serialize name a model_as_dict = Ok out
    /\ (is_nullable a = true -> dict_lookup name out = Some (default_value a))
    /\ (is_nullable a = false -> dict_in name out = false).

Section BatchVocabulary.
Context {rt : Runtime} {dr : Driver}.
Variable cls : CRUDModel.

(** The item makes [add_all] raise [ex] while it visits it: validation of
    the item raises instead of returning its errors, or the item is valid
    and its deserialization raises. *)
Definition crashes (item : value) (ex : exn) : Prop :=
  CRUDModel_validate_insert cls item = Raise ex
  \/ exists m w,
       item = VDict m
       /\ CRUDModel_validate_insert cls item = Ok []
       /\ fst (CRUDModel_deserialize_insert cls m w) = Raise ex.
End BatchVocabulary.

(** C3 as stated: a batch with an item that fails validation is rejected
    with [ValidationFailed] and per-index errors. *)
Definition rejected_with_indices (rt : Runtime) (dr : Driver)
    (cls : CRUDModel) (batch : list value) (w : world) : Prop :=
  (exists item e, In item batch /\ fails_validation cls item e) ->
  exists errs,
    fst (add_all cls batch w)
    = Raise (ValidationFailed (VList batch) (BatchErrors errs)).

(** A batch for the model with a [details] dict field: item 0 lacks its
    mandatory key, item 1 uses dot notation over a [details] slot that
    holds an int. *)
Definition crashing_batch : list value :=
  [VDict [("details", VDict [("x", VInt 1)])];
   VDict [("key", VStr "a"); ("details", VInt 1); ("details.y", VStr "z")]].







(** The primary keys a record is read back by: a plain [Column] that is
    mandatory, or auto-incremented and without choices; an [Enum] key is
    restricted to the names of its members. *)
Definition key_column (name : string) (c : column) : bool :=
  match c with
  | Column a =>
      (if should_auto_increment a
       then is_int (self_field_type name a) && is_none (choices_value a)
       else negb (is_nullable a))
      && (if is_enum (self_field_type name a)
          then match choices a with NoChoices => true | _ => false end
          else true)
  | _ => false
  end.

(** The libraries read a stored key back from the text they print for
    it: [dateutil] parses the ISO text of a stored date or datetime into
    that datetime, [ObjectId] of the text of an identifier is that
    identifier, and the member an enum class finds for a stored value has
    that value. *)
Definition text_read_back {rt : Runtime} (t : field_type_tag) (stored : value)
  : Prop :=
  match t, stored with
  | TDate, VDateTime d => dateutil_parse (date_isoformat (dt_date d)) = Some d
  | TDateTime, VDateTime d => dateutil_parse (datetime_isoformat d) = Some d
  | TObjectId, VObjectId oid => objectid_of (VStr oid) = OidOk oid
  | TEnum cls members, _ =>
      stored <> VNone
      /\ forall member,
           enum_name_of_value cls members stored = Ok member ->
           enum_value_of_name members member = Ok stored
  | _, _ => True
  end.

(** A value that validation accepted and deserialization turned into
    [stored]. *)
Definition storable {rt : Runtime} (name : string) (a : attrs)
    (stored : value) : Prop :=
  exists received,
    is_none received = false
    /\ _validate_value name a received = Ok []
    /\ _deserialize_value name a received = Ok stored.

(** [day = Column(datetime.date, is_primary_key=True)] *)
Definition day_key_attrs : attrs := {|
  field_type := TDate; choices := NoChoices; default_value := VNone;
  description := None; index_type := None; allow_none_as_filter := false;
  is_primary_key := true; should_auto_increment := false;
  is_nullable := false; is_required := false |}.

(** A model whose primary key is a date, next to [value] (int, default
    0). *)
Definition day_model : CRUDModel := {|
  __tablename__ := Some "day_table_name";
  __fields__ := [("day", Column day_key_attrs);
                 ("value", Column Reference.value_attrs)];
  has_base := true;
  audit_model := false |}.

(** The world after [{'day': '2020-01-02'}] was added to the empty
    collection of that model. *)
Definition one_day : world :=
  snd (add (rt := Reference.runtime) (dr := Reference.driver)
         day_model (VDict [("day", VStr "2020-01-02")])
         Reference.empty_world).

(** The document stored for [{'day': '2020-01-02'}]. *)
Definition day_document : dict :=
  [("day", VDateTime (mk_datetime (mk_date 2020 1 2) midnight));
   ("_id", VObjectId "000000000000000000000000")].

(** [key = Column(str, is_primary_key=True, default_value='x')]: a
    primary key that is left out of a record falls back to its default. *)
Definition defaulted_key_attrs : attrs := {|
  field_type := TStr; choices := NoChoices; default_value := VStr "x";
  description := None; index_type := None; allow_none_as_filter := false;
  is_primary_key := true; should_auto_increment := false;
  is_nullable := true; is_required := false |}.

Definition defaulted_key_model : CRUDModel := {|
  __tablename__ := Some "defaulted_table_name";
  __fields__ := [("key", Column defaulted_key_attrs);
                 ("value", Column Reference.value_attrs)];
  has_base := true;
  audit_model := false |}.

(** * Properties *)

(** ** Fields *)

Section FieldProperties.
Context {rt : Runtime}.

Lemma py_get_absent_or_null name model_as_dict :
  absent_or_null name model_as_dict -> py_get name model_as_dict = VNone.
Proof. unfold py_get. intros [-> | ->]; reflexivity. Qed.

(** C2. For a field that is not nullable and a mapping where its slot is
    absent or null, [validate_insert] and [validate_update] return exactly
    [{name: ['Missing data for required field.']}] and [validate_query]
    returns no error. It holds for [Column] and for the two composite
    columns, which start with the [Column] check. *)
Theorem missing_required_field (name : string) (c : column) (model_as_dict : dict) :
  is_nullable (column_attrs c) = false ->
  absent_or_null name model_as_dict ->
  validate_insert name c model_as_dict
    = Ok [(name, ["Missing data for required field."])]
  /\ validate_update name c model_as_dict
    = Ok [(name, ["Missing data for required field."])]
  /\ validate_query name c model_as_dict = Ok [].
Proof.
  intros Hnull Habs. apply py_get_absent_or_null in Habs.
  destruct c as [a | a get_fields | a item]; simpl in Hnull; simpl;
    unfold Column_validate_insert, Column_validate_update,
           Column_validate_query;
    rewrite Habs, ?Hnull; simpl; auto.
Qed.

(** C4, where the code departs from the claim. For a nullable
    [ListColumn] and a mapping without its key, [validate_insert] and
    [validate_query] return no error, reading the list with
    [model_as_dict.get(self.name) or []]; [validate_update] reads
    [model_as_dict[self.name]] and raises [KeyError]. *)
Theorem list_column_update_raises (name : string) (a : attrs) (item : column)
    (model_as_dict : dict) :
  is_nullable a = true ->
  dict_lookup name model_as_dict = None ->
  validate_update name (ListColumn a item) model_as_dict = Raise (KeyError name)
  /\ validate_insert name (ListColumn a item) model_as_dict = Ok []
  /\ validate_query name (ListColumn a item) model_as_dict = Ok [].
Proof.
  intros Hnull Habs. simpl.
  unfold Column_validate_insert, Column_validate_update,
         Column_validate_query, py_getitem, py_get.
  rewrite Habs, ?Hnull. simpl. auto.
Qed.

(** A list bound to [None] fares no better on update: [enumerate(None)]
    raises [TypeError]. *)
Lemma list_column_update_null (name : string) (a : attrs) (item : column)
    (model_as_dict : dict) :
  is_nullable a = true ->
  dict_lookup name model_as_dict = Some VNone ->
  validate_update name (ListColumn a item) model_as_dict = Raise TypeError.
Proof.
  intros Hnull Habs. simpl.
  unfold Column_validate_update, py_getitem, py_get.
  rewrite Habs, ?Hnull. reflexivity.
Qed.

(** [Column.serialize] on an absent or null slot. *)
Lemma Column_serialize_absent (name : string) (a : attrs) (model_as_dict : dict) :
  absent_or_null name model_as_dict ->
  Column_serialize name a model_as_dict
    = Ok (if is_nullable a then dict_set name (default_value a) model_as_dict
          else model_as_dict).
Proof.
  intros Habs. apply py_get_absent_or_null in Habs.
  unfold Column_serialize. rewrite Habs. simpl.
  destruct (is_nullable a); reflexivity.
Qed.

Lemma dict_lookup_set_eq {V : Type} (name : string) (v : V) (d : pydict V) :
  dict_lookup name (dict_set name v d) = Some v.
Proof.
  induction d as [| [k x] d IH]; simpl.
  - rewrite String.eqb_refl. reflexivity.
  - destruct (String.eqb k name) eqn:E; simpl; rewrite E; auto.
Qed.
End FieldProperties.

(** C7, as the code has it. On a mapping where the slot of the field is
    absent or null:
    - [Column.serialize] sets the slot to [default_value] when the field
      is nullable, whatever that default is, and returns the mapping as it
      received it when the field is not nullable: an absent slot stays
      absent and a slot bound to [None] stays bound to [None];
    - [DictColumn.serialize] sets nothing, nullable or not;
    - [ListColumn.serialize] binds an absent slot to the empty list,
      nullable or not and whatever the default, and raises [TypeError] on
      a slot bound to [None].
    In the model with [key] (primary key) and [value] (int, default 0),
    [{'key': 'a'}] serializes to [{'key': 'a', 'value': 0}], which is also
    what [add] returns for it. *)
Theorem serialize_sets_default :
  (forall (rt : Runtime) (name : string) (a : attrs) (model_as_dict : dict),
      absent_or_null name model_as_dict ->
      exists out,
        Column_serialize name a model_as_dict = Ok out
        /\ (is_nullable a = true ->
            out = dict_set name (default_value a) model_as_dict
            /\ dict_lookup name out = Some (default_value a))
        /\ (is_nullable a = false ->
            out = model_as_dict
            /\ (dict_lookup name model_as_dict = None ->
                dict_in name out = false)
            /\ (dict_lookup name model_as_dict = Some VNone ->
                dict_lookup name out = Some VNone)))
  /\ (forall (rt : Runtime) (name : string) (a : attrs)
             (get_fields : dict -> list (string * column))
             (model_as_dict : dict),
         absent_or_null name model_as_dict ->
         check_names (get_fields model_as_dict) = Ok tt ->
         serialize name (DictColumn a get_fields) model_as_dict
         = Ok model_as_dict)
  /\ (forall (rt : Runtime) (name : string) (a : attrs) (item : column)
             (model_as_dict : dict),
         (dict_lookup name model_as_dict = None ->
          serialize name (ListColumn a item) model_as_dict
          = Ok (dict_set name (VList []) model_as_dict))
         /\ (dict_lookup name model_as_dict = Some VNone ->
             serialize name (ListColumn a item) model_as_dict
             = Raise TypeError))
  /\ (forall (rt : Runtime) (audit : bool),
         CRUDModel_serialize (Reference.key_value_model audit)
           (VDict [("key", VStr "a")])
         = Ok [("key", VStr "a"); ("value", VInt 0)])
  /\ (forall audit : bool,
         fst (add (rt := Reference.runtime) (dr := Reference.driver)
                (Reference.key_value_model audit)
                (VDict [("key", VStr "a")]) Reference.empty_world)
         = Ok [("key", VStr "a"); ("value", VInt 0)]).
Proof.
  split; [| split; [| split; [| split]]].
  - intros rt name a m Habs.
    rewrite (Column_serialize_absent name a m Habs).
    destruct (is_nullable a).
    + eexists; split; [reflexivity |].
      split; [intros _; split; [reflexivity | apply dict_lookup_set_eq] | discriminate].
    + eexists; split; [reflexivity |]. split; [discriminate |].
      intros _. split; [reflexivity |]. split; [| auto].
      intros Hnone. clear Habs.
      induction m as [| [k x] m IH]; simpl in *; [reflexivity |].
      destruct (String.eqb k name); [discriminate | auto].
  - intros rt name a get_fields m Habs Hnames. simpl. rewrite Hnames. simpl.
    destruct Habs as [-> | ->]; reflexivity.
  - intros rt name a item m. split; intros Hslot; simpl; rewrite Hslot;
      reflexivity.
  - intros rt audit. reflexivity.
  - intros [|]; reflexivity.
Qed.

Lemma serialize_sets_default_witness :
  exists out,
    Column_serialize (rt := Reference.runtime) "value" Reference.value_attrs
      [("key", VStr "a")] = Ok out
    /\ (is_nullable Reference.value_attrs = true ->
        out = dict_set "value" (default_value Reference.value_attrs)
                [("key", VStr "a")]
        /\ dict_lookup "value" out = Some (default_value Reference.value_attrs))
    /\ (is_nullable Reference.value_attrs = false ->
        out = [("key", VStr "a")]
        /\ (dict_lookup "value" [("key", VStr "a")] = None ->
            dict_in "value" out = false)
        /\ (dict_lookup "value" [("key", VStr "a")] = Some VNone ->
            dict_lookup "value" out = Some VNone)).
Proof.
  apply (proj1 serialize_sets_default Reference.runtime "value"
           Reference.value_attrs [("key", VStr "a")]).
  left. reflexivity.
Defined.

(** C7 as stated fails for a mandatory field whose slot is bound to
    [None]: [Column.serialize] returns at once, so in [{'key': None}] the
    slot of the mandatory [key] is still there, bound to [None], and not
    absent. *)
Lemma null_slot_is_not_removed :
  ~ default_or_absent Reference.runtime "key" Reference.key_attrs
      [("key", VNone)].
Proof.
  intros Hclaim.
  destruct (Hclaim (or_intror eq_refl)) as (out & Hout & _ & Habsent).
  vm_compute in Hout. injection Hout as <-.
  specialize (Habsent eq_refl). vm_compute in Habsent. discriminate Habsent.
Qed.

Lemma missing_required_field_witness :
  validate_insert (rt := Reference.runtime) "key" (Column Reference.key_attrs)
      [("value", VInt 1)]
    = Ok [("key", ["Missing data for required field."])]
  /\ validate_update (rt := Reference.runtime) "key" (Column Reference.key_attrs)
      [("value", VInt 1)]
    = Ok [("key", ["Missing data for required field."])]
  /\ validate_query (rt := Reference.runtime) "key" (Column Reference.key_attrs)
      [("value", VInt 1)] = Ok [].
Proof.
  apply (missing_required_field (rt := Reference.runtime) "key"
           (Column Reference.key_attrs) [("value", VInt 1)]).
  - reflexivity.
  - left. reflexivity.
Defined.

Lemma list_column_update_raises_witness :
  validate_update (rt := Reference.runtime) "tags" Reference.tags_column
      [("key", VStr "a")] = Raise (KeyError "tags")
  /\ validate_insert (rt := Reference.runtime) "tags" Reference.tags_column
      [("key", VStr "a")] = Ok []
  /\ validate_query (rt := Reference.runtime) "tags" Reference.tags_column
      [("key", VStr "a")] = Ok [].
Proof.
  apply (list_column_update_raises (rt := Reference.runtime) "tags"
           Reference.tags_attrs (Column Reference.text_attrs)
           [("key", VStr "a")]); reflexivity.
Defined.

(** ** Declarations *)

#[local] Arguments String.eqb : simpl never.

(** C8, where the code departs from the claim. [Column.__init__] tests the
    default with [if self.default_value:], so a mandatory field whose
    default is [0], [0.0], [False], an empty string, list or dict is
    accepted: the declaration succeeds and the column is mandatory and
    carries that default. *)
Theorem mandatory_with_falsy_default (ft : option field_type_tag) (kw : kwargs) :
  kw_name kw = None ->
  kw_is_nullable kw = false ->
  kw_should_auto_increment kw = false ->
  truthy (kw_default_value kw) = false ->
  exists a,
    Column_init ft kw = Ok a
    /\ is_nullable a = false
    /\ default_value a = kw_default_value kw.
Proof.
  intros Hname Hnull Hauto Hdefault. unfold Column_init.
  rewrite Hname, Hnull, Hauto, Hdefault. simpl.
  eexists. split; [reflexivity |]. split; reflexivity.
Qed.

Lemma mandatory_with_falsy_default_witness :
  exists a,
    Column_init (Some TInt) mandatory_zero = Ok a
    /\ is_nullable a = false
    /\ default_value a = VInt 0.
Proof.
  apply (mandatory_with_falsy_default (Some TInt) mandatory_zero);
    reflexivity.
Defined.

Lemma mandatory_with_truthy_default_refused (ft : option field_type_tag)
    (kw : kwargs) :
  kw_is_nullable kw = false ->
  truthy (kw_default_value kw) = true ->
  refused (Column_init ft kw).
Proof.
  intros Hnull Hdefault. unfold refused, Column_init.
  rewrite Hnull, Hdefault. unfold _update_name.
  destruct (kw_name kw) as [name |]; simpl;
    repeat match goal with
           | |- context [if ?b then _ else _] => destruct b; simpl
           end; eauto.
Qed.

Lemma mandatory_auto_increment_refused (ft : option field_type_tag)
    (kw : kwargs) :
  kw_is_nullable kw = false ->
  kw_should_auto_increment kw = true ->
  refused (Column_init ft kw).
Proof.
  intros Hnull Hauto. unfold refused, Column_init.
  rewrite Hnull, Hauto. unfold _update_name.
  destruct (kw_name kw) as [name |]; simpl;
    repeat match goal with
           | |- context [if ?b then _ else _] => destruct b; simpl
           end; eauto.
Qed.

Lemma auto_increment_on_other_type_refused (ft : option field_type_tag)
    (kw : kwargs) :
  kw_should_auto_increment kw = true ->
  is_int (default TStr ft) = false ->
  refused (Column_init ft kw).
Proof.
  intros Hauto Hint. unfold refused, Column_init.
  rewrite Hauto. unfold _update_name.
  destruct (kw_name kw) as [name |]; simpl.
  - destruct (String.eqb name EmptyString); simpl.
    + rewrite Hint. simpl. eauto.
    + destruct (contains_dot name); simpl; [eauto |].
      destruct (String.eqb "_id" name); simpl; rewrite ?Hint; simpl; eauto.
  - rewrite Hint. simpl. eauto.
Qed.

(** ** Reading one record *)

Section GetProperties.
Context {rt : Runtime} {dr : Driver}.
Variable cls : CRUDModel.

Lemma find_filter {A : Type} (p : A -> bool) (l : list A) :
  List.find p l = List.head (List.filter p l).
Proof.
  induction l as [| x l IH]; simpl; [reflexivity |].
  destruct (p x); simpl; auto.
Qed.

(** What [get] computes once the filter is validated and deserialized:
    [count], then [find_one] and [serialize]. *)
Lemma get_run (model_to_query filter : dict) (w : world) :
  has_base cls = true ->
  CRUDModel_validate_query cls model_to_query = Ok [] ->
  CRUDModel_deserialize_query cls model_to_query = Ok filter ->
  fst (get cls model_to_query w)
  = if (1 <? length (selected filter w))%nat then
      Raise (ValidationFailed (VDict filter) (Message more_than_one))
    else
      CRUDModel_serialize cls
        match List.head (selected filter w) with
        | Some doc => VDict doc
        | None => VNone
        end.
Proof.
  intros Hbase Hvalid Hdeser.
  unfold get, bind, lift, raise, count, find_one, bound, selected.
  rewrite Hvalid, Hdeser, Hbase. simpl. unfold ret, bind. simpl.
  destruct (1 <? length (List.filter (doc_matches filter) (documents w)))%nat;
    simpl; [reflexivity |].
  rewrite find_filter. reflexivity.
Qed.

End GetProperties.

(** ** What an operation writes *)

Lemma counters_only_refl (w : world) : counters_only w w.
Proof.
  repeat split. exists []. split; [symmetry; apply app_nil_r | constructor].
Qed.

Lemma counters_only_trans (w1 w2 w3 : world) :
  counters_only w1 w2 -> counters_only w2 w3 -> counters_only w1 w3.
Proof.
  intros (Hd1 & Hg1 & i1 & Hl1 & Hf1) (Hd2 & Hg2 & i2 & Hl2 & Hf2).
  repeat split; try congruence.
  exists (app i1 i2). split.
  - rewrite Hl2, Hl1, app_assoc. reflexivity.
  - apply Forall_app; split; assumption.
Qed.

Section WriteProperties.
Context {rt : Runtime} {dr : Driver}.
Variable cls : CRUDModel.

Lemma _increment_counters_only (field_name : string) (w : world) :
  counters_only w (snd (_increment cls field_name w)).
Proof.
  unfold _increment, bind, bound, ret, raise.
  destruct (has_base cls); simpl.
  - repeat split. eexists. split; [reflexivity |].
    constructor; [reflexivity | constructor].
  - apply counters_only_refl.
Qed.

Lemma deserialize_insert_fields_counters_only
    (fields : list (string * column)) (model_as_dict : dict) (w : world) :
  counters_only w
    (snd (deserialize_insert_fields deserialize_insert (_increment cls)
            fields model_as_dict w)).
Proof.
  revert model_as_dict w.
  induction fields as [| [name c] fields IH]; intros m w; simpl.
  - apply counters_only_refl.
  - destruct (deserialize_insert name c m) as [m' | e]; simpl;
      [| apply counters_only_refl].
    destruct (should_auto_increment (column_attrs c)); [| apply IH].
    pose proof (_increment_counters_only name w) as Hinc.
    destruct (_increment cls name w) as [[v | e] w1]; simpl in *.
    + eapply counters_only_trans; [exact Hinc | apply IH].
    + exact Hinc.
Qed.

Lemma CRUDModel_deserialize_insert_counters_only (model_as_dict : dict)
    (w : world) :
  counters_only w (snd (CRUDModel_deserialize_insert cls model_as_dict w)).
Proof.
  unfold CRUDModel_deserialize_insert, record_deserialize_insert.
  destruct (fold_unknown_insert _ _ _) as [m | e]; simpl.
  - apply deserialize_insert_fields_counters_only.
  - apply counters_only_refl.
Qed.
End WriteProperties.

(** ** Batches *)

Section BatchProperties.
Context {rt : Runtime} {dr : Driver}.
Variable cls : CRUDModel.

Lemma batch_errors_spec (items : list value) :
  forall index i e,
    In (i, e) (batch_errors cls index items)
    <-> (index <= i)%nat
        /\ exists item, items !! (i - index)%nat = Some item
                        /\ fails_validation cls item e.
Proof.
  unfold fails_validation.
  induction items as [| item items IH]; intros index i e; simpl.
  - split; [tauto | intros (_ & item & Hl & _); discriminate].
  - assert (Hrest : In (i, e) (batch_errors cls (S index) items)
              <-> (index < i)%nat
                  /\ exists item', items !! (i - S index)%nat = Some item'
                       /\ CRUDModel_validate_insert cls item' = Ok e /\ e <> []).
    { rewrite IH. split; intros [Hle Hex]; (split; [lia | exact Hex]). }
    assert (Hshift : forall item',
              (index < i)%nat ->
              (item :: items) !! (i - index)%nat = Some item'
              <-> items !! (i - S index)%nat = Some item').
    { intros item' Hlt. replace (i - index)%nat with (S (i - S index)) by lia.
      reflexivity. }
    destruct (CRUDModel_validate_insert cls item) as [[| kv rest] | ex] eqn:Hv.
    + rewrite Hrest. split.
      * intros (Hlt & item' & Hl & Hf). split; [lia |].
        exists item'. split; [apply Hshift; assumption | assumption].
      * intros (Hle & item' & Hl & Hv' & Hne).
        destruct (decide (i = index)) as [-> | Hni].
        -- rewrite Nat.sub_diag in Hl. simpl in Hl. injection Hl as <-.
           congruence.
        -- split; [lia |]. exists item'. split; [| auto].
           apply Hshift; [lia | assumption].
    + simpl. rewrite Hrest. split.
      * intros [Heq | (Hlt & item' & Hl & Hf)].
        -- injection Heq as Hi He. subst i e. split; [lia |].
           exists item. rewrite Nat.sub_diag. simpl.
           split; [reflexivity |]. split; [assumption | discriminate].
        -- split; [lia |]. exists item'.
           split; [apply Hshift; assumption | assumption].
      * intros (Hle & item' & Hl & Hv' & Hne).
        destruct (decide (i = index)) as [-> | Hni].
        -- rewrite Nat.sub_diag in Hl. simpl in Hl. injection Hl as <-.
           left. congruence.
        -- right. split; [lia |]. exists item'. split; [| auto].
           apply Hshift; [lia | assumption].
    + rewrite Hrest. split.
      * intros (Hlt & item' & Hl & Hf). split; [lia |].
        exists item'. split; [apply Hshift; assumption | assumption].
      * intros (Hle & item' & Hl & Hv' & Hne).
        destruct (decide (i = index)) as [-> | Hni].
        -- rewrite Nat.sub_diag in Hl. simpl in Hl. injection Hl as <-.
           congruence.
        -- split; [lia |]. exists item'. split; [| auto].
           apply Hshift; [lia | assumption].
Qed.

Lemma valid_is_mapping (item : value) :
  CRUDModel_validate_insert cls item = Ok [] ->
  exists m, item = VDict m.
Proof.
  unfold CRUDModel_validate_insert, record_validate_insert.
  destruct (truthy item); simpl; [| discriminate].
  destruct item; simpl; try discriminate. eauto.
Qed.

Lemma validate_step_invalid (item : value) (kv : string * list string)
    (e : errors) (index : nat) (errs : list (nat * errors))
    (visited : list value) (w : world) :
  CRUDModel_validate_insert cls item = Ok (kv :: e) ->
  validate_step cls (index, errs, visited) item w
  = (Ok (S index, app errs [(index, kv :: e)], app visited [item]), w).
Proof.
  intros He. unfold validate_step, bind, lift. rewrite He. reflexivity.
Qed.

Lemma validate_step_valid (m m' : dict) (index : nat)
    (errs : list (nat * errors)) (visited : list value) (w w1 : world) :
  CRUDModel_validate_insert cls (VDict m) = Ok [] ->
  CRUDModel_deserialize_insert cls m w = (Ok m', w1) ->
  validate_step cls (index, errs, visited) (VDict m) w
  = (Ok (S index, errs, app visited [VDict m']), w1).
Proof.
  intros He Hd. unfold validate_step, bind, lift. rewrite He. simpl.
  rewrite Hd. reflexivity.
Qed.

Lemma validate_loop (items : list value) :
  forall index errs visited w,
    Forall (returns_verdict cls) items ->
    Forall (deserializes cls) items ->
    exists visited' w',
      forM (validate_step cls) (index, errs, visited) items w
      = (Ok ((index + length items)%nat,
             app errs (batch_errors cls index items), visited'), w')
      /\ counters_only w w'.
Proof.
  induction items as [| item items IH]; intros index errs visited w Hv Hd.
  - simpl. exists visited, w. unfold ret.
    rewrite Nat.add_0_r, app_nil_r. split; [reflexivity | apply counters_only_refl].
  - inversion Hv as [| ? ? [e He] Hv']; subst.
    inversion Hd as [| ? ? Hdi Hd']; subst.
    replace (index + length (item :: items))%nat
      with (S index + length items)%nat by (simpl; lia).
    cbn [forM batch_errors]. rewrite He. unfold bind.
    destruct e as [| kv e].
    + destruct (valid_is_mapping item He) as [m ->].
      destruct (Hdi m w eq_refl He) as [m' Hm'].
      pose proof (CRUDModel_deserialize_insert_counters_only cls m w) as Hc.
      destruct (CRUDModel_deserialize_insert cls m w) as [r w1] eqn:Hrun.
      simpl in Hm'. subst r. simpl in Hc.
      rewrite (validate_step_valid m m' index errs visited w w1 He Hrun).
      destruct (IH (S index) errs (app visited [VDict m']) w1 Hv' Hd')
        as (visited' & w' & Hloop & Hc').
      exists visited', w'. rewrite Hloop.
      split; [reflexivity | eapply counters_only_trans; eassumption].
    + rewrite (validate_step_invalid item kv e index errs visited w He).
      destruct (IH (S index) (app errs [(index, kv :: e)]) (app visited [item])
                  w Hv' Hd') as (visited' & w' & Hloop & Hc').
      exists visited', w'. rewrite Hloop. rewrite <- app_assoc.
      split; [reflexivity | assumption].
Qed.

End BatchProperties.

Section BatchOutcome.
Context {rt : Runtime} {dr : Driver}.
Variable cls : CRUDModel.

(** The loop of [add_all] on any batch: it only reaches the counters, and
    it either visits every item, collecting the errors of those that fail
    validation under their index, or stops at an item that makes
    validation or deserialization raise. *)
Lemma validate_loop_outcome (items : list value) :
  forall index errs visited w,
    counters_only w
      (snd (forM (validate_step cls) (index, errs, visited) items w))
    /\ match fst (forM (validate_step cls) (index, errs, visited) items w) with
       | Ok st => fst st = ((index + length items)%nat,
                            app errs (batch_errors cls index items))
       | Raise ex => exists item, In item items /\ crashes cls item ex
       end.
Proof.
  induction items as [| item items IH]; intros index errs visited w.
  - simpl. rewrite Nat.add_0_r, app_nil_r.
    split; [apply counters_only_refl | reflexivity].
  - replace (index + length (item :: items))%nat
      with (S index + length items)%nat by (simpl; lia).
    cbn [forM batch_errors]. unfold bind.
    destruct (CRUDModel_validate_insert cls item) as [[| kv e] | ex] eqn:He.
    + destruct (valid_is_mapping cls item He) as [m ->].
      pose proof (CRUDModel_deserialize_insert_counters_only cls m w) as Hc.
      destruct (CRUDModel_deserialize_insert cls m w) as [[m' | ex] w1] eqn:Hrun;
        cbn [snd] in Hc.
      * rewrite (validate_step_valid cls m m' index errs visited w w1 He Hrun).
        destruct (IH (S index) errs (app visited [VDict m']) w1) as [Hc' Hout].
        split; [eapply counters_only_trans; eassumption |].
        destruct (fst (forM _ _ items w1)) as [st | ex]; [exact Hout |].
        destruct Hout as (item' & Hin & Hcrash).
        exists item'. split; [right; exact Hin | exact Hcrash].
      * assert (Hstep : validate_step cls (index, errs, visited) (VDict m) w
                        = (Raise ex, w1)).
        { unfold validate_step, bind, lift. rewrite He. simpl.
          rewrite Hrun. reflexivity. }
        rewrite Hstep. cbn [fst snd]. split; [exact Hc |].
        exists (VDict m). split; [left; reflexivity |].
        right. exists m, w. rewrite Hrun. auto.
    + rewrite (validate_step_invalid cls item kv e index errs visited w He).
      destruct (IH (S index) (app errs [(index, kv :: e)]) (app visited [item]) w)
        as [Hc' Hout].
      split; [exact Hc' |].
      destruct (fst (forM _ _ items w)) as [st | ex].
      * rewrite Hout, <- app_assoc. reflexivity.
      * destruct Hout as (item' & Hin & Hcrash).
        exists item'. split; [right; exact Hin | exact Hcrash].
    + assert (Hstep : validate_step cls (index, errs, visited) item w
                      = (Raise ex, w)).
      { unfold validate_step, bind, lift. rewrite He. reflexivity. }
      rewrite Hstep. cbn [fst snd]. split; [apply counters_only_refl |].
      exists item. split; [left; reflexivity | left; exact He].
Qed.

(** C3, as the code has it. [add_all] on an empty list raises
    [ValidationFailed] with 'No data provided.' and leaves the world as it
    found it: no call is issued. On a batch where at least one item fails
    insert validation, [add_all] always raises, the collection is
    unchanged and neither [insert_one] nor [insert_many] is called. What
    it raises is [ValidationFailed] with the whole batch and an error
    mapping whose keys are exactly the indices of the failing items,
    unless an item makes validation or deserialization raise while the
    batch is visited: that exception is then the one [add_all] raises. It
    is [ValidationFailed] whenever validation of every item returns its
    errors and deserialization of the valid items returns. *)
Theorem add_all_rejects_batch :
  (forall w,
      add_all cls [] w
      = (Raise (ValidationFailed (VList []) (Message "No data provided.")), w))
  /\ (forall (batch : list value) (w : world),
         (exists item e, In item batch /\ fails_validation cls item e) ->
         exists errs,
           (forall i e,
               In (i, e) errs
               <-> exists item, batch !! i = Some item
                                /\ fails_validation cls item e)
           /\ (fst (add_all cls batch w)
               = Raise (ValidationFailed (VList batch) (BatchErrors errs))
               \/ exists item ex,
                    In item batch /\ crashes cls item ex
                    /\ fst (add_all cls batch w) = Raise ex)
           /\ (Forall (returns_verdict cls) batch ->
               Forall (deserializes cls) batch ->
               fst (add_all cls batch w)
               = Raise (ValidationFailed (VList batch) (BatchErrors errs)))
           /\ documents (snd (add_all cls batch w)) = documents w
           /\ Forall (fun ev => is_insert ev = false)
                     (new_events (add_all cls batch) w)).
Proof.
  split; [reflexivity |].
  intros batch w (item & e & Hin & Hfail).
  assert (Hkeys : forall i e0,
             In (i, e0) (batch_errors cls O batch)
             <-> exists item0, batch !! i = Some item0
                               /\ fails_validation cls item0 e0).
  { intros i e0. rewrite batch_errors_spec, Nat.sub_0_r.
    split; [intros [_ Hex]; exact Hex | intros Hex; split; [lia | exact Hex]]. }
  assert (Hne : is_empty (batch_errors cls O batch) = false).
  { apply list_elem_of_In, list_elem_of_lookup in Hin as [i Hi].
    assert (Hi' : In (i, e) (batch_errors cls O batch))
      by (apply Hkeys; eauto).
    destruct (batch_errors cls O batch); [destruct Hi' | reflexivity]. }
  destruct (validate_loop_outcome batch O [] [] w)
    as [(Hdocs & Hgen & incs & Hlog & Hincs) Hout].
  assert (Hrun : add_all cls batch w
                 = (match fst (forM (validate_step cls) (O, [], []) batch w) with
                    | Ok _ => Raise (ValidationFailed (VList batch)
                                       (BatchErrors (batch_errors cls O batch)))
                    | Raise ex => Raise ex
                    end,
                    snd (forM (validate_step cls) (O, [], []) batch w))).
  { unfold add_all. destruct batch as [| x batch]; [destruct Hin |].
    cbn [is_empty]. unfold validate_each, bind at 1. unfold bind at 1.
    destruct (forM (validate_step cls) (O, [], []) (x :: batch) w)
      as [[[[index errs] visited] | ex] w'] eqn:Hloop; [| reflexivity].
    cbn [fst snd] in Hout. injection Hout as _ Herrs.
    assert (Herrs' : errs = batch_errors cls O (x :: batch)) by exact Herrs.
    clear Herrs. unfold ret at 1. cbn [fst snd]. rewrite Herrs'.
    rewrite Hne. reflexivity. }
  exists (batch_errors cls O batch). rewrite Hrun. cbn [fst snd].
  split; [exact Hkeys |]. split; [| split; [| split]].
  - destruct (fst (forM _ _ batch w)) as [st | ex]; [left; reflexivity |].
    right. destruct Hout as (item' & Hin' & Hcrash).
    exists item', ex. auto.
  - intros Hv Hd.
    destruct (validate_loop cls batch O [] [] w Hv Hd)
      as (visited & w' & Hloop & _).
    rewrite Hloop. reflexivity.
  - exact Hdocs.
  - unfold new_events. rewrite Hrun. cbn [snd]. rewrite Hlog, drop_app_length.
    eapply Forall_impl; [exact Hincs |].
    intros [] Hc; simpl in *; congruence.
Qed.
End BatchOutcome.

Lemma add_all_rejects_batch_witness :
  exists errs,
    (forall i e,
        In (i, e) errs
        <-> exists item,
              sample_batch !! i = Some item
              /\ fails_validation (rt := Reference.runtime)
                   (Reference.key_value_model false) item e)
    /\ (fst (add_all (rt := Reference.runtime) (dr := Reference.driver)
               (Reference.key_value_model false) sample_batch
               Reference.empty_world)
        = Raise (ValidationFailed (VList sample_batch) (BatchErrors errs))
        \/ exists item ex,
             In item sample_batch
             /\ crashes (rt := Reference.runtime)
                  (Reference.key_value_model false) item ex
             /\ fst (add_all (rt := Reference.runtime) (dr := Reference.driver)
                       (Reference.key_value_model false) sample_batch
                       Reference.empty_world) = Raise ex)
    /\ (Forall (returns_verdict (rt := Reference.runtime)
                  (Reference.key_value_model false)) sample_batch ->
        Forall (deserializes (rt := Reference.runtime)
                  (Reference.key_value_model false)) sample_batch ->
        fst (add_all (rt := Reference.runtime) (dr := Reference.driver)
               (Reference.key_value_model false) sample_batch
               Reference.empty_world)
        = Raise (ValidationFailed (VList sample_batch) (BatchErrors errs)))
    /\ documents
         (snd (add_all (rt := Reference.runtime) (dr := Reference.driver)
                 (Reference.key_value_model false) sample_batch
                 Reference.empty_world))
       = documents Reference.empty_world
    /\ Forall (fun ev => is_insert ev = false)
         (new_events
            (add_all (rt := Reference.runtime) (dr := Reference.driver)
               (Reference.key_value_model false) sample_batch)
            Reference.empty_world).
Proof.
  apply (proj2 (add_all_rejects_batch (rt := Reference.runtime)
                  (dr := Reference.driver) (Reference.key_value_model false))
           sample_batch Reference.empty_world).
  exists (VDict [("value", VInt 1)]),
         [("key", ["Missing data for required field."])].
  split; [left; reflexivity |].
  split; [reflexivity | discriminate].
Defined.

(** C3 as stated fails: an item that makes validation raise takes the
    whole batch with it. On the model with a [details] dict field, item 0
    of the batch lacks its mandatory key and item 1 is
    [{'key': 'a', 'details': 1, 'details.y': 'z'}]: folding [details.y]
    into the int under [details] raises [AttributeError], which is what
    [add_all] raises, not [ValidationFailed]. *)
Lemma batch_with_a_crashing_item :
  fst (add_all (rt := Reference.runtime) (dr := Reference.driver)
         Reference.details_model crashing_batch Reference.empty_world)
  = Raise AttributeError
  /\ ~ rejected_with_indices Reference.runtime Reference.driver
         Reference.details_model crashing_batch Reference.empty_world.
Proof.
  split; [reflexivity |].
  intros Hclaim.
  destruct Hclaim as [errs Herrs].
  - exists (VDict [("details", VDict [("x", VInt 1)])]),
           [("key", ["Missing data for required field."])].
    split; [left; reflexivity |].
    split; [reflexivity | discriminate].
  - vm_compute in Herrs. discriminate Herrs.
Qed.

(** ** Audit hooks *)

Lemma justified_mono (before before' : list event) (e : event) :
  (forall x, In x before -> In x before') ->
  justified before e -> justified before' e.
Proof.
  intros Hsub. destruct e; simpl; auto.
  - intros [Hin | (docs & Hin & Hd)]; [left; auto | right; eauto].
  - intros (f & u & Hin). eauto.
  - intros (n & Hin). eauto.
Qed.

Lemma ordered_mono (evs : list event) :
  forall before before',
    (forall x, In x before -> In x before') ->
    ordered before evs -> ordered before' evs.
Proof.
  induction evs as [| e evs IH]; intros before before' Hsub; simpl; [auto |].
  intros [Hj Ho]. split; [eapply justified_mono; eassumption |].
  eapply IH; [| exact Ho].
  intros x Hin. apply in_app_iff in Hin. apply in_app_iff.
  destruct Hin; [left; auto | right; assumption].
Qed.

Lemma ordered_app (l1 : list event) :
  forall before l2,
    ordered before (app l1 l2)
    <-> ordered before l1 /\ ordered (app before l1) l2.
Proof.
  induction l1 as [| e l1 IH]; intros before l2; simpl.
  - rewrite app_nil_r. tauto.
  - rewrite IH, <- app_assoc. simpl. tauto.
Qed.

Lemma ordered_no_audit (evs : list event) :
  forall before,
    Forall (fun e => is_audit e = false) evs -> ordered before evs.
Proof.
  induction evs as [| e evs IH]; intros before Hall; simpl; [exact I |].
  inversion Hall as [| ? ? He Hall']; subst.
  split; [| apply IH; assumption].
  destruct e; simpl in *; try exact I; discriminate.
Qed.

Lemma counter_events_no_audit (incs : list event) :
  Forall (fun e => counter_event e = true) incs ->
  Forall (fun e => is_audit e = false) incs.
Proof.
  intros Hincs. eapply Forall_impl; [exact Hincs |].
  intros [] Hc; simpl in *; congruence.
Qed.

(** [audit_after_primary] says what its name says: whatever comes before an
    audit call in the list justifies it. *)
Lemma audit_after_primary_split (evs : list event) :
  audit_after_primary evs
  <-> forall pre e post, evs = app pre (e :: post) -> justified pre e.
Proof.
  unfold audit_after_primary.
  enough (Hgen : forall before,
             ordered before evs
             <-> forall pre e post, evs = app pre (e :: post) ->
                                    justified (app before pre) e).
  { rewrite (Hgen []). reflexivity. }
  induction evs as [| e0 evs IH]; intros before; simpl.
  - split; [| auto]. intros _ [| p pre] e post Heq; discriminate.
  - rewrite IH. split.
    + intros [Hj Hrest] pre e post Heq.
      destruct pre as [| p pre]; simpl in Heq;
        injection Heq as Hhead Htail; subst.
      * rewrite app_nil_r. exact Hj.
      * specialize (Hrest pre e post eq_refl).
        rewrite <- app_assoc in Hrest. exact Hrest.
    + intros Hall. split.
      * specialize (Hall [] e0 evs eq_refl). rewrite app_nil_r in Hall.
        exact Hall.
      * intros pre e post ->. rewrite <- app_assoc. simpl.
        apply (Hall (e0 :: pre) e post). reflexivity.
Qed.

Lemma new_events_of_log {A : Type} (c : M A) (w : world) (evs : list event) :
  log (snd (c w)) = app (log w) evs -> new_events c w = evs.
Proof. intros Hlog. unfold new_events. rewrite Hlog. apply drop_app_length. Qed.

Section AuditProperties.
Context {rt : Runtime} {dr : Driver}.
Variable cls : CRUDModel.

Lemma with_id_log (doc : dict) (w : world) :
  log (snd (with_id doc w)) = log w.
Proof. unfold with_id. destruct (dict_in "_id" doc); reflexivity. Qed.

Lemma with_id_documents (doc : dict) (w : world) :
  documents (snd (with_id doc w)) = documents w.
Proof. unfold with_id. destruct (dict_in "_id" doc); reflexivity. Qed.

Lemma audit_log (e : event) (w : world) :
  audit cls e w
  = (Ok tt, if audit_model cls then emit e w else w).
Proof. unfold audit, ret. destruct (audit_model cls); reflexivity. Qed.

Lemma add_events (model_as_dict : value) (w : world) :
  exists evs,
    extends_log (add cls model_as_dict) w evs /\ audit_after_primary evs.
Proof.
  unfold extends_log, add. unfold bind at 1, lift at 1.
  destruct (CRUDModel_validate_insert cls model_as_dict) as [errs | ex];
    [| exists []; simpl; rewrite app_nil_r; split; [reflexivity | exact I]].
  destruct (is_empty errs); cbn [negb];
    [| exists []; simpl; rewrite app_nil_r; split; [reflexivity | exact I]].
  unfold bind at 1, lift at 1.
  destruct (as_mapping model_as_dict) as [m | ex];
    [| exists []; simpl; rewrite app_nil_r; split; [reflexivity | exact I]].
  unfold bind at 1.
  pose proof (CRUDModel_deserialize_insert_counters_only cls m w)
    as (_ & _ & incs & Hlog & Hincs).
  apply counter_events_no_audit in Hincs.
  destruct (CRUDModel_deserialize_insert cls m w) as [[m' | ex] w1];
    cbn [snd] in Hlog;
    [| exists incs; split; [exact Hlog | apply ordered_no_audit; exact Hincs]].
  unfold bind at 1. unfold insert_one, bind at 1, bound.
  destruct (has_base cls); unfold ret, raise;
    [| exists incs; split; [exact Hlog | apply ordered_no_audit; exact Hincs]].
  pose proof (with_id_log m' w1) as Hid.
  destruct (with_id m' w1) as [doc w2]. cbn [snd] in Hid.
  destruct (duplicate_key (unique_fields cls) (documents w2) doc).
  - exists (app incs [InsertOne doc false]).
    unfold bind, lift, raise.
    destruct (CRUDModel_serialize cls (VDict doc)); cbn [snd emit log];
      (split; [rewrite Hid, Hlog, app_assoc; reflexivity |]);
      apply ordered_no_audit, Forall_app; (split; [exact Hincs |]);
      repeat constructor.
  - unfold bind at 1. rewrite audit_log.
    destruct (audit_model cls).
    + exists (app incs [InsertOne doc true; AuditAdd doc]).
      unfold lift. cbn [snd emit set_documents log].
      split.
      * rewrite Hid, Hlog, <- !app_assoc. reflexivity.
      * apply ordered_app. split; [apply ordered_no_audit; exact Hincs |].
        simpl. split; [exact I |]. split; [| exact I].
        left. apply in_app_iff. right. left. reflexivity.
    + exists (app incs [InsertOne doc true]).
      unfold lift. cbn [snd emit set_documents log].
      split; [rewrite Hid, Hlog, app_assoc; reflexivity |].
      apply ordered_no_audit, Forall_app. split; [exact Hincs |].
      repeat constructor.
Qed.

Lemma validate_step_counters_only (st : nat * list (nat * errors) * list value)
    (item : value) (w : world) :
  counters_only w (snd (validate_step cls st item w)).
Proof.
  destruct st as [[index errs] visited].
  unfold validate_step, bind, lift, ret.
  destruct (CRUDModel_validate_insert cls item) as [e | ex];
    [| apply counters_only_refl].
  destruct (is_empty e); cbn [negb]; [| apply counters_only_refl].
  destruct (as_mapping item) as [m | ex]; [| apply counters_only_refl].
  pose proof (CRUDModel_deserialize_insert_counters_only cls m w) as Hc.
  destruct (CRUDModel_deserialize_insert cls m w) as [[m' | ex] w1];
    exact Hc.
Qed.

Lemma validate_loop_counters_only (items : list value) :
  forall st w, counters_only w (snd (forM (validate_step cls) st items w)).
Proof.
  induction items as [| item items IH]; intros st w; simpl.
  - apply counters_only_refl.
  - unfold bind.
    pose proof (validate_step_counters_only st item w) as Hc.
    destruct (validate_step cls st item w) as [[st' | ex] w1]; cbn [snd] in *.
    + eapply counters_only_trans; [exact Hc | apply IH].
    + exact Hc.
Qed.

Lemma insert_each_spec (docs : list dict) :
  forall index w,
    log (snd (insert_each cls index docs w)) = log w
    /\ (snd (fst (insert_each cls index docs w)) = None ->
        documents (snd (insert_each cls index docs w))
        = app (documents w) (fst (fst (insert_each cls index docs w)))).
Proof.
  induction docs as [| doc docs IH]; intros index w; simpl.
  - split; [reflexivity | intros _; symmetry; apply app_nil_r].
  - pose proof (with_id_log doc w) as Hlog.
    pose proof (with_id_documents doc w) as Hdocs.
    destruct (with_id doc w) as [doc' w1]. cbn [snd] in *.
    destruct (duplicate_key (unique_fields cls) (documents w1) doc').
    + simpl. split; [exact Hlog | discriminate].
    + specialize (IH (S index)
                     (set_documents (app (documents w1) [doc']) w1)).
      destruct (insert_each cls (S index) docs
                  (set_documents (app (documents w1) [doc']) w1))
        as [[rest failure] w2].
      cbn [fst snd] in *. destruct IH as [IHlog IHdocs].
      split; [rewrite IHlog; exact Hlog |].
      intros Hnone. rewrite (IHdocs Hnone). simpl.
      rewrite Hdocs, <- app_assoc. reflexivity.
Qed.

Lemma audit_each_log (docs : list dict) :
  forall w,
    forM (fun (_ : unit) inserted_dict => audit cls (AuditAdd inserted_dict))
         tt docs w
    = (Ok tt,
       {| documents := documents w; counters := counters w;
          generated := generated w;
          log := app (log w)
                     (if audit_model cls then map AuditAdd docs else []) |}).
Proof.
  induction docs as [| doc docs IH]; intros w; simpl.
  - unfold ret. destruct w; simpl.
    destruct (audit_model cls); rewrite app_nil_r; reflexivity.
  - unfold bind. rewrite audit_log, IH.
    destruct (audit_model cls); simpl; [| reflexivity].
    rewrite <- app_assoc. reflexivity.
Qed.

Lemma ordered_audit_adds (stored docs : list dict) :
  forall before,
    In (InsertMany stored (length stored)) before ->
    (forall doc, In doc docs -> In doc stored) ->
    ordered before (map AuditAdd docs).
Proof.
  induction docs as [| doc docs IH]; intros before Hin Hsub; simpl;
    [exact I |].
  split.
  - right. exists stored. split; [exact Hin | apply Hsub; left; reflexivity].
  - apply IH.
    + apply in_app_iff. left. exact Hin.
    + intros d Hd. apply Hsub. right. exact Hd.
Qed.

Lemma add_all_events (batch : list value) (w : world) :
  exists evs,
    extends_log (add_all cls batch) w evs /\ audit_after_primary evs.
Proof.
  unfold extends_log, add_all.
  destruct (is_empty batch);
    [exists []; simpl; rewrite app_nil_r; split; [reflexivity | exact I] |].
  unfold bind at 1. unfold validate_each, bind at 1.
  pose proof (validate_loop_counters_only batch (O, [], []) w)
    as (_ & _ & incs & Hlog & Hincs).
  apply counter_events_no_audit in Hincs.
  destruct (forM (validate_step cls) (O, [], []) batch w)
    as [[[[index errs] visited] | ex] w1]; cbn [snd] in Hlog;
    [| exists incs; split; [exact Hlog | apply ordered_no_audit; exact Hincs]].
  unfold ret at 1. cbn [fst snd].
  destruct (is_empty errs); cbn [negb];
    [| exists incs; split; [exact Hlog | apply ordered_no_audit; exact Hincs]].
  unfold bind at 1, lift at 1.
  destruct (as_mappings visited) as [docs | ex];
    [| exists incs; split; [exact Hlog | apply ordered_no_audit; exact Hincs]].
  unfold bind at 1. unfold insert_many, bind at 1, bound.
  destruct (has_base cls); unfold ret, raise;
    [| exists incs; split; [exact Hlog | apply ordered_no_audit; exact Hincs]].
  destruct (insert_each_spec docs O w1) as [Heach Hstored].
  destruct (insert_each cls O docs w1) as [[stored failure] w2].
  cbn [fst snd] in *.
  destruct failure as [details |].
  - exists (app incs [InsertMany stored
                        (length (documents w2) - length (documents w1))]).
    cbn [snd emit log]. rewrite Heach, Hlog, app_assoc.
    split; [reflexivity |].
    apply ordered_no_audit, Forall_app. split; [exact Hincs |].
    repeat constructor.
  - specialize (Hstored eq_refl).
    assert (Hcount : (length (documents w2) - length (documents w1))%nat
                     = length stored).
    { rewrite Hstored, length_app. lia. }
    rewrite Hcount. unfold bind at 1. rewrite audit_each_log.
    unfold lift. cbn [snd emit log].
    exists (app incs (InsertMany stored (length stored)
                      :: (if audit_model cls then map AuditAdd stored else []))).
    split.
    + rewrite Heach, Hlog, <- !app_assoc. reflexivity.
    + apply ordered_app. split; [apply ordered_no_audit; exact Hincs |].
      simpl. split; [exact I |].
      destruct (audit_model cls); [| exact I].
      apply ordered_audit_adds with (stored := stored); [| auto].
      apply in_app_iff. right. left. reflexivity.
Qed.

Lemma update_events (model_as_dict : value) (w : world) :
  exists evs,
    extends_log (update cls model_as_dict) w evs /\ audit_after_primary evs.
Proof.
  unfold extends_log, update.
  destruct (truthy model_as_dict); cbn [negb];
    [| exists []; simpl; rewrite app_nil_r; split; [reflexivity | exact I]].
  unfold bind at 1, lift at 1.
  destruct (CRUDModel_validate_update cls model_as_dict) as [errs | ex];
    [| exists []; simpl; rewrite app_nil_r; split; [reflexivity | exact I]].
  destruct (is_empty errs); cbn [negb];
    [| exists []; simpl; rewrite app_nil_r; split; [reflexivity | exact I]].
  unfold bind at 1, lift at 1.
  destruct (as_mapping model_as_dict) as [m | ex];
    [| exists []; simpl; rewrite app_nil_r; split; [reflexivity | exact I]].
  unfold bind at 1, lift at 1.
  destruct (CRUDModel_deserialize_update cls m) as [m' | ex];
    [| exists []; simpl; rewrite app_nil_r; split; [reflexivity | exact I]].
  unfold bind at 1. unfold _update_one.
  set (keys := _to_primary_keys_model cls m').
  unfold bind at 1. unfold find_one at 1, bind at 1, bound.
  destruct (has_base cls) eqn:Hbase; unfold ret, raise;
    [| exists []; simpl; rewrite app_nil_r; split; [reflexivity | exact I]].
  destruct (List.find (doc_matches keys) (documents w)) as [doc |] eqn:Hfind;
    [| exists [FindOne keys]; simpl;
       split; [reflexivity | unfold audit_after_primary; simpl; tauto]].
  destruct (truthy (VDict doc)); cbn [negb];
    [| exists [FindOne keys]; simpl;
       split; [reflexivity | unfold audit_after_primary; simpl; tauto]].
  unfold bind at 1. unfold update_one, bind at 1, bound.
  rewrite Hbase. unfold ret. cbn [emit documents]. rewrite Hfind.
  destruct (duplicate_key (unique_fields cls)
              (without_first keys (documents w)) (apply_set doc m')).
  - exists [FindOne keys; UpdateOne keys m' false].
    cbn [snd emit log]. rewrite <- app_assoc.
    split; [reflexivity | unfold audit_after_primary; simpl; tauto].
  - unfold bind at 1. unfold find_one, bind at 1, bound.
    rewrite Hbase. unfold ret.
    unfold bind at 1. rewrite audit_log.
    unfold bind, lift.
    match goal with
    | |- context [AuditUpdate (audited ?new)] => set (new_model := new)
    end.
    exists (app [FindOne keys; UpdateOne keys m' true; FindOne keys]
                (if audit_model cls then [AuditUpdate (audited new_model)]
                 else [])).
    split.
    + destruct (audit_model cls);
        destruct (CRUDModel_serialize cls (VDict doc));
        try destruct (CRUDModel_serialize cls new_model);
        cbn [snd emit set_documents log]; rewrite <- !app_assoc; reflexivity.
    + unfold audit_after_primary.
      destruct (audit_model cls); simpl; [| tauto].
      repeat split. exists keys, m'. right. left. reflexivity.
Qed.

Lemma remove_events (model_to_query filter : dict) (w : world) :
  has_base cls = true ->
  CRUDModel_validate_query cls model_to_query = Ok [] ->
  CRUDModel_deserialize_query cls model_to_query = Ok filter ->
  exists deleted_count,
    new_events (remove cls model_to_query) w
    = app (if audit_model cls then [AuditRemove filter] else [])
          [DeleteMany filter deleted_count].
Proof.
  intros Hbase Hvalid Hdeser.
  eexists. apply new_events_of_log.
  unfold remove, bind, lift. rewrite Hvalid, Hdeser. cbn [is_empty negb].
  rewrite audit_log. unfold delete_many, bind, bound. rewrite Hbase.
  unfold ret. destruct (audit_model cls); cbn [snd emit set_documents log documents].
  - rewrite <- app_assoc. reflexivity.
  - reflexivity.
Qed.
End AuditProperties.

(** C5, as the code has it. With or without an audit model linked,
    [audit_add] is called only after the insert it reports succeeded
    ([add] and [add_all]) and [audit_update] only after an update that
    changed a document: in the calls each operation issues, every audit
    call is justified by the calls before it, so none is issued when the
    primary operation fails. [remove] is the other way round: on a bound
    model and a filter that validates and deserializes, it calls
    [audit_remove] with the deserialized filter first and [delete_many]
    next. *)
Theorem audit_hooks_order (rt : Runtime) (dr : Driver) (cls : CRUDModel) :
  (forall model_as_dict w,
      audit_after_primary (new_events (add cls model_as_dict) w))
  /\ (forall batch w,
         audit_after_primary (new_events (add_all cls batch) w))
  /\ (forall model_as_dict w,
         audit_after_primary (new_events (update cls model_as_dict) w))
  /\ (forall model_to_query filter w,
         has_base cls = true ->
         CRUDModel_validate_query cls model_to_query = Ok [] ->
         CRUDModel_deserialize_query cls model_to_query = Ok filter ->
         exists deleted_count,
           new_events (remove cls model_to_query) w
           = app (if audit_model cls then [AuditRemove filter] else [])
                 [DeleteMany filter deleted_count]).
Proof.
  split; [| split; [| split]].
  - intros m w. destruct (add_events cls m w) as (evs & Hlog & Hord).
    rewrite (new_events_of_log _ _ _ Hlog). exact Hord.
  - intros batch w. destruct (add_all_events cls batch w) as (evs & Hlog & Hord).
    rewrite (new_events_of_log _ _ _ Hlog). exact Hord.
  - intros m w. destruct (update_events cls m w) as (evs & Hlog & Hord).
    rewrite (new_events_of_log _ _ _ Hlog). exact Hord.
  - intros m filter w. apply remove_events.
Qed.

Lemma audit_hooks_order_witness :
  exists deleted_count,
    new_events (remove (rt := Reference.runtime) (dr := Reference.driver)
                  (Reference.key_value_model true) [("key", VStr "a")])
               (one_record true)
    = app (if audit_model (Reference.key_value_model true)
           then [AuditRemove [("key", VStr "a")]] else [])
          [DeleteMany [("key", VStr "a")] deleted_count].
Proof.
  apply (proj2 (proj2 (proj2
           (audit_hooks_order Reference.runtime Reference.driver
              (Reference.key_value_model true))))
           [("key", VStr "a")] [("key", VStr "a")] (one_record true));
    reflexivity.
Defined.

(** C5 as stated fails for [remove]: on the example model with an audit
    model linked, removing the record of key ['a'] calls [audit_remove]
    and only then [delete_many], so the audit call has no deletion before
    it. *)
Lemma audit_remove_precedes_deletion :
  new_events (remove (rt := Reference.runtime) (dr := Reference.driver)
                (Reference.key_value_model true) [("key", VStr "a")])
             (one_record true)
  = [AuditRemove [("key", VStr "a")]; DeleteMany [("key", VStr "a")] 1]
  /\ ~ audit_after_primary
         (new_events (remove (rt := Reference.runtime) (dr := Reference.driver)
                        (Reference.key_value_model true) [("key", VStr "a")])
                     (one_record true)).
Proof.
  assert (Hevs : new_events
                   (remove (rt := Reference.runtime) (dr := Reference.driver)
                      (Reference.key_value_model true) [("key", VStr "a")])
                   (one_record true)
                 = [AuditRemove [("key", VStr "a")];
                    DeleteMany [("key", VStr "a")] 1])
    by (vm_compute; reflexivity).
  split; [exact Hevs |]. rewrite Hevs.
  unfold audit_after_primary. simpl. intros [[n []] _].
Qed.

(** ** What [add] stores *)

Section RoundTrip.
Context {rt : Runtime} {dr : Driver}.
Variable cls : CRUDModel.

(** What a successful [add] did: the model is bound, one document went
    to the end of the collection, and the mapping returned is that
    document, serialized. *)
Lemma add_stores (model_as_dict : value) (w w1 : world) (r : dict) :
  add cls model_as_dict w = (Ok r, w1) ->
  has_base cls = true
  /\ exists doc,
       documents w1 = app (documents w) [doc]
       /\ CRUDModel_serialize cls (VDict doc) = Ok r.
Proof.
  unfold add. unfold bind at 1, lift at 1.
  destruct (CRUDModel_validate_insert cls model_as_dict) as [errs | ex];
    [| discriminate].
  destruct (is_empty errs); cbn [negb]; [| discriminate].
  unfold bind at 1, lift at 1.
  destruct (as_mapping model_as_dict) as [m | ex]; [| discriminate].
  unfold bind at 1.
  pose proof (CRUDModel_deserialize_insert_counters_only cls m w)
    as (Hdocs & _).
  destruct (CRUDModel_deserialize_insert cls m w) as [[m' | ex] w2];
    cbn [snd] in Hdocs; [| discriminate].
  unfold bind at 1. unfold insert_one, bind at 1, bound.
  destruct (has_base cls); unfold ret, raise; [| discriminate].
  pose proof (with_id_documents m' w2) as Hid.
  destruct (with_id m' w2) as [doc w3]. cbn [snd] in Hid.
  destruct (duplicate_key (unique_fields cls) (documents w3) doc).
  - unfold bind, lift, raise.
    destruct (CRUDModel_serialize cls (VDict doc)); discriminate.
  - unfold bind at 1. rewrite audit_log. unfold lift.
    intros Hrun. injection Hrun as Hr Hw. split; [reflexivity |].
    exists doc. split; [| exact Hr]. subst w1.
    destruct (audit_model cls); cbn [emit set_documents documents];
      rewrite Hid, Hdocs; reflexivity.
Qed.

End RoundTrip.

(** ** Validation works on a copy *)

Section CopyProperties.
Import Objects.

Lemma extends_from_refl (h : heap) : extends_from (length h) h h.
Proof.
  split; [lia |]. split; [reflexivity |].
  intros l o Hl Hlook. apply lookup_lt_Some in Hlook. lia.
Qed.

Lemma extends_from_alloc (n : nat) (h0 h : heap) (o : object) :
  extends_from n h0 h -> object_from n o ->
  extends_from n h0 (app h [o]) /\ (n <= length h)%nat.
Proof.
  intros (Hlen & Hold & Hnew) Ho. split; [| exact Hlen].
  split; [rewrite length_app; lia |]. split.
  - intros l Hl. rewrite lookup_app_l by lia. apply Hold, Hl.
  - intros l o' Hl Hlook.
    destruct (decide (l < length h)%nat) as [Hlt | Hge].
    + rewrite lookup_app_l in Hlook by exact Hlt. eapply Hnew; eassumption.
    + rewrite lookup_app_r in Hlook by lia.
      destruct (l - length h)%nat; simpl in Hlook; [| discriminate].
      injection Hlook as <-. exact Ho.
Qed.

Lemma extends_from_insert (n : nat) (h0 h : heap) (l : nat) (o : object) :
  extends_from n h0 h -> (n <= l)%nat -> object_from n o ->
  extends_from n h0 (<[l := o]> h).
Proof.
  intros (Hlen & Hold & Hnew) Hl Ho.
  split; [rewrite length_insert; exact Hlen |]. split.
  - intros l' Hl'. rewrite list_lookup_insert_ne by lia. apply Hold, Hl'.
  - intros l' o' Hl' Hlook.
    apply list_lookup_insert_Some in Hlook
      as [(-> & -> & _) | (_ & Hlook)]; [exact Ho |].
    eapply Hnew; eassumption.
Qed.

Lemma Forall_dict_set {V : Type} (Q : V -> Prop) (key : string) (x : V)
    (entries : pydict V) :
  Forall (fun kv => Q (snd kv)) entries -> Q x ->
  Forall (fun kv => Q (snd kv)) (dict_set key x entries).
Proof.
  intros Hall Hx.
  induction entries as [| [k v] entries IH]; simpl.
  - constructor; [exact Hx | constructor].
  - inversion Hall as [| ? ? Hv Hrest]; subst.
    destruct (String.eqb k key); constructor; auto.
Qed.

Lemma Forall_dict_lookup {V : Type} (Q : V -> Prop) (key : string) (x : V)
    (entries : pydict V) :
  Forall (fun kv => Q (snd kv)) entries ->
  dict_lookup key entries = Some x -> Q x.
Proof.
  intros Hall.
  induction entries as [| [k v] entries IH]; simpl; [discriminate |].
  inversion Hall as [| ? ? Hv Hrest]; subst.
  destruct (String.eqb k key); [intros [= <-]; exact Hv | auto].
Qed.

Lemma setitem_extends (n : nat) (h0 h : heap) (y : nat) (key : string)
    (x : slot) :
  extends_from n h0 h -> (n <= y)%nat -> slot_from n x ->
  extends_from n h0 (setitem y key x h).
Proof.
  intros Hext Hy Hx. unfold setitem.
  destruct (h !! y) as [[entries | items] |] eqn:Hlook; try exact Hext.
  apply extends_from_insert; [exact Hext | exact Hy |].
  destruct Hext as (_ & _ & Hnew). specialize (Hnew y _ Hy Hlook).
  simpl in *. apply Forall_dict_set; assumption.
Qed.

Lemma append_extends (n : nat) (h0 h : heap) (y : nat) (x : slot) :
  extends_from n h0 h -> (n <= y)%nat -> slot_from n x ->
  extends_from n h0 (append y x h).
Proof.
  intros Hext Hy Hx. unfold append.
  destruct (h !! y) as [[entries | items] |] eqn:Hlook; try exact Hext.
  apply extends_from_insert; [exact Hext | exact Hy |].
  destruct Hext as (_ & _ & Hnew). specialize (Hnew y _ Hy Hlook).
  simpl in *. apply Forall_app. split; [exact Hnew |].
  constructor; [exact Hx | constructor].
Qed.

Lemma memo_lookup_from (n l l' : nat) (m : memo) :
  memo_from n m -> memo_lookup l m = Some l' -> (n <= l')%nat.
Proof.
  unfold memo_from, memo_lookup. intros Hall.
  induction Hall as [| [a b] m Hb _ IH]; simpl; [discriminate |].
  destruct (Nat.eqb a l); [intros [= <-]; exact Hb | exact IH].
Qed.

Lemma copy_entries_extend (n : nat) (h0 : heap)
    (copy : slot -> heap -> memo -> option (slot * heap * memo)) (y : nat)
    (entries : pydict slot) :
  copies_afresh n h0 copy -> (n <= y)%nat ->
  forall st st',
    extends_from n h0 (fst st) -> memo_from n (snd st) ->
    fold_option (copy_entry copy y) st entries = Some st' ->
    extends_from n h0 (fst st') /\ memo_from n (snd st').
Proof.
  intros Hcopy Hy.
  induction entries as [| [k x] entries IH]; intros st st' Hext Hmemo; simpl.
  - intros [= <-]. auto.
  - unfold copy_entry at 1. simpl.
    destruct (copy x (fst st) (snd st)) as [[[x' h'] m'] |] eqn:Hx;
      simpl; [| discriminate].
    destruct (Hcopy _ _ _ _ _ _ Hext Hmemo Hx) as (Hext' & Hmemo' & Hx').
    apply IH; simpl; [| exact Hmemo'].
    apply setitem_extends; assumption.
Qed.

Lemma copy_items_extend (n : nat) (h0 : heap)
    (copy : slot -> heap -> memo -> option (slot * heap * memo)) (y : nat)
    (items : list slot) :
  copies_afresh n h0 copy -> (n <= y)%nat ->
  forall st st',
    extends_from n h0 (fst st) -> memo_from n (snd st) ->
    fold_option (copy_item copy y) st items = Some st' ->
    extends_from n h0 (fst st') /\ memo_from n (snd st').
Proof.
  intros Hcopy Hy.
  induction items as [| x items IH]; intros st st' Hext Hmemo; simpl.
  - intros [= <-]. auto.
  - unfold copy_item at 1. simpl.
    destruct (copy x (fst st) (snd st)) as [[[x' h'] m'] |] eqn:Hx;
      simpl; [| discriminate].
    destruct (Hcopy _ _ _ _ _ _ Hext Hmemo Hx) as (Hext' & Hmemo' & Hx').
    apply IH; simpl; [| exact Hmemo'].
    apply append_extends; assumption.
Qed.

(** [deepcopy] writes into the objects it allocates only, and the copy it
    returns leads to those objects only. *)
Lemma deepcopy_copies_afresh (n : nat) (h0 : heap) (fuel : nat) :
  copies_afresh n h0 (deepcopy fuel).
Proof.
  induction fuel as [| fuel IH]; intros x h m x' h' m' Hext Hmemo;
    destruct x as [v | l]; simpl;
    try (intros [= <- <- <-];
         split; [assumption | split; [assumption | exact I]]).
  - destruct (memo_lookup l m) as [l' |] eqn:Hl; [| discriminate].
    intros [= <- <- <-].
    split; [assumption | split; [assumption |]].
    eapply memo_lookup_from; eassumption.
  - destruct (memo_lookup l m) as [l' |] eqn:Hl.
    { intros [= <- <- <-].
      split; [assumption | split; [assumption |]].
      eapply memo_lookup_from; eassumption. }
    assert (Hlen : (n <= length h)%nat) by apply Hext.
    assert (Hmemo1 : memo_from n ((l, length h) :: m))
      by (constructor; [exact Hlen | exact Hmemo]).
    assert (Hdict : extends_from n h0 (app h [ODict []]))
      by (apply extends_from_alloc; [exact Hext | constructor]).
    assert (Hlist : extends_from n h0 (app h [OList []]))
      by (apply extends_from_alloc; [exact Hext | constructor]).
    destruct (h !! l) as [[entries | items] |]; [| | discriminate].
    + destruct (fold_option (copy_entry (deepcopy fuel) (length h))
                  (app h [ODict []], (l, length h) :: m) entries)
        as [st |] eqn:Hfold; simpl; [| discriminate].
      intros [= <- <- <-].
      destruct (copy_entries_extend n h0 (deepcopy fuel) (length h) entries
                  IH Hlen (app h [ODict []], (l, length h) :: m) st
                  Hdict Hmemo1 Hfold) as [Hext' Hmemo'].
      split; [assumption | split; [assumption | exact Hlen]].
    + destruct (fold_option (copy_item (deepcopy fuel) (length h))
                  (app h [OList []], (l, length h) :: m) items)
        as [st |] eqn:Hfold; simpl; [| discriminate].
      intros [= <- <- <-].
      destruct (copy_items_extend n h0 (deepcopy fuel) (length h) items
                  IH Hlen (app h [OList []], (l, length h) :: m) st
                  Hlist Hmemo1 Hfold) as [Hext' Hmemo'].
      split; [assumption | split; [assumption | exact Hlen]].
Qed.

Lemma object_at_from (n : nat) (h0 h : heap) (l : nat) (entries : pydict slot)
    (key : string) (x : slot) :
  extends_from n h0 h -> (n <= l)%nat ->
  h !! l = Some (ODict entries) -> dict_lookup key entries = Some x ->
  slot_from n x.
Proof.
  intros (_ & _ & Hnew) Hl Hlook Hkey.
  specialize (Hnew l _ Hl Hlook). simpl in Hnew.
  eapply (Forall_dict_lookup (slot_from n)); eassumption.
Qed.

Lemma update_at_extends (n : nat) (h0 h : heap) (p : nat) (child : string)
    (v : slot) :
  extends_from n h0 h -> (n <= p)%nat -> slot_from n v ->
  extends_from n h0
    (fst (match h !! p with
          | Some (ODict previous) =>
              (<[p := ODict (dict_update previous [(child, v)])]> h, Ok tt)
          | _ => (h, @Raise unit AttributeError)
          end)).
Proof.
  intros Hext Hp Hv.
  destruct (h !! p) as [[previous | items] |] eqn:Hlook; simpl; try exact Hext.
  apply extends_from_insert; [exact Hext | exact Hp |].
  destruct Hext as (_ & _ & Hnew). specialize (Hnew p _ Hp Hlook).
  simpl in *. apply Forall_dict_set; assumption.
Qed.

Lemma setdefault_update_extends (n : nat) (h0 h : heap)
    (known_field child : string) (v : slot) (new : nat) :
  extends_from n h0 h -> (n <= new)%nat -> slot_from n v ->
  extends_from n h0 (fst (Objects.setdefault_update known_field child v new h)).
Proof.
  intros Hext Hnew Hv. unfold Objects.setdefault_update.
  destruct (h !! new) as [[entries | items] |] eqn:Hlook; simpl;
    try exact Hext.
  destruct (dict_lookup known_field entries) as [previous_dict |] eqn:Hkey.
  - pose proof (object_at_from _ _ _ _ _ _ _ Hext Hnew Hlook Hkey) as Hp.
    destruct previous_dict as [a | p]; simpl; [exact Hext |].
    apply update_at_extends; assumption.
  - unfold alloc.
    assert (Hlen : (n <= length h)%nat) by apply Hext.
    apply update_at_extends; [| exact Hlen | exact Hv].
    apply extends_from_insert; [| exact Hnew |].
    + apply extends_from_alloc; [exact Hext | constructor].
    + destruct Hext as (_ & _ & Hfrom). specialize (Hfrom new _ Hnew Hlook).
      simpl in *. apply Forall_dict_set; [exact Hfrom | exact Hlen].
Qed.

Lemma fold_dot_notation_extends (n : nat) (h0 : heap)
    (fields : list (string * column)) (unknown_fields : list string)
    (new : nat) :
  (n <= new)%nat ->
  forall h,
    extends_from n h0 h ->
    extends_from n h0
      (fst (Objects.fold_dot_notation fields unknown_fields new h)).
Proof.
  intros Hnew.
  induction unknown_fields as [| unknown_field unknown_fields IH];
    intros h Hext; simpl; [exact Hext |].
  destruct (h !! new) as [[entries | items] |] eqn:Hlook; simpl;
    try exact Hext.
  destruct (dict_lookup unknown_field entries) as [v |] eqn:Hkey; simpl;
    [| exact Hext].
  pose proof (object_at_from _ _ _ _ _ _ _ Hext Hnew Hlook Hkey) as Hv.
  destruct (dot_notation fields unknown_field) as [[known_field child] |];
    [| apply IH; exact Hext].
  pose proof (setdefault_update_extends n h0 h known_field child v new
                Hext Hnew Hv) as Hstep.
  destruct (Objects.setdefault_update known_field child v new h)
    as [h1 [u | e]]; simpl in *; [apply IH; exact Hstep | exact Hstep].
Qed.

Lemma extends_from_unchanged (h h' : heap) :
  extends_from (length h) h h' -> unchanged h h'.
Proof.
  intros (_ & Hold & _) l o Hlook.
  rewrite Hold; [exact Hlook | eapply lookup_lt_Some; exact Hlook].
Qed.

Lemma unchanged_refl (h : heap) : unchanged h h.
Proof. intros l o Hlook. exact Hlook. Qed.

Section ValidationOnCopy.
Context {rt : Runtime}.
Variable cls : CRUDModel.

Lemma validate_on_copy_unchanged (h : heap) (model_as_dict : slot)
    (unknown_fields : pydict slot -> list string)
    (validate_fields : dict -> result errors) :
  unchanged h
    (fst (validate_on_copy cls h model_as_dict unknown_fields validate_fields)).
Proof.
  unfold validate_on_copy.
  destruct (deepcopy (S (length h)) model_as_dict h [])
    as [[[copy h1] m1] |] eqn:Hcopy; [| apply unchanged_refl].
  destruct (deepcopy_copies_afresh (length h) h (S (length h))
              model_as_dict h [] copy h1 m1
              (extends_from_refl h) (Forall_nil_2 _) Hcopy)
    as (Hext & _ & Hnew).
  apply extends_from_unchanged.
  destruct copy as [a | new]; [exact Hext |]. simpl in Hnew.
  destruct (entries_of h1 (Ref new)) as [entries | e]; [| exact Hext].
  pose proof (fold_dot_notation_extends (length h) h (__fields__ cls)
                (unknown_fields entries) new Hnew h1 Hext) as Hfold.
  destruct (Objects.fold_dot_notation (__fields__ cls)
              (unknown_fields entries) new h1) as [h2 [u | e]];
    exact Hfold.
Qed.
End ValidationOnCopy.

(** C10. Whatever mapping they are handed, [CRUDModel.validate_query],
    [validate_insert] and [validate_update] leave every object that
    existed before the call as it was: the mapping of the caller, and all
    it refers to, are not written to (dot notation folding and the
    per-field checks run on what [copy.deepcopy] allocated). The
    deserialize methods do write to the mapping they are handed: each of
    them turns the mapping [{'key': None, 'other': 1}] of the example
    model, where [other] is not a field, into the empty mapping. *)
Theorem validation_leaves_input (rt : Runtime) (cls : CRUDModel) :
  (forall h model_as_dict,
      unchanged h (fst (Objects.CRUDModel_validate_query cls h model_as_dict))
      /\ unchanged h (fst (Objects.CRUDModel_validate_insert cls h model_as_dict))
      /\ unchanged h (fst (Objects.CRUDModel_validate_update cls h model_as_dict)))
  /\ (let sent := [("key", VNone); ("other", VInt 1)] in
      let example := Reference.key_value_model false in
      CRUDModel_deserialize_query example sent = Ok []
      /\ CRUDModel_deserialize_update example sent = Ok []
      /\ forall (dr : Driver) (w : world),
           fst (CRUDModel_deserialize_insert example sent w) = Ok []).
Proof.
  split.
  - intros h model_as_dict. split; [| split].
    + unfold Objects.CRUDModel_validate_query.
      destruct (entries_of h model_as_dict); [| apply unchanged_refl].
      apply validate_on_copy_unchanged.
    + unfold Objects.CRUDModel_validate_insert.
      destruct (negb (slot_truthy h model_as_dict)); [apply unchanged_refl |].
      apply validate_on_copy_unchanged.
    + unfold Objects.CRUDModel_validate_update.
      destruct (negb (slot_truthy h model_as_dict)); [apply unchanged_refl |].
      apply validate_on_copy_unchanged.
  - cbv zeta. split; [reflexivity |]. split; [reflexivity |].
    intros dr w. reflexivity.
Qed.
End CopyProperties.

(** On the heap that holds [{'key': 3, 'details': {'x': 1},
    'details.y': 'z'}], validation on insert reports what it reports on
    the tree, and the two objects of the caller are the first two of the
    heap it leaves; the two that follow are the copy, whose [details] now
    holds [y] as well. *)
Example validation_on_copy_example :
  let stored := Objects.store Reference.dotted_record [] in
  Objects.CRUDModel_validate_insert (rt := Reference.runtime)
    Reference.details_model (snd stored) (fst stored)
  = (app (snd stored)
         [Objects.ODict [("key", Objects.Atom (VInt 3));
                         ("details", Objects.Ref 3);
                         ("details.y", Objects.Atom (VStr "z"))];
          Objects.ODict [("x", Objects.Atom (VInt 1));
                         ("y", Objects.Atom (VStr "z"))]],
     CRUDModel_validate_insert (rt := Reference.runtime)
       Reference.details_model Reference.dotted_record)
  /\ CRUDModel_validate_insert (rt := Reference.runtime)
       Reference.details_model Reference.dotted_record
     = Ok [("key", ["Not a valid str."])].
Proof. split; reflexivity. Qed.

(** ** Counters *)

Section CounterProperties.
Context {rt : Runtime} {dr : Driver}.
Variable cls : CRUDModel.

(** One caller after the other: on a bound model [_increment] returns the
    counter it found plus one, and leaves it for the next call, so
    successive calls return successive integers. *)
Lemma _increment_successive (field_name : string) (w : world) :
  has_base cls = true ->
  exists n w1 w2,
    _increment cls field_name w = (Ok (VInt n), w1)
    /\ _increment cls field_name w1 = (Ok (VInt (n + 1)), w2).
Proof.
  intros Hbase. unfold _increment, bind, bound. rewrite Hbase.
  unfold ret. cbn [emit counters].
  do 3 eexists. split; [reflexivity |].
  cbn [counters emit]. rewrite dict_lookup_set_eq. reflexivity.
Qed.
End CounterProperties.

(** ** [deepcopy] returns *)

Section CopyReturns.
Import Objects.

Lemma filter_length_le {A : Type} (p q : A -> bool) (l : list A) :
  (forall x, q x = true -> p x = true) ->
  (length (List.filter q l) <= length (List.filter p l))%nat.
Proof.
  intros Himp. induction l as [| x l IH]; simpl; [lia |].
  destruct (q x) eqn:Hq.
  - rewrite (Himp x Hq). simpl. lia.
  - destruct (p x); simpl; lia.
Qed.

Lemma filter_length_lt {A : Type} (p q : A -> bool) (l : list A) (x0 : A) :
  (forall x, q x = true -> p x = true) ->
  In x0 l -> p x0 = true -> q x0 = false ->
  (length (List.filter q l) < length (List.filter p l))%nat.
Proof.
  intros Himp Hin Hp Hq. induction l as [| x l IH]; simpl; [destruct Hin |].
  destruct Hin as [-> | Hin].
  - rewrite Hp, Hq. simpl.
    pose proof (filter_length_le p q l Himp). lia.
  - specialize (IH Hin). destruct (q x) eqn:Hqx.
    + rewrite (Himp x Hqx). simpl. lia.
    + destruct (p x); simpl; lia.
Qed.

Lemma not_copied_cons (l y : nat) (m : memo) (x : nat) :
  not_copied ((l, y) :: m) x = true -> not_copied m x = true.
Proof.
  unfold not_copied, memo_lookup. simpl.
  destruct (Nat.eqb l x); [discriminate | auto].
Qed.

Lemma unvisited_cons (n l y : nat) (m : memo) :
  (l < n)%nat -> memo_lookup l m = None ->
  (unvisited n ((l, y) :: m) < unvisited n m)%nat.
Proof.
  intros Hl Hmiss. unfold unvisited.
  apply filter_length_lt with (x0 := l).
  - apply not_copied_cons.
  - apply in_seq. lia.
  - unfold not_copied. rewrite Hmiss. reflexivity.
  - unfold not_copied, memo_lookup. simpl. rewrite Nat.eqb_refl. reflexivity.
Qed.

Lemma unvisited_bound (n : nat) (m : memo) : (unvisited n m <= n)%nat.
Proof.
  unfold unvisited.
  pose proof (List.filter_length_le (not_copied m) (seq 0 n)) as Hle.
  rewrite length_seq in Hle. exact Hle.
Qed.

Lemma copy_entries_return (h0 : heap) (fuel : nat) (y : nat)
    (entries : pydict slot) :
  copy_returns h0 (deepcopy fuel) fuel ->
  (length h0 <= y)%nat ->
  Forall (fun kv => slot_in (length h0) (snd kv)) entries ->
  forall st,
    extends_from (length h0) h0 (fst st) -> memo_from (length h0) (snd st) ->
    (unvisited (length h0) (snd st) < fuel)%nat ->
    exists st',
      fold_option (copy_entry (deepcopy fuel) y) st entries = Some st'
      /\ (unvisited (length h0) (snd st') <= unvisited (length h0) (snd st))%nat.
Proof.
  intros Hcopy Hy Hall.
  induction Hall as [| [k x] entries Hx _ IH]; intros st Hext Hmemo Hfuel; simpl.
  - exists st. split; [reflexivity | lia].
  - destruct (Hcopy x (fst st) (snd st) Hext Hmemo Hx Hfuel)
      as (x' & h' & m' & Hrun & Hless).
    unfold copy_entry at 1. simpl. rewrite Hrun. simpl.
    destruct (deepcopy_copies_afresh (length h0) h0 fuel _ _ _ _ _ _
                Hext Hmemo Hrun) as (Hext' & Hmemo' & Hx').
    destruct (IH (setitem y k x' h', m')) as (st' & Hfold & Hless');
      simpl; [apply setitem_extends; assumption | exact Hmemo' | lia |].
    exists st'. split; [exact Hfold | simpl in Hless'; lia].
Qed.

Lemma copy_items_return (h0 : heap) (fuel : nat) (y : nat)
    (items : list slot) :
  copy_returns h0 (deepcopy fuel) fuel ->
  (length h0 <= y)%nat ->
  Forall (slot_in (length h0)) items ->
  forall st,
    extends_from (length h0) h0 (fst st) -> memo_from (length h0) (snd st) ->
    (unvisited (length h0) (snd st) < fuel)%nat ->
    exists st',
      fold_option (copy_item (deepcopy fuel) y) st items = Some st'
      /\ (unvisited (length h0) (snd st') <= unvisited (length h0) (snd st))%nat.
Proof.
  intros Hcopy Hy Hall.
  induction Hall as [| x items Hx _ IH]; intros st Hext Hmemo Hfuel; simpl.
  - exists st. split; [reflexivity | lia].
  - destruct (Hcopy x (fst st) (snd st) Hext Hmemo Hx Hfuel)
      as (x' & h' & m' & Hrun & Hless).
    unfold copy_item at 1. simpl. rewrite Hrun. simpl.
    destruct (deepcopy_copies_afresh (length h0) h0 fuel _ _ _ _ _ _
                Hext Hmemo Hrun) as (Hext' & Hmemo' & Hx').
    destruct (IH (append y x' h', m')) as (st' & Hfold & Hless');
      simpl; [apply append_extends; assumption | exact Hmemo' | lia |].
    exists st'. split; [exact Hfold | simpl in Hless'; lia].
Qed.

Lemma deepcopy_returns_with (h0 : heap) (fuel : nat) :
  closed h0 -> copy_returns h0 (deepcopy fuel) fuel.
Proof.
  intros Hclosed.
  induction fuel as [| fuel IH]; intros x h m Hext Hmemo Hx Hfuel; [lia |].
  destruct x as [v | l]; simpl.
  { exists (Atom v), h, m. split; [reflexivity | lia]. }
  destruct (memo_lookup l m) as [l' |] eqn:Hmiss.
  { exists (Ref l'), h, m. split; [reflexivity | lia]. }
  simpl in Hx.
  assert (Hlen : (length h0 <= length h)%nat) by apply Hext.
  assert (Hsame : h !! l = h0 !! l) by (apply Hext; exact Hx).
  destruct (lookup_lt_is_Some_2 h0 l Hx) as [o Ho].
  rewrite Hsame, Ho.
  pose proof (Hclosed l o Ho) as Hin.
  pose proof (unvisited_cons (length h0) l (length h) m Hx Hmiss) as Hdrop.
  assert (Hmemo1 : memo_from (length h0) ((l, length h) :: m))
    by (constructor; [exact Hlen | exact Hmemo]).
  destruct o as [entries | items]; simpl in Hin.
  - destruct (copy_entries_return h0 fuel (length h) entries IH Hlen Hin
                (app h [ODict []], (l, length h) :: m))
      as (st & Hfold & Hless); simpl;
      [apply extends_from_alloc; [exact Hext | constructor]
      | exact Hmemo1 | lia |].
    rewrite Hfold. simpl.
    exists (Ref (length h)), (fst st), (snd st).
    split; [reflexivity | simpl in Hless; lia].
  - destruct (copy_items_return h0 fuel (length h) items IH Hlen Hin
                (app h [OList []], (l, length h) :: m))
      as (st & Hfold & Hless); simpl;
      [apply extends_from_alloc; [exact Hext | constructor]
      | exact Hmemo1 | lia |].
    rewrite Hfold. simpl.
    exists (Ref (length h)), (fst st), (snd st).
    split; [reflexivity | simpl in Hless; lia].
Qed.

(** On a heap whose objects refer to one another only, the fuel the
    validation methods give [deepcopy] is enough: the copy is made,
    cycles and shared objects included. *)
Lemma deepcopy_returns (h : heap) (x : slot) :
  closed h -> slot_in (length h) x ->
  exists copy h' m, deepcopy (S (length h)) x h [] = Some (copy, h', m).
Proof.
  intros Hclosed Hx.
  destruct (deepcopy_returns_with h (S (length h)) Hclosed x h []
              (extends_from_refl h) (Forall_nil_2 _) Hx)
    as (copy & h' & m & Hrun & _).
  - pose proof (unvisited_bound (length h) []). lia.
  - eauto.
Qed.
End CopyReturns.

(** * Further properties *)

#[local] Arguments Ascii.eqb : simpl never.

(** ** Mappings *)

Section DictProperties.
Context {V : Type}.

Lemma dict_in_lookup (k : string) (d : pydict V) :
  dict_in k d = true <-> dict_lookup k d <> None.
Proof.
  induction d as [| [k' x] d IH]; simpl.
  - split; [discriminate | congruence].
  - destruct (String.eqb k' k); simpl; [split; [discriminate | reflexivity] | exact IH].
Qed.

Lemma dict_in_lookup_None (k : string) (d : pydict V) :
  dict_in k d = false <-> dict_lookup k d = None.
Proof.
  induction d as [| [k' x] d IH]; simpl.
  - split; reflexivity.
  - destruct (String.eqb k' k); simpl; [split; discriminate | exact IH].
Qed.

Lemma dict_in_set (k name : string) (v : V) (d : pydict V) :
  dict_in k (dict_set name v d) = String.eqb name k || dict_in k d.
Proof.
  induction d as [| [k' x] d IH]; simpl.
  - rewrite orb_false_r. reflexivity.
  - destruct (String.eqb k' name) eqn:E; simpl.
    + apply String.eqb_eq in E. subst k'.
      destruct (String.eqb name k); reflexivity.
    + rewrite IH. destruct (String.eqb k' k), (String.eqb name k); reflexivity.
Qed.

Lemma dict_pop_cons (name k : string) (x : V) (d : pydict V) :
  dict_pop name ((k, x) :: d)
  = if String.eqb k name then dict_pop name d else (k, x) :: dict_pop name d.
Proof.
  unfold dict_pop, pydict. rewrite filter_cons. simpl.
  destruct (String.eqb k name); reflexivity.
Qed.

Lemma dict_in_pop (k name : string) (d : pydict V) :
  dict_in k (dict_pop name d) = negb (String.eqb name k) && dict_in k d.
Proof.
  induction d as [| [k' x] d IH].
  - simpl. rewrite andb_false_r. reflexivity.
  - rewrite dict_pop_cons. simpl.
    destruct (String.eqb k' name) eqn:E; simpl.
    + apply String.eqb_eq in E. subst k'. rewrite IH.
      destruct (String.eqb name k); reflexivity.
    + rewrite IH.
      destruct (String.eqb k' k) eqn:E'; simpl; [| reflexivity].
      apply String.eqb_eq in E'. subst k'.
      rewrite String.eqb_sym, E. reflexivity.
Qed.

Lemma dict_in_update (k : string) (other d : pydict V) :
  dict_in k (dict_update d other) = dict_in k d || dict_in k other.
Proof.
  unfold dict_update. revert d.
  induction other as [| [k' x] other IH]; intros d; simpl.
  - rewrite orb_false_r. reflexivity.
  - rewrite IH, dict_in_set. simpl.
    destruct (String.eqb k' k), (dict_in k d); reflexivity.
Qed.

Lemma dict_lookup_set_neq (k name : string) (v : V) (d : pydict V) :
  String.eqb name k = false ->
  dict_lookup k (dict_set name v d) = dict_lookup k d.
Proof.
  intros Hneq. induction d as [| [k' x] d IH]; simpl.
  - rewrite Hneq. reflexivity.
  - destruct (String.eqb k' name) eqn:E; simpl.
    + apply String.eqb_eq in E. subst k'. rewrite Hneq. reflexivity.
    + rewrite IH. reflexivity.
Qed.

Lemma dict_lookup_pop_eq (name : string) (d : pydict V) :
  dict_lookup name (dict_pop name d) = None.
Proof.
  apply dict_in_lookup_None. rewrite dict_in_pop, String.eqb_refl. reflexivity.
Qed.

Lemma dict_lookup_pop_neq (k name : string) (d : pydict V) :
  String.eqb name k = false ->
  dict_lookup k (dict_pop name d) = dict_lookup k d.
Proof.
  intros Hneq.
  induction d as [| [k' x] d IH]; [reflexivity |].
  rewrite dict_pop_cons. simpl.
  destruct (String.eqb k' name) eqn:E; simpl.
  - apply String.eqb_eq in E. subst k'. rewrite Hneq. exact IH.
  - rewrite IH. reflexivity.
Qed.

Lemma dict_update_nil (d other : pydict V) :
  dict_update d other = [] <-> d = [] /\ other = [].
Proof.
  split.
  - intros H.
    destruct other as [| [k x] other]; [split; [exact H | reflexivity] |].
    exfalso.
    assert (Hin : dict_in k (dict_update d ((k, x) :: other)) = true).
    { rewrite dict_in_update. simpl. rewrite String.eqb_refl.
      apply orb_true_r. }
    rewrite H in Hin. discriminate.
  - intros [-> ->]. reflexivity.
Qed.
End DictProperties.

(** ** Dot notation *)

Lemma split_dot_Some (s parent child : string) :
  split_dot s = Some (parent, child) ->
  s = parent ++ "." ++ child /\ contains_dot parent = false.
Proof.
  revert parent child.
  induction s as [| c s IH]; intros parent child; simpl; [discriminate |].
  destruct (Ascii.eqb c ".") eqn:E.
  - intros H. injection H as <- <-. apply Ascii.eqb_eq in E. subst c.
    split; reflexivity.
  - destruct (split_dot s) as [[a b] |]; [| discriminate].
    intros H. injection H as <- <-.
    destruct (IH a b eq_refl) as [-> Hdot].
    split; [reflexivity |].
    unfold contains_dot in *. simpl. rewrite Ascii.eqb_sym, E. exact Hdot.
Qed.

Lemma split_dot_join (parent child : string) :
  contains_dot parent = false ->
  split_dot (parent ++ "." ++ child) = Some (parent, child).
Proof.
  unfold contains_dot.
  induction parent as [| c parent IH]; simpl; [reflexivity |].
  intros H. apply orb_false_elim in H as [Hc Hrest].
  rewrite Ascii.eqb_sym in Hc. specialize (IH Hrest). simpl in IH.
  rewrite Hc, IH. reflexivity.
Qed.

Lemma split_dot_None (s : string) :
  split_dot s = None <-> contains_dot s = false.
Proof.
  unfold contains_dot.
  induction s as [| c s IH]; simpl; [tauto |].
  rewrite (Ascii.eqb_sym "."%char c).
  destruct (Ascii.eqb c "."); simpl; [split; discriminate |].
  destruct (split_dot s) as [[a b] |].
  - split; [discriminate |]. intros H. apply IH in H. discriminate.
  - split; [intros _; apply IH; reflexivity | reflexivity].
Qed.

Lemma _handle_dot_notation_spec (fields : list (string * column))
    (key : string) (v : value) (known : string) (field_value : dict) :
  _handle_dot_notation fields key v = Some (known, field_value)
  <-> exists child,
        key = known ++ "." ++ child
        /\ contains_dot known = false
        /\ field_value = [(child, v)]
        /\ exists c, In (known, c) fields
                     /\ is_dict (self_field_type known (column_attrs c)) = true.
Proof.
  unfold _handle_dot_notation. split.
  - destruct (split_dot key) as [[parent child] |] eqn:Hsplit; [| discriminate].
    apply split_dot_Some in Hsplit as [-> Hdot].
    destruct (List.find _ fields) as [[name c] |] eqn:Hfind; [| discriminate].
    intros H. injection H as <- <-.
    apply find_some in Hfind as [Hin Hp]. simpl in Hp.
    apply andb_prop in Hp as [Hname Htype].
    apply String.eqb_eq in Hname. subst parent.
    exists child. simpl. repeat split; try assumption.
    exists c. split; assumption.
  - intros (child & -> & Hdot & -> & c & Hin & Htype).
    rewrite (split_dot_join known child Hdot).
    destruct (List.find _ fields) as [[name c'] |] eqn:Hfind.
    + apply find_some in Hfind as [_ Hp]. simpl in Hp.
      apply andb_prop in Hp as [Hname _].
      apply String.eqb_eq in Hname. subst name. reflexivity.
    + exfalso.
      apply (find_none _ _ Hfind) in Hin. simpl in Hin.
      rewrite String.eqb_refl, Htype in Hin. discriminate.
Qed.

(** X1. [_handle_dot_notation] resolves a key exactly when the text
    before its first dot is the name of a declared field of type [dict];
    the rest of the key, dots included, becomes the single key of the
    nested mapping. *)
Theorem dot_notation_resolution (fields : list (string * column))
    (key : string) (v : value) (known : string) (field_value : dict) :
  _handle_dot_notation fields key v = Some (known, field_value)
  <-> exists child,
        key = known ++ "." ++ child
        /\ contains_dot known = false
        /\ field_value = [(child, v)]
        /\ exists c, In (known, c) fields
                     /\ is_dict (self_field_type known (column_attrs c)) = true.
Proof.
  unfold _handle_dot_notation. split.
  - destruct (split_dot key) as [[parent child] |] eqn:Hsplit; [| discriminate].
    apply split_dot_Some in Hsplit as [-> Hdot].
    destruct (List.find _ fields) as [[name c] |] eqn:Hfind; [| discriminate].
    intros H. injection H as <- <-.
    apply find_some in Hfind as [Hin Hp]. simpl in Hp.
    apply andb_prop in Hp as [Hname Htype].
    apply String.eqb_eq in Hname. subst parent.
    exists child. simpl. repeat split; try assumption.
    exists c. split; assumption.
  - intros (child & -> & Hdot & -> & c & Hin & Htype).
    rewrite (split_dot_join known child Hdot).
    destruct (List.find _ fields) as [[name c'] |] eqn:Hfind.
    + apply find_some in Hfind as [_ Hp]. simpl in Hp.
      apply andb_prop in Hp as [Hname _].
      apply String.eqb_eq in Hname. subst name. reflexivity.
    + exfalso.
      apply (find_none _ _ Hfind) in Hin. simpl in Hin.
      rewrite String.eqb_refl, Htype in Hin. discriminate.
Qed.

(** ** Declarations *)

(** X2. Every column [Column.__init__] accepts satisfies: an
    auto-incremented column is an [int] column and is nullable; a mandatory
    column has no truthy default; a column that is not a primary key is
    nullable exactly when the declaration asks for it. *)
Theorem declared_column_invariants (ft : option field_type_tag) (kw : kwargs)
    (a : attrs) :
  Column_init ft kw = Ok a ->
  (should_auto_increment a = true ->
     field_type a = TInt /\ is_nullable a = true)
  /\ (is_nullable a = false -> truthy (default_value a) = false)
  /\ (is_primary_key a = false -> is_nullable a = kw_is_nullable kw)
  /\ (is_primary_key a = true -> kw_is_nullable kw = true ->
        is_nullable a
        = truthy (default_value a) || should_auto_increment a).
Proof.
  unfold Column_init.
  destruct (match kw_name kw with
            | Some name => _
            | None => _
            end) as [ft1 | e] eqn:Hft; simpl; [| discriminate].
  destruct (kw_should_auto_increment kw) eqn:Hauto,
           (kw_is_nullable kw) eqn:Hnull,
           (truthy (kw_default_value kw)) eqn:Hdef,
           (kw_is_primary_key kw) eqn:Hpk,
           (is_int ft1) eqn:Hint; simpl; try discriminate;
    intros H; injection H as <-; simpl; rewrite ?Hdef, ?Hpk;
    repeat (split || intro); try discriminate; try reflexivity;
    destruct ft1; try discriminate; reflexivity.
Qed.

(** ** The values of a field *)

Section FieldValidation.
Context {rt : Runtime}.

Lemma _validate_value_single (name : string) (a : attrs) (v : value) (e : errors) :
  _validate_value name a v = Ok e ->
  e = [] \/ exists msg, e = [(name, [msg])].
Proof.
  unfold _validate_value, not_within.
  destruct (self_field_type name a) eqn:Hft; destruct v; simpl;
    repeat match goal with
           | |- context [match ?x with _ => _ end] => destruct x; simpl
           end;
    intros H; try discriminate; injection H as <-; eauto.
Qed.

(** X3. The three validation methods of a plain [Column] report at
    most one error, a single message under the name of the field. *)
Theorem column_reports_one_error (name : string) (a : attrs)
    (model_as_dict : dict) (e : errors) :
  Column_validate_query name a model_as_dict = Ok e
  \/ Column_validate_insert name a model_as_dict = Ok e
  \/ Column_validate_update name a model_as_dict = Ok e ->
  e = [] \/ exists msg, e = [(name, [msg])].
Proof.
  unfold Column_validate_query, Column_validate_insert, Column_validate_update,
         missing_data.
  destruct (is_none (py_get name model_as_dict)); simpl.
  - destruct (is_nullable a); simpl;
      intros [H | [H | H]]; injection H as <-; eauto.
  - intros [H | [H | H]]; exact (_validate_value_single _ _ _ _ H).
Qed.

Lemma _validate_value_plain (name : string) (a : attrs) (v : value) :
  stored_as_received (self_field_type name a) = true ->
  truthy (choices_value a) = false ->
  _validate_value name a v
  = Ok (if isinstance v (self_field_type name a) then []
        else [(name, ["Not a valid " ++ type_name (self_field_type name a) ++ "."])]).
Proof.
  unfold _validate_value, choices_value.
  destruct (get_choices a) as [[| x l] |]; simpl; try discriminate;
    destruct (self_field_type name a); simpl; try discriminate;
    intros _ _; destruct v; reflexivity.
Qed.

(** X4. A field of type [str], [int], [float], [bool], [dict] or
    [list] that has no choices accepts exactly the instances of its type
    ([bool] values count as [int]): any other value is reported as
    'Not a valid <type>.'. *)
Theorem plain_column_accepts_instances (name : string) (a : attrs) (v : value) :
  stored_as_received (self_field_type name a) = true ->
  truthy (choices_value a) = false ->
  _validate_value name a v
  = Ok (if isinstance v (self_field_type name a) then []
        else [(name, ["Not a valid " ++ type_name (self_field_type name a) ++ "."])]).
Proof.
  unfold _validate_value, choices_value.
  destruct (get_choices a) as [[| x l] |]; simpl; try discriminate;
    destruct (self_field_type name a); simpl; try discriminate;
    intros _ _; destruct v; reflexivity.
Qed.

(** X5. The choices of a column restrict the values of [str],
    [int] and [Enum] fields only: for a field of any other type
    [_validate_value] returns the same verdict whatever the choices
    declared. *)
Theorem choices_ignored_for_other_types (name : string) (a : attrs)
    (c : choices_arg) (v : value) :
  checks_choices (self_field_type name a) = false ->
  _validate_value name (with_choices c a) v = _validate_value name a v.
Proof.
  unfold _validate_value, self_field_type. simpl.
  destruct (String.eqb "_id" name); simpl.
  - intros _. destruct v; reflexivity.
  - destruct (field_type a); simpl; try discriminate;
      intros _; destruct v; reflexivity.
Qed.

Lemma py_in_member_names (s : string) (members : list (string * value)) :
  py_in (VStr s) (map (fun kv => VStr (fst kv)) members) = true ->
  exists v, dict_lookup s members = Some v.
Proof.
  unfold py_in.
  induction members as [| [k x] members IH]; simpl; [discriminate |].
  destruct (String.eqb k s); simpl; eauto.
Qed.

(** X6. A value that [_validate_value] accepts is one that
    [_deserialize_value] converts without raising, for every field type
    (for an [Enum] field, when its choices are the member names): dates
    and datetimes become a [datetime], identifiers an [ObjectId], and the
    values of the other plain types are stored as received. *)
Theorem validated_value_deserializes (name : string) (a : attrs) (v : value) :
  v <> VNone ->
  (is_enum (self_field_type name a) = true -> choices a = NoChoices) ->
  _validate_value name a v = Ok [] ->
  exists stored,
    _deserialize_value name a v = Ok stored
    /\ stored_form (self_field_type name a) v stored.
Proof.
  intros Hv Henum. unfold _validate_value, _deserialize_value, stored_form.
  destruct (self_field_type name a) as [| | | | | | cls members | | |] eqn:Hft.
  all: destruct v; try congruence; simpl.
  all: try (intros _; eauto; fail).
  all: try (destruct (dateutil_parse s); simpl; [eauto | discriminate]).
  all: try (destruct (objectid_of _); simpl; [eauto | discriminate | discriminate]).
  all: try (destruct (get_choices a) as [[| ? ?] |]; simpl; discriminate || eauto; fail).
  - (* Enum, by name *)
    unfold get_choices. rewrite (Henum eq_refl).
    assert (Hty : field_type a = TEnum cls members).
    { unfold self_field_type in Hft.
      destruct (String.eqb "_id" name); [discriminate | exact Hft]. }
    rewrite Hty.
    destruct (py_in (VStr s) _) eqn:Hin; simpl; [| discriminate].
    intros _. apply py_in_member_names in Hin as [x Hx].
    unfold enum_value_of_name. rewrite Hx. eauto.
Qed.

(** X7. A [date] field stores a datetime at midnight: the time of a
    [datetime] given to it is dropped by [deserialize_insert], and
    [serialize] returns the ISO text of the date alone. *)
Theorem date_field_drops_time (name : string) (a : attrs) (d : datetime)
    (model_as_dict : dict) :
  self_field_type name a = TDate ->
  dict_lookup name model_as_dict = Some (VDateTime d) ->
  exists stored,
    Column_deserialize_insert name a model_as_dict = Ok stored
    /\ dict_lookup name stored
       = Some (VDateTime (mk_datetime (dt_date d) midnight))
    /\ exists returned,
         Column_serialize name a stored = Ok returned
         /\ dict_lookup name returned
            = Some (VStr (date_isoformat (dt_date d))).
Proof.
  intros Hft Hv.
  unfold Column_deserialize_insert, _deserialize_value, py_get.
  rewrite Hv, Hft. simpl.
  eexists. split; [reflexivity |].
  split; [apply dict_lookup_set_eq |].
  unfold Column_serialize, py_get.
  rewrite dict_lookup_set_eq, Hft. simpl.
  eexists. split; [reflexivity |]. apply dict_lookup_set_eq.
Qed.
End FieldValidation.

(** ** Strings *)

Lemma append_length (a b : string) :
  String.length (a ++ b) = (String.length a + String.length b)%nat.
Proof. induction a as [| c a IH]; simpl; [reflexivity | rewrite IH; reflexivity]. Qed.

Lemma append_inj_l (p a b : string) : p ++ a = p ++ b -> a = b.
Proof.
  induction p as [| c p IH]; simpl; [auto |].
  intros H. injection H as H. auto.
Qed.

Lemma append_inj_r (a b c : string) : a ++ c = b ++ c -> a = b.
Proof.
  revert b. induction a as [| x a IH]; intros [| y b]; simpl; intros H.
  - reflexivity.
  - exfalso. apply (f_equal String.length) in H. simpl in H.
    rewrite append_length in H. lia.
  - exfalso. apply (f_equal String.length) in H. simpl in H.
    rewrite append_length in H. lia.
  - injection H as -> H. f_equal. auto.
Qed.

Lemma to_uint_not_nil (n : nat) : Nat.to_uint n <> Decimal.Nil.
Proof.
  intros H. pose proof (Unsigned.of_to n) as Hn. rewrite H in Hn.
  simpl in Hn. subst n. discriminate.
Qed.

Lemma decimal_inj (i j : nat) : decimal i = decimal j -> i = j.
Proof.
  unfold decimal. intros H.
  apply (f_equal NilZero.uint_of_string) in H.
  rewrite !NilZero.usu in H by apply to_uint_not_nil.
  injection H as H. apply Unsigned.to_uint_inj. exact H.
Qed.

Lemma item_path_inj (name : string) (i j : nat) :
  item_path name i = item_path name j -> i = j.
Proof.
  unfold item_path. intros H.
  apply append_inj_l, append_inj_l, append_inj_r in H.
  apply decimal_inj. exact H.
Qed.

(** ** Lists and nested records *)

Section CompositeValidation.
Context {rt : Runtime}.

(** The loop of [for_enumerate]: it returns when the body does on every
    item, and its errors are empty exactly when those of every item are. *)
Lemma enumerate_loop_empty (body : value -> result errors) (values : list value) :
  forall (index : nat) (acc : errors),
    Forall (fun v => exists e, body v = Ok e) values ->
    exists st,
      foldM (fun st value =>
               let '(index, errors) := st in
               e ← body value;
               Ok (S index, dict_update errors (index_errors index e)))
            (index, acc) values = Ok st
      /\ (snd st = [] <-> acc = [] /\ Forall (fun v => body v = Ok []) values).
Proof.
  induction values as [| v values IH]; intros index acc Hall; simpl.
  - eexists. split; [reflexivity |]. simpl. split; [auto | tauto].
  - inversion Hall as [| ? ? [e He] Hrest]; subst.
    rewrite He. simpl.
    destruct (IH (S index) (dict_update acc (index_errors index e)) Hrest)
      as (st & Hrun & Hiff).
    exists st. split; [exact Hrun |].
    rewrite Hiff. split.
    + intros [Hnil Hall']. apply dict_update_nil in Hnil as [-> He'].
      unfold index_errors in He'. apply map_eq_nil in He'. subst e.
      split; [reflexivity |]. constructor; assumption.
    + intros [-> Hall']. inversion Hall' as [| ? ? He' Hrest']; subst.
      rewrite He in He'. injection He' as ->.
      split; [| assumption]. apply dict_update_nil. split; reflexivity.
Qed.

Lemma list_column_check (k : method) (name : string) (a : attrs)
    (values : list value) (model_as_dict : dict) :
  dict_lookup name model_as_dict = Some (VList values) ->
  self_field_type name a = TList ->
  (match k with
   | OnQuery => Column_validate_query
   | OnInsert => Column_validate_insert
   | OnUpdate => Column_validate_update
   end) name a model_as_dict = Ok [].
Proof.
  intros Hv Hft.
  destruct k; unfold Column_validate_query, Column_validate_insert,
    Column_validate_update, py_get, _validate_value; rewrite Hv, Hft; reflexivity.
Qed.

Lemma list_column_run (k : method) (name : string) (a : attrs) (item : column)
    (values : list value) (model_as_dict : dict) :
  dict_lookup name model_as_dict = Some (VList values) ->
  self_field_type name a = TList ->
  validate_with k name (ListColumn a item) model_as_dict
  = for_enumerate values []
      (fun value => validate_with k name item [(name, value)]).
Proof.
  intros Hv Hft.
  destruct k; simpl;
    [rewrite (list_column_check OnQuery name a values model_as_dict Hv Hft)
    |rewrite (list_column_check OnInsert name a values model_as_dict Hv Hft)
    |rewrite (list_column_check OnUpdate name a values model_as_dict Hv Hft)];
    simpl; unfold py_get, py_getitem, or_empty_list; rewrite Hv; simpl;
    try reflexivity;
    destruct values; reflexivity.
Qed.

(** X8. A list held by a [ListColumn] is valid exactly when each of
    its items is: when the item column returns a verdict on every item,
    so does the list column, and its errors are empty if and only if the
    errors of every item are. It holds for the three validation methods. *)
Theorem list_valid_iff_items_valid (k : method) (name : string) (a : attrs)
    (item : column) (values : list value) (model_as_dict : dict) :
  dict_lookup name model_as_dict = Some (VList values) ->
  self_field_type name a = TList ->
  Forall (fun v => exists e, validate_with k name item [(name, v)] = Ok e)
         values ->
  exists e,
    validate_with k name (ListColumn a item) model_as_dict = Ok e
    /\ (e = [] <->
        Forall (fun v => validate_with k name item [(name, v)] = Ok []) values).
Proof.
  intros Hv Hft Hall.
  rewrite (list_column_run k name a item values model_as_dict Hv Hft).
  unfold for_enumerate.
  destruct (enumerate_loop_empty
              (fun value => validate_with k name item [(name, value)])
              values O [] Hall) as ([index e] & Hrun & Hiff).
  rewrite Hrun. simpl. exists e. split; [reflexivity |].
  simpl in Hiff. rewrite Hiff. tauto.
Qed.

(** The loop of [for_enumerate] over items whose errors, if any, are one
    entry under [name]: the entry of item [i] goes under [name[i]]. *)
Lemma enumerate_loop_paths (name : string) (body : value -> result errors)
    (values : list value) :
  forall (index : nat) (acc : errors) (st : nat * errors),
    (forall v e, body v = Ok e -> e = [] \/ exists msg, e = [(name, [msg])]) ->
    (forall key, dict_in key acc = true ->
       exists j, (j < index)%nat /\ key = item_path name j) ->
    foldM (fun st value =>
             let '(index, errors) := st in
             e ← body value;
             Ok (S index, dict_update errors (index_errors index e)))
          (index, acc) values = Ok st ->
    (forall key, dict_in key (snd st) = true ->
       exists j, (j < index + length values)%nat /\ key = item_path name j)
    /\ (forall j, (j < index)%nat ->
          dict_lookup (item_path name j) (snd st)
          = dict_lookup (item_path name j) acc)
    /\ (forall i v, values !! i = Some v ->
          exists e, body v = Ok e
                    /\ dict_lookup (item_path name (index + i)) (snd st)
                       = dict_lookup name e).
Proof.
  induction values as [| v values IH]; intros index acc st Hbody Hacc; simpl.
  - intros H. injection H as <-. simpl.
    split; [| split].
    + intros key Hin. destruct (Hacc key Hin) as (j & Hj & ->).
      exists j. split; [lia | reflexivity].
    + reflexivity.
    + intros i v Hi. rewrite lookup_nil in Hi. discriminate.
  - destruct (body v) as [e | ex] eqn:He; simpl; [| discriminate].
    intros Hrun.
    assert (Hnext : forall key,
              dict_in key (dict_update acc (index_errors index e)) = true ->
              exists j, (j < S index)%nat /\ key = item_path name j).
    { intros key. rewrite dict_in_update.
      intros Hin. apply orb_prop in Hin as [Hin | Hin].
      - destruct (Hacc key Hin) as (j & Hj & ->). exists j. split; [lia | reflexivity].
      - destruct (Hbody v e He) as [-> | [msg ->]]; [discriminate |].
        simpl in Hin. rewrite orb_false_r in Hin.
        apply String.eqb_eq in Hin. subst key.
        exists index. split; [lia | reflexivity]. }
    destruct (IH (S index) _ st Hbody Hnext Hrun) as (Hkeys & Hold & Hitems).
    assert (Hfresh : dict_lookup (item_path name index) acc = None).
    { apply dict_in_lookup_None.
      destruct (dict_in (item_path name index) acc) eqn:Hin; [| reflexivity].
      destruct (Hacc _ Hin) as (j & Hj & Heq).
      apply item_path_inj in Heq. lia. }
    split; [| split].
    + intros key Hin. destruct (Hkeys key Hin) as (j & Hj & ->).
      exists j. split; [lia | reflexivity].
    + intros j Hj. rewrite (Hold j) by lia.
      destruct (Hbody v e He) as [-> | [msg ->]]; [reflexivity |].
      unfold dict_update. simpl. apply dict_lookup_set_neq.
      apply String.eqb_neq. intros Heq.
      apply (item_path_inj name index j) in Heq. lia.
    + intros [| i] v' Hi; simpl in Hi.
      * injection Hi as <-. exists e. split; [exact He |].
        rewrite Nat.add_0_r, (Hold index) by lia.
        destruct (Hbody v e He) as [-> | [msg ->]]; simpl.
        -- exact Hfresh.
        -- unfold dict_update. simpl. fold (item_path name index).
           rewrite dict_lookup_set_eq, String.eqb_refl. reflexivity.
      * destruct (Hitems i v' Hi) as (e' & He' & Hlookup).
        exists e'. split; [exact He' |].
        rewrite <- Hlookup. f_equal. f_equal. lia.
Qed.

Lemma Column_validate_single (k : method) (name : string) (a : attrs)
    (model_as_dict : dict) (e : errors) :
  validate_with k name (Column a) model_as_dict = Ok e ->
  e = [] \/ exists msg, e = [(name, [msg])].
Proof.
  destruct k; simpl;
    unfold Column_validate_query, Column_validate_insert, Column_validate_update,
           missing_data;
    (destruct (is_none (py_get name model_as_dict)); simpl;
     [ destruct (is_nullable a); simpl; intros H; injection H as <-; eauto
     | apply _validate_value_single ]).
Qed.

(** X9. The errors of a list of plain items are reported by
    position: when a [ListColumn] over a plain [Column] returns its errors
    for a list, the entry under [name[i]] is the error of item [i]
    (there is none when the item is valid), and there is no entry under
    any other key. It holds for the three validation methods. *)
Theorem list_item_errors_are_indexed (k : method) (name : string)
    (a item : attrs) (values : list value) (model_as_dict : dict) (e : errors) :
  dict_lookup name model_as_dict = Some (VList values) ->
  self_field_type name a = TList ->
  validate_with k name (ListColumn a (Column item)) model_as_dict = Ok e ->
  (forall i v, values !! i = Some v ->
     exists item_errors,
       validate_with k name (Column item) [(name, v)] = Ok item_errors
       /\ dict_lookup (item_path name i) e = dict_lookup name item_errors)
  /\ (forall key, dict_in key e = true ->
        exists i, (i < length values)%nat /\ key = item_path name i).
Proof.
  intros Hv Hft.
  rewrite (list_column_run k name a (Column item) values model_as_dict Hv Hft).
  unfold for_enumerate.
  destruct (foldM _ _ values) as [st | ex] eqn:Hrun; simpl; [| discriminate].
  intros H. injection H as <-.
  destruct (enumerate_loop_paths name
              (fun value => validate_with k name (Column item) [(name, value)])
              values O [] st) as (Hkeys & _ & Hitems).
  - intros v e. apply Column_validate_single.
  - discriminate.
  - exact Hrun.
  - split; [exact Hitems | exact Hkeys].
Qed.

(** X10. The errors of a [DictColumn] are the error of the column
    itself, under the name of the field, or those of the nested record,
    each under [name.child]. *)
Theorem dict_column_errors_are_prefixed (k : method) (name : string)
    (a : attrs) (get_fields : dict -> list (string * column))
    (model_as_dict : dict) (e : errors) :
  validate_with k name (DictColumn a get_fields) model_as_dict = Ok e ->
  forall key, dict_in key e = true ->
    key = name \/ exists child, key = name ++ "." ++ child.
Proof.
  assert (Hprefix : forall nested key,
            dict_in key (dict_update [] (prefix_errors name nested)) = true ->
            exists child, key = name ++ "." ++ child).
  { intros nested key. rewrite dict_in_update. simpl.
    unfold prefix_errors, dict_in. rewrite existsb_exists.
    intros ([k' x] & Hin & Heq). apply in_map_iff in Hin as ([c y] & Hc & _).
    injection Hc as <- <-. simpl in Heq. apply String.eqb_eq in Heq.
    eauto. }
  assert (Hown : forall e0 : errors,
            (e0 = [] \/ exists msg, e0 = [(name, [msg])]) ->
            is_empty e0 = false ->
            forall key, dict_in key e0 = true -> key = name).
  { intros e0 [-> | [msg ->]]; [discriminate |].
    intros _ key. simpl. rewrite orb_false_r. intros Heq.
    apply String.eqb_eq in Heq. auto. }
  destruct k; simpl.
  - destruct (Column_validate_query name a model_as_dict) as [e0 | ex] eqn:H0;
      simpl; [| discriminate].
    pose proof (Column_validate_single OnQuery name a model_as_dict e0 H0) as Hs.
    destruct (is_empty e0) eqn:Hempty.
    + destruct e0; [| discriminate].
      destruct (negb (is_none (py_get name model_as_dict)));
        [| intros H; injection H as <-; discriminate].
      destruct (check_names _); simpl; [| discriminate].
      destruct (as_mapping _); simpl; [| discriminate].
      destruct (record_validate_query _ _ _) as [nested | ex]; simpl;
        [| discriminate].
      intros H. injection H as <-. intros key Hin. right. eauto.
    + intros H. injection H as <-. intros key Hin. left. eauto.
  - destruct (Column_validate_insert name a model_as_dict) as [e0 | ex] eqn:H0;
      simpl; [| discriminate].
    pose proof (Column_validate_single OnInsert name a model_as_dict e0 H0) as Hs.
    destruct (is_empty e0) eqn:Hempty.
    + destruct e0; [| discriminate].
      destruct (negb (is_none (py_get name model_as_dict)));
        [| intros H; injection H as <-; discriminate].
      destruct (check_names _); simpl; [| discriminate].
      destruct (record_validate_insert _ _ _) as [nested | ex]; simpl;
        [| discriminate].
      intros H. injection H as <-. intros key Hin. right. eauto.
    + intros H. injection H as <-. intros key Hin. left. eauto.
  - destruct (Column_validate_update name a model_as_dict) as [e0 | ex] eqn:H0;
      simpl; [| discriminate].
    pose proof (Column_validate_single OnUpdate name a model_as_dict e0 H0) as Hs.
    destruct (is_empty e0) eqn:Hempty.
    + destruct e0; [| discriminate].
      destruct (negb (is_none (py_get name model_as_dict)));
        [| intros H; injection H as <-; discriminate].
      destruct (check_names _); simpl; [| discriminate].
      destruct (record_validate_update _ _ _) as [nested | ex]; simpl;
        [| discriminate].
      intros H. injection H as <-. intros key Hin. right. eauto.
    + intros H. injection H as <-. intros key Hin. left. eauto.
Qed.
End CompositeValidation.

(** ** What deserialization leaves in a record *)

Lemma declared_In (fields : list (string * column)) (name : string) (c : column) :
  In (name, c) fields -> declared fields name = true.
Proof.
  intros Hin. unfold declared, str_in, field_names.
  apply existsb_exists. exists name. split; [| apply String.eqb_refl].
  apply in_map_iff. exists (name, c). split; [reflexivity | exact Hin].
Qed.

Lemma declared_inv (fields : list (string * column)) (name : string) :
  declared fields name = true -> exists c, In (name, c) fields.
Proof.
  unfold declared, str_in, field_names. rewrite existsb_exists.
  intros (k & Hin & Heq). apply String.eqb_eq in Heq. subst k.
  apply in_map_iff in Hin as ([k c] & Hk & Hin). simpl in Hk. subst k.
  eauto.
Qed.

Section DeserializeProperties.
Context {rt : Runtime}.

(** A field deserializer writes under the name of its field only. *)
Lemma deserialize_insert_keys (name : string) (c : column) (m m' : dict) :
  deserialize_insert name c m = Ok m' ->
  (forall k, dict_in k m' = true -> dict_in k m = true \/ k = name)
  /\ (forall k, String.eqb name k = false -> dict_lookup k m' = dict_lookup k m).
Proof.
  assert (Hpop : forall k, dict_in k (dict_pop name m) = true ->
                           dict_in k m = true \/ k = name).
  { intros k. rewrite dict_in_pop. intros H. apply andb_prop in H as [_ H]. auto. }
  assert (Hset : forall x k, dict_in k (dict_set name x m) = true ->
                             dict_in k m = true \/ k = name).
  { intros x k. rewrite dict_in_set. intros H. apply orb_prop in H as [H | H]; auto.
    apply String.eqb_eq in H. auto. }
  destruct c as [a | a get_fields | a item]; simpl;
    unfold Column_deserialize_insert;
    destruct (is_none (py_get name m)); simpl.
  all: try (intros H; injection H as <-;
            split; [exact Hpop | intros k Hk; apply dict_lookup_pop_neq; exact Hk]).
  - destruct (_deserialize_value name a _); simpl; [| discriminate].
    intros H; injection H as <-.
    split; [apply Hset | intros k Hk; apply dict_lookup_set_neq; exact Hk].
  - destruct (check_names _); simpl; [| discriminate].
    destruct (as_mapping _); simpl; [| discriminate].
    destruct (fst _); simpl; [| discriminate].
    intros H; injection H as <-.
    split; [apply Hset | intros k Hk; apply dict_lookup_set_neq; exact Hk].
  - destruct (py_iter _); simpl; [| discriminate].
    destruct (rebuild_list _ _ _); simpl; [| discriminate].
    intros H; injection H as <-.
    split; [apply Hset | intros k Hk; apply dict_lookup_set_neq; exact Hk].
Qed.

(** After the first loop of [deserialize_insert] a key of the mapping is
    a declared field, or a key the mapping had that the loop did not
    visit. *)
Lemma fold_unknown_insert_keys (fields : list (string * column))
    (unknown_fields : list string) :
  forall m m' : dict,
    fold_unknown_insert fields unknown_fields m = Ok m' ->
    forall k, dict_in k m' = true ->
      declared fields k = true
      \/ (dict_in k m = true /\ ~ In k unknown_fields).
Proof.
  unfold fold_unknown_insert.
  induction unknown_fields as [| u unknown IH]; intros m m'; simpl.
  - intros H. injection H as <-. auto.
  - unfold py_getitem.
    destruct (dict_lookup u m) as [v |]; simpl; [| discriminate].
    destruct (_handle_dot_notation fields u v) as [[known fv] |] eqn:Hdot.
    + apply _handle_dot_notation_spec in Hdot
        as (child & _ & _ & _ & c & Hin & _).
      unfold setdefault_update.
      destruct (dict_lookup known (dict_pop u m)) as [[] |]; simpl;
        try discriminate.
      all: intros Hrun k Hk;
        destruct (IH _ _ Hrun k Hk) as [Hd | [Hk' Hnot]]; [left; exact Hd |];
        rewrite dict_in_set in Hk'; apply orb_prop in Hk' as [Hk' | Hk'];
        [ apply String.eqb_eq in Hk'; subst k; left;
          apply (declared_In fields known c Hin)
        | rewrite dict_in_pop in Hk'; apply andb_prop in Hk' as [Hne Hk'];
          right; split; [exact Hk' |];
          intros [-> | Hin']; [rewrite String.eqb_refl in Hne; discriminate | tauto] ].
    + intros Hrun k Hk.
      destruct (IH _ _ Hrun k Hk) as [Hd | [Hk' Hnot]]; [left; exact Hd |].
      rewrite dict_in_pop in Hk'. apply andb_prop in Hk' as [Hne Hk'].
      right. split; [exact Hk' |].
      intros [-> | Hin']; [rewrite String.eqb_refl in Hne; discriminate | tauto].
Qed.

Lemma keys_not_in_spec {V : Type} (names : list string) (m : pydict V)
    (k : string) :
  dict_in k m = true -> str_in k names = false -> In k (keys_not_in names m).
Proof.
  intros Hin Hnot. unfold keys_not_in, dict_keys.
  apply filter_In. split; [| rewrite Hnot; reflexivity].
  unfold dict_in in Hin. apply existsb_exists in Hin as ([k' x] & Hin & Heq).
  simpl in Heq. apply String.eqb_eq in Heq. subst k'.
  apply in_map_iff. exists (k, x). split; [reflexivity | exact Hin].
Qed.

Lemma deserialize_insert_fields_keys {S : Type}
    (_increment : string -> S -> result value * S)
    (fields : list (string * column)) :
  forall (m m' : dict) (s : S),
    fst (deserialize_insert_fields deserialize_insert _increment fields m s)
    = Ok m' ->
    forall k, dict_in k m' = true ->
      dict_in k m = true \/ declared fields k = true.
Proof.
  induction fields as [| [name c] fields IH]; intros m m' s; simpl.
  - intros H. injection H as <-. auto.
  - destruct (deserialize_insert name c m) as [m1 | ex] eqn:Hfield; simpl;
      [| discriminate].
    apply deserialize_insert_keys in Hfield as [Hkeys _].
    assert (Hhere : declared ((name, c) :: fields) name = true)
      by (apply (declared_In _ name c); left; reflexivity).
    assert (Hmono : forall k, declared fields k = true ->
                              declared ((name, c) :: fields) k = true).
    { intros k Hk. apply declared_inv in Hk as [c' Hc'].
      apply (declared_In _ k c'). right. exact Hc'. }
    destruct (should_auto_increment (column_attrs c)).
    + destruct (_increment name s) as [[v | ex] s1]; simpl; [| discriminate].
      intros Hrun k Hk.
      destruct (IH _ _ _ Hrun k Hk) as [Hk' | Hd]; [| right; auto].
      rewrite dict_in_set in Hk'. apply orb_prop in Hk' as [Hk' | Hk'].
      * apply String.eqb_eq in Hk'. subst k. right. exact Hhere.
      * destruct (Hkeys k Hk') as [? | ->]; [left; assumption | right; exact Hhere].
    + intros Hrun k Hk.
      destruct (IH _ _ _ Hrun k Hk) as [Hk' | Hd]; [| right; auto].
      destruct (Hkeys k Hk') as [? | ->]; [left; assumption | right; exact Hhere].
Qed.

(** [record_deserialize_insert] leaves declared fields only. *)
Lemma record_deserialize_insert_keys {S : Type}
    (_increment : string -> S -> result value * S)
    (fields : list (string * column)) (m m' : dict) (s : S) :
  fst (record_deserialize_insert deserialize_insert _increment fields m s)
  = Ok m' ->
  forall k, dict_in k m' = true -> declared fields k = true.
Proof.
  unfold record_deserialize_insert.
  destruct (fold_unknown_insert fields _ m) as [m1 | ex] eqn:Hfold; simpl;
    [| discriminate].
  intros Hrun k Hk.
  destruct (deserialize_insert_fields_keys _ _ _ _ _ Hrun k Hk) as [Hk1 | Hd];
    [| exact Hd].
  destruct (fold_unknown_insert_keys _ _ _ _ Hfold k Hk1) as [Hd | [Hk0 Hnot]];
    [exact Hd |].
  destruct (declared fields k) eqn:Hdecl; [reflexivity |].
  exfalso. apply Hnot. apply keys_not_in_spec; assumption.
Qed.
End DeserializeProperties.

Section StoredDocuments.
Context {rt : Runtime} {dr : Driver}.
Variable cls : CRUDModel.

(** X11. [CRUDModel.deserialize_insert] leaves in the mapping the
    declared fields only: a key that is not the name of a field, dotted
    or not, is gone when it returns. *)
Theorem deserialize_insert_keeps_declared_fields (model_as_dict : dict)
    (w : world) (stored : dict) :
  fst (CRUDModel_deserialize_insert cls model_as_dict w) = Ok stored ->
  forall key, dict_in key stored = true ->
    declared (__fields__ cls) key = true.
Proof.
  unfold CRUDModel_deserialize_insert, record_deserialize_insert.
  destruct (fold_unknown_insert (__fields__ cls) _ model_as_dict)
    as [m1 | ex] eqn:Hfold; simpl; [| discriminate].
  intros Hrun key Hkey.
  destruct (deserialize_insert_fields_keys _ _ _ _ _ Hrun key Hkey)
    as [Hk1 | Hd]; [| exact Hd].
  destruct (fold_unknown_insert_keys _ _ _ _ Hfold key Hk1)
    as [Hd | [Hk0 Hnot]]; [exact Hd |].
  destruct (declared (__fields__ cls) key) eqn:Hdecl; [reflexivity |].
  exfalso. apply Hnot. apply keys_not_in_spec; assumption.
Qed.

(** What a successful [add] ran: validation found no error, the mapping
    was deserialized, the driver stored the result under an [_id], and
    the document stored was serialized. *)
Lemma add_run (model_as_dict : value) (w w1 : world) (r : dict) :
  add cls model_as_dict w = (Ok r, w1) ->
  exists m m' w2,
    model_as_dict = VDict m
    /\ CRUDModel_validate_insert cls model_as_dict = Ok []
    /\ CRUDModel_deserialize_insert cls m w = (Ok m', w2)
    /\ documents w1 = app (documents w) [fst (with_id m' w2)]
    /\ CRUDModel_serialize cls (VDict (fst (with_id m' w2))) = Ok r.
Proof.
  unfold add. unfold bind at 1, lift at 1.
  destruct (CRUDModel_validate_insert cls model_as_dict) as [errs | ex];
    [| discriminate].
  destruct errs as [| kv errs]; cbn [is_empty negb]; [| discriminate].
  unfold bind at 1, lift at 1.
  destruct model_as_dict; cbn [as_mapping]; try discriminate.
  unfold bind at 1.
  pose proof (CRUDModel_deserialize_insert_counters_only cls entries w)
    as (Hdocs & _).
  destruct (CRUDModel_deserialize_insert cls entries w) as [[m' | ex] w2]
    eqn:Hdeser; cbn [snd] in Hdocs; [| discriminate].
  unfold bind at 1. unfold insert_one, bind at 1, bound.
  destruct (has_base cls); unfold ret, raise; [| discriminate].
  pose proof (with_id_documents m' w2) as Hid.
  destruct (with_id m' w2) as [doc w3] eqn:Hwith. cbn [snd] in Hid.
  destruct (duplicate_key (unique_fields cls) (documents w3) doc).
  - unfold bind, lift, raise.
    destruct (CRUDModel_serialize cls (VDict doc)); discriminate.
  - unfold bind at 1. rewrite audit_log. unfold lift.
    intros Hrun. injection Hrun as Hr Hw.
    exists entries, m', w2. rewrite Hwith. cbn [fst].
    split; [reflexivity |]. split; [reflexivity |]. split; [exact Hdeser |].
    split; [| exact Hr].
    subst w1.
    destruct (audit_model cls); cbn [emit set_documents documents];
      rewrite Hid, Hdocs; reflexivity.
Qed.

(** X12. The document a successful [add] stores holds declared
    fields and the [_id] of the driver, nothing else: an undeclared key of
    the record received never reaches the collection. *)
Theorem add_stores_declared_fields (model_as_dict : value) (w w1 : world)
    (r : dict) :
  add cls model_as_dict w = (Ok r, w1) ->
  exists doc,
    documents w1 = app (documents w) [doc]
    /\ forall key, dict_in key doc = true ->
         key = "_id" \/ declared (__fields__ cls) key = true.
Proof.
  intros Hadd.
  apply add_run in Hadd as (m & m' & w2 & _ & _ & Hdeser & Hdocs & _).
  eexists. split; [exact Hdocs |].
  intros key. unfold with_id.
  assert (Hm' : forall k, dict_in k m' = true ->
                          declared (__fields__ cls) k = true).
  { apply (record_deserialize_insert_keys (_increment cls) (__fields__ cls) m m' w).
    unfold CRUDModel_deserialize_insert in Hdeser. rewrite Hdeser. reflexivity. }
  destruct (dict_in "_id" m'); cbn [fst]; [auto |].
  rewrite dict_in_set. intros H. apply orb_prop in H as [H | H]; [| auto].
  apply String.eqb_eq in H. auto.
Qed.
End StoredDocuments.

(** ** What is stored, what is returned *)

Lemma str_in_In (k : string) (l : list string) : str_in k l = true <-> In k l.
Proof.
  unfold str_in. rewrite existsb_exists. split.
  - intros (x & Hin & Heq). apply String.eqb_eq in Heq. subst x. exact Hin.
  - intros Hin. exists k. split; [exact Hin | apply String.eqb_refl].
Qed.

Lemma dict_in_filter_keys {V : Type} (p : string -> bool) (k : string)
    (m : pydict V) :
  dict_in k (List.filter (fun kv => p (fst kv)) m) = dict_in k m && p k.
Proof.
  induction m as [| [k' x] m IH]; simpl; [reflexivity |].
  destruct (p k') eqn:Hp; simpl; rewrite IH.
  - destruct (String.eqb k' k) eqn:E; simpl; [| reflexivity].
    apply String.eqb_eq in E. subst k'. rewrite Hp. reflexivity.
  - destruct (String.eqb k' k) eqn:E; simpl; [| reflexivity].
    apply String.eqb_eq in E. subst k'. rewrite Hp, andb_false_r. reflexivity.
Qed.

Section NullProperties.
Context {rt : Runtime}.

Lemma _deserialize_value_not_none (name : string) (a : attrs) (v stored : value) :
  is_enum (self_field_type name a) = false ->
  is_none v = false ->
  _deserialize_value name a v = Ok stored ->
  is_none stored = false.
Proof.
  unfold _deserialize_value.
  destruct (self_field_type name a); try discriminate; intros _;
    destruct v; try discriminate; intros _; simpl;
    repeat match goal with
           | |- context [match ?x with _ => _ end] => destruct x; simpl
           end;
    intros H; try discriminate; injection H as <-; reflexivity.
Qed.

Lemma deserialize_insert_not_none (name : string) (c : column) (m m' : dict) :
  is_enum (self_field_type name (column_attrs c)) = false ->
  deserialize_insert name c m = Ok m' ->
  dict_lookup name m' <> Some VNone.
Proof.
  intros Henum.
  destruct c as [a | a get_fields | a item]; simpl in *;
    unfold Column_deserialize_insert;
    destruct (is_none (py_get name m)) eqn:Hnone; simpl.
  all: try (intros H; injection H as <-; rewrite dict_lookup_pop_eq; discriminate).
  - destruct (_deserialize_value name a _) as [stored | ex] eqn:Hd; simpl;
      [| discriminate].
    intros H; injection H as <-. rewrite dict_lookup_set_eq.
    apply (_deserialize_value_not_none _ _ _ _ Henum Hnone) in Hd.
    intros Heq. injection Heq as ->. discriminate.
  - destruct (check_names _); simpl; [| discriminate].
    destruct (as_mapping _); simpl; [| discriminate].
    destruct (fst _); simpl; [| discriminate].
    intros H; injection H as <-. rewrite dict_lookup_set_eq. discriminate.
  - destruct (py_iter _); simpl; [| discriminate].
    destruct (rebuild_list _ _ _); simpl; [| discriminate].
    intros H; injection H as <-. rewrite dict_lookup_set_eq. discriminate.
Qed.

(** The loop of [rebuild_list] over a plain item column, for insert and
    update: [None] items are popped from their wrapper and skipped. *)
Lemma rebuild_list_plain (name : string) (item : attrs) (values : list value) :
  forall acc : list value,
    foldM (fun new_values value =>
             value_dict ← Column_deserialize_insert name item [(name, value)];
             match dict_lookup name value_dict with
             | Some v => Ok (app new_values [v])
             | None => Ok new_values
             end) acc values
    = (stored ← traverse (_deserialize_value name item) (non_null values);
       Ok (app acc stored)).
Proof.
  induction values as [| v values IH]; intros acc; simpl.
  - rewrite app_nil_r. reflexivity.
  - unfold Column_deserialize_insert at 1, py_get. simpl.
    rewrite String.eqb_refl. simpl.
    destruct (is_none v) eqn:Hnone; simpl.
    + rewrite dict_pop_cons, String.eqb_refl. simpl. apply IH.
    + destruct (_deserialize_value name item v) as [stored | ex]; simpl;
        [| reflexivity].
      repeat (rewrite String.eqb_refl; simpl). rewrite IH.
      destruct (traverse _ _); simpl; [| reflexivity].
      rewrite <- app_assoc. reflexivity.
Qed.

(** X13. [ListColumn.deserialize_insert] and [deserialize_update]
    over a plain item column drop the [None] items of the list and
    deserialize the others in order: the list stored can be shorter than
    the list received. *)
Theorem list_deserialize_drops_none (name : string) (a item : attrs)
    (values : list value) (model_as_dict : dict) :
  dict_lookup name model_as_dict = Some (VList values) ->
  deserialize_insert name (ListColumn a (Column item)) model_as_dict
  = (stored ← traverse (_deserialize_value name item) (non_null values);
     Ok (dict_set name (VList stored) model_as_dict))
  /\ deserialize_update name (ListColumn a (Column item)) model_as_dict
  = (stored ← traverse (_deserialize_value name item) (non_null values);
     Ok (dict_set name (VList stored) model_as_dict)).
Proof.
  intros Hv. simpl. unfold py_get. rewrite Hv. simpl.
  unfold rebuild_list.
  change (Column_deserialize_update name item)
    with (Column_deserialize_insert name item).
  rewrite rebuild_list_plain.
  destruct (traverse _ _); simpl; split; reflexivity.
Qed.

(** [serialize] of a field removes no key, and binds the name of the
    field when the column always does or the mapping had it. *)
Lemma serialize_keys (name : string) (c : column) (m m' : dict) :
  serialize name c m = Ok m' ->
  (forall k, dict_in k m = true -> dict_in k m' = true)
  /\ (always_serialized c = true -> dict_in name m' = true).
Proof.
  assert (Hset : forall x k, dict_in k m = true ->
                             dict_in k (dict_set name x m) = true).
  { intros x k Hk. rewrite dict_in_set, Hk. apply orb_true_r. }
  assert (Hname : forall x, dict_in name (dict_set name x m) = true).
  { intros x. rewrite dict_in_set, String.eqb_refl. reflexivity. }
  destruct c as [a | a get_fields | a item]; simpl.
  - unfold Column_serialize, py_get.
    destruct (dict_lookup name m) as [v |] eqn:Hv; simpl.
    + assert (Hin : dict_in name m = true)
        by (apply dict_in_lookup; rewrite Hv; discriminate).
      destruct (is_none v); simpl.
      * destruct (is_nullable a); intros H; injection H as <-; auto.
      * destruct (self_field_type name a); try destruct v; simpl;
          repeat match goal with
                 | |- context [match ?x with _ => _ end] => destruct x; simpl
                 end;
          intros H; try discriminate; injection H as <-; auto.
    + destruct (is_nullable a); intros H; injection H as <-; auto.
      split; [auto | discriminate].
  - destruct (check_names _); simpl; [| discriminate].
    destruct (negb (truthy _)).
    + intros H; injection H as <-. split; [auto | discriminate].
    + destruct (record_serialize _ _ _); simpl; [| discriminate].
      intros H; injection H as <-. split; [auto | discriminate].
  - destruct (py_iter _); simpl; [| discriminate].
    destruct (rebuild_list _ _ _); simpl; [| discriminate].
    intros H; injection H as <-. auto.
Qed.

Lemma serialize_fields_keys (fields : list (string * column)) :
  forall m m' : dict,
    foldM (fun m f => serialize (fst f) (snd f) m) m fields = Ok m' ->
    (forall k, dict_in k m = true -> dict_in k m' = true)
    /\ (forall name c, In (name, c) fields ->
          always_serialized c = true -> dict_in name m' = true).
Proof.
  induction fields as [| [n c0] fields IH]; intros m m'; simpl.
  - intros H. injection H as <-. split; [auto | tauto].
  - destruct (serialize n c0 m) as [m1 | ex] eqn:Hfield; [| discriminate].
    apply serialize_keys in Hfield as [Hmono Hhere].
    intros Hrun. destruct (IH _ _ Hrun) as [Hmono' Hrest].
    split; [auto |].
    intros name c [Heq | Hin] Halways.
    + injection Heq as -> ->. auto.
    + eauto.
Qed.

(** X14. What [CRUDModel.serialize] returns for a mapping holds
    declared fields only (a stored [_id] or a field removed from the model
    is not returned), keeps every declared field the mapping had, and,
    unless the mapping is empty, binds every nullable [Column] and every
    [ListColumn] of the model; an empty mapping is returned empty, without
    defaults. *)
Theorem serialize_output_shape (cls : CRUDModel) (model_as_dict returned : dict) :
  CRUDModel_serialize cls (VDict model_as_dict) = Ok returned ->
  (forall key, dict_in key returned = true ->
     declared (__fields__ cls) key = true)
  /\ (forall name c, In (name, c) (__fields__ cls) ->
        dict_in name model_as_dict = true
        \/ (always_serialized c = true /\ model_as_dict <> []) ->
        dict_in name returned = true)
  /\ (model_as_dict = [] -> returned = []).
Proof.
  unfold CRUDModel_serialize, record_serialize.
  destruct model_as_dict as [| kv m0] eqn:Hm.
  - simpl. intros H. injection H as <-.
    split; [discriminate |]. split; [| reflexivity].
    intros name c _ [H | [_ H]]; [discriminate | congruence].
  - rewrite <- Hm. replace (truthy (VDict model_as_dict)) with true
      by (subst; reflexivity).
    simpl.
    destruct (foldM _ model_as_dict (__fields__ cls)) as [m1 | ex] eqn:Hrun;
      simpl; [| discriminate].
    intros H. injection H as <-.
    destruct (serialize_fields_keys _ _ _ Hrun) as [Hmono Hfields].
    split; [| split].
    + intros key. rewrite (dict_in_filter_keys (fun k => str_in k _)).
      intros H. apply andb_prop in H as [_ H]. exact H.
    + intros name c Hin Hcase.
      rewrite (dict_in_filter_keys (fun k => str_in k _)).
      apply andb_true_intro. split.
      * destruct Hcase as [H | [H _]]; eauto.
      * apply (declared_In _ name c Hin).
    + subst. discriminate.
Qed.
End NullProperties.

Section InsertedValues.
Context {rt : Runtime} {dr : Driver}.
Variable cls : CRUDModel.

Lemma deserialize_insert_fields_not_none (fields : list (string * column))
    (name : string) :
  forall (m m' : dict) (w : world),
    (forall c, In (name, c) fields ->
       is_enum (self_field_type name (column_attrs c)) = false) ->
    fst (deserialize_insert_fields deserialize_insert (_increment cls)
           fields m w) = Ok m' ->
    dict_lookup name m <> Some VNone \/ (exists c, In (name, c) fields) ->
    dict_lookup name m' <> Some VNone.
Proof.
  induction fields as [| [n c] fields IH]; intros m m' w Henum; simpl.
  - intros H. injection H as <-. intros [H | [c []]]. exact H.
  - destruct (deserialize_insert n c m) as [m1 | ex] eqn:Hfield; simpl;
      [| discriminate].
    assert (Hrest : forall c', In (name, c') fields ->
              is_enum (self_field_type name (column_attrs c')) = false)
      by (intros c' Hc'; apply Henum; right; exact Hc').
    assert (Hm1 : dict_lookup name m <> Some VNone
                  \/ (exists c', In (name, c') ((n, c) :: fields)) ->
                  dict_lookup name m1 <> Some VNone
                  \/ exists c', In (name, c') fields).
    { destruct (String.eqb n name) eqn:E.
      - apply String.eqb_eq in E. subst n. intros _. left.
        apply (deserialize_insert_not_none name c m m1); [| exact Hfield].
        apply Henum. left. reflexivity.
      - apply deserialize_insert_keys in Hfield as [_ Hsame].
        rewrite (Hsame name E).
        intros [H | [c' [Heq | Hin]]]; [left; exact H | | right; eauto].
        injection Heq as -> _. rewrite String.eqb_refl in E. discriminate. }
    destruct (should_auto_increment (column_attrs c)).
    + unfold _increment at 1, bind, bound.
      destruct (has_base cls); unfold ret, raise; simpl; [| discriminate].
      intros Hrun Hcase. apply (IH _ _ _ Hrest Hrun).
      destruct (String.eqb n name) eqn:E.
      * apply String.eqb_eq in E. subst n. left.
        rewrite dict_lookup_set_eq. discriminate.
      * rewrite (dict_lookup_set_neq name n _ _ E). auto.
    + intros Hrun Hcase. apply (IH _ _ _ Hrest Hrun). auto.
Qed.

(** X15. [CRUDModel.deserialize_insert] leaves no declared field
    bound to [None]: a field received as [None] is removed from the
    mapping (whatever the class of its column), so it is never stored.
    The exception is an [Enum] field, where the value of a member can
    itself be [None]. *)
Theorem deserialize_insert_stores_no_none (model_as_dict : dict) (w : world)
    (stored : dict) (name : string) (c : column) :
  In (name, c) (__fields__ cls) ->
  (forall c', In (name, c') (__fields__ cls) ->
     is_enum (self_field_type name (column_attrs c')) = false) ->
  fst (CRUDModel_deserialize_insert cls model_as_dict w) = Ok stored ->
  dict_lookup name stored <> Some VNone.
Proof.
  intros Hin Henum.
  unfold CRUDModel_deserialize_insert, record_deserialize_insert.
  destruct (fold_unknown_insert _ _ _) as [m1 | ex]; simpl; [| discriminate].
  intros Hrun.
  apply (deserialize_insert_fields_not_none _ name _ _ _ Henum Hrun).
  right. eauto.
Qed.

Lemma deserialize_insert_fields_auto (fields : list (string * column)) :
  forall (m m' : dict) (w w' : world),
    has_base cls = true ->
    NoDup (field_names fields) ->
    deserialize_insert_fields deserialize_insert (_increment cls) fields m w
    = (Ok m', w') ->
    (forall name, declared fields name = false ->
       dict_lookup name m' = dict_lookup name m
       /\ dict_lookup name (counters w') = dict_lookup name (counters w))
    /\ (forall name c, In (name, c) fields ->
          should_auto_increment (column_attrs c) = true ->
          dict_lookup name m' = Some (VInt (counter_of name w + 1))
          /\ counter_of name w' = counter_of name w + 1).
Proof.
  induction fields as [| [n c] fields IH]; intros m m' w w' Hbase Hnodup.
  - simpl. intros H. injection H as <- <-. split; [auto | tauto].
  - change (field_names ((n, c) :: fields)) with (n :: field_names fields)
      in Hnodup.
    apply NoDup_cons in Hnodup as [Hfresh Hnodup].
    rewrite list_elem_of_In in Hfresh. simpl.
    assert (Hn : declared fields n = false).
    { destruct (declared fields n) eqn:E; [| reflexivity].
      exfalso. apply Hfresh. apply str_in_In. exact E. }
    assert (Hother : forall name, declared ((n, c) :: fields) name = false ->
              String.eqb n name = false /\ declared fields name = false).
    { intros name. unfold declared, str_in, field_names. simpl.
      intros H. apply orb_false_elim in H as [H1 H2].
      rewrite String.eqb_sym. auto. }
    destruct (deserialize_insert n c m) as [m1 | ex] eqn:Hfield; simpl;
      [| discriminate].
    apply deserialize_insert_keys in Hfield as [_ Hsame].
    destruct (should_auto_increment (column_attrs c)) eqn:Hauto.
    + unfold _increment at 1, bind, bound. rewrite Hbase.
      unfold ret. simpl.
      intros Hrun. destruct (IH _ _ _ _ Hbase Hnodup Hrun) as [Hout Hin].
      split.
      * intros name Hname. destruct (Hother name Hname) as [Hne Hdecl].
        destruct (Hout name Hdecl) as [Hm Hc]. simpl in Hc.
        rewrite Hm, Hc, !dict_lookup_set_neq by exact Hne.
        split; [apply Hsame; exact Hne | reflexivity].
      * intros name c' [Heq | Hlater] Hauto'.
        -- injection Heq as -> ->.
           destruct (Hout name Hn) as [Hm Hc]. simpl in Hc.
           rewrite Hm, dict_lookup_set_eq. unfold counter_of at 2.
           rewrite Hc, dict_lookup_set_eq. split; reflexivity.
        -- assert (Hne : String.eqb n name = false).
           { apply String.eqb_neq. intros ->. apply Hfresh.
             apply in_map_iff. exists (name, c'). split; [reflexivity | exact Hlater]. }
           destruct (Hin name c' Hlater Hauto') as [Hm Hc].
           unfold counter_of in *. simpl in Hm, Hc.
           rewrite dict_lookup_set_neq in Hm, Hc by exact Hne.
           split; assumption.
    + intros Hrun. destruct (IH _ _ _ _ Hbase Hnodup Hrun) as [Hout Hin].
      split.
      * intros name Hname. destruct (Hother name Hname) as [Hne Hdecl].
        destruct (Hout name Hdecl) as [Hm Hc].
        rewrite Hm, Hc. split; [apply Hsame; exact Hne | reflexivity].
      * intros name c' [Heq | Hlater] Hauto'.
        -- injection Heq as -> ->. congruence.
        -- eauto.
Qed.

(** X16. On a bound model whose field names are distinct,
    [deserialize_insert] binds every auto-incremented field to the
    counter of the field plus one, whatever value the record received
    held for it, and leaves the counter at that value. *)
Theorem auto_increment_overrides_input (model_as_dict stored : dict)
    (w w' : world) (name : string) (c : column) :
  has_base cls = true ->
  NoDup (field_names (__fields__ cls)) ->
  In (name, c) (__fields__ cls) ->
  should_auto_increment (column_attrs c) = true ->
  CRUDModel_deserialize_insert cls model_as_dict w = (Ok stored, w') ->
  dict_lookup name stored = Some (VInt (counter_of name w + 1))
  /\ counter_of name w' = counter_of name w + 1.
Proof.
  intros Hbase Hnodup Hin Hauto.
  unfold CRUDModel_deserialize_insert, record_deserialize_insert.
  destruct (fold_unknown_insert _ _ _) as [m1 | ex]; [| discriminate].
  intros Hrun.
  destruct (deserialize_insert_fields_auto _ _ _ _ _ Hbase Hnodup Hrun)
    as [_ Hfields].
  eauto.
Qed.
End InsertedValues.

(** ** Error paths *)

Lemma prefix_refl (s : string) : String.prefix s s = true.
Proof.
  induction s as [| c s IH]; simpl; [reflexivity |].
  destruct (ascii_dec c c); [exact IH | congruence].
Qed.

Lemma prefix_append (s t : string) : String.prefix s (s ++ t) = true.
Proof.
  induction s as [| c s IH]; simpl; [destruct t; reflexivity |].
  destruct (ascii_dec c c); [exact IH | congruence].
Qed.

Lemma prefix_append_r (s key t : string) :
  String.prefix s key = true -> String.prefix s (key ++ t) = true.
Proof.
  revert key. induction s as [| c s IH]; intros key; simpl.
  - intros _. destruct (key ++ t); reflexivity.
  - destruct key as [| b key]; simpl; [destruct s; discriminate |].
    destruct (ascii_dec c b); [apply IH | discriminate].
Qed.

Section ErrorPaths.
Context {rt : Runtime}.

(** The keys [for_enumerate] adds are keys of the errors of an item,
    followed by the index of the item. *)
Lemma enumerate_loop_keys (body : value -> result errors) (values : list value) :
  forall (index : nat) (acc : errors) (st : nat * errors),
    foldM (fun st value =>
             let '(index, errors) := st in
             e ← body value;
             Ok (S index, dict_update errors (index_errors index e)))
          (index, acc) values = Ok st ->
    forall key, dict_in key (snd st) = true ->
      dict_in key acc = true
      \/ exists v e k0 i,
           In v values /\ body v = Ok e /\ dict_in k0 e = true
           /\ key = k0 ++ "[" ++ decimal i ++ "]".
Proof.
  induction values as [| v values IH]; intros index acc st; simpl.
  - intros H. injection H as <-. auto.
  - destruct (body v) as [e | ex] eqn:He; simpl; [| discriminate].
    intros Hrun key Hkey.
    destruct (IH _ _ _ Hrun key Hkey) as [Hacc | (v' & e' & k0 & i & Hin & Hb & Hk & ->)].
    + rewrite dict_in_update in Hacc. apply orb_prop in Hacc as [Hacc | Hnew];
        [left; exact Hacc |].
      right. unfold index_errors, dict_in in Hnew.
      apply existsb_exists in Hnew as ([k x] & Hin & Heq).
      apply in_map_iff in Hin as ([k0 x0] & Hk & Hin0).
      injection Hk as <- <-. simpl in Heq. apply String.eqb_eq in Heq.
      exists v, e, k0, index. repeat split; auto.
      apply existsb_exists. exists (k0, x0). split; [exact Hin0 |].
      apply String.eqb_refl.
    + right. exists v', e', k0, i. repeat split; auto.
Qed.

Lemma for_enumerate_prefix (name : string) (body : value -> result errors)
    (values : list value) (e : errors) :
  (forall v e0 key, body v = Ok e0 -> dict_in key e0 = true ->
     String.prefix name key = true) ->
  for_enumerate values [] body = Ok e ->
  forall key, dict_in key e = true -> String.prefix name key = true.
Proof.
  intros Hbody. unfold for_enumerate.
  destruct (foldM _ _ values) as [st | ex] eqn:Hrun; simpl; [| discriminate].
  intros H. injection H as <-. intros key Hkey.
  destruct (enumerate_loop_keys body values _ _ _ Hrun key Hkey)
    as [Hacc | (v & e0 & k0 & i & _ & Hb & Hk & ->)]; [discriminate |].
  apply prefix_append_r. eauto.
Qed.

Lemma own_error_prefix (name : string) (e0 : errors) :
  (e0 = [] \/ exists msg, e0 = [(name, [msg])]) ->
  forall key, dict_in key e0 = true -> String.prefix name key = true.
Proof.
  intros [-> | [msg ->]] key; simpl; [discriminate |].
  rewrite orb_false_r. intros H. apply String.eqb_eq in H. subst key.
  apply prefix_refl.
Qed.

Lemma nested_error_prefix (name : string) (nested : errors) :
  forall key, dict_in key (dict_update [] (prefix_errors name nested)) = true ->
    String.prefix name key = true.
Proof.
  intros key. rewrite dict_in_update. simpl.
  unfold prefix_errors, dict_in. rewrite existsb_exists.
  intros ([k' x] & Hin & Heq). apply in_map_iff in Hin as ([c y] & Hc & _).
  injection Hc as <- <-. simpl in Heq. apply String.eqb_eq in Heq. subst key.
  apply prefix_append.
Qed.

(** The errors of a field, whatever the class of its column, are under
    keys that start with the name of the field. *)
Lemma field_error_paths (k : method) (c : column) :
  forall (name : string) (m : dict) (e : errors),
    validate_with k name c m = Ok e ->
    forall key, dict_in key e = true -> String.prefix name key = true.
Proof.
  induction c as [a | a get_fields | a item IH]; intros name m e.
  - intros H. apply own_error_prefix.
    exact (Column_validate_single k name a m e H).
  - destruct k; simpl.
    + destruct (Column_validate_query name a m) as [e0 | ex] eqn:H0;
        simpl; [| discriminate].
      pose proof (Column_validate_single OnQuery name a m e0 H0) as Hs.
      destruct e0 as [| kv e0]; simpl.
      * destruct (negb (is_none (py_get name m)));
          [| intros H; injection H as <-; discriminate].
        destruct (check_names _); simpl; [| discriminate].
        destruct (as_mapping _); simpl; [| discriminate].
        destruct (record_validate_query _ _ _) as [nested | ex]; simpl;
          [| discriminate].
        intros H. injection H as <-. apply nested_error_prefix.
      * intros H. injection H as <-. apply own_error_prefix. exact Hs.
    + destruct (Column_validate_insert name a m) as [e0 | ex] eqn:H0;
        simpl; [| discriminate].
      pose proof (Column_validate_single OnInsert name a m e0 H0) as Hs.
      destruct e0 as [| kv e0]; simpl.
      * destruct (negb (is_none (py_get name m)));
          [| intros H; injection H as <-; discriminate].
        destruct (check_names _); simpl; [| discriminate].
        destruct (record_validate_insert _ _ _) as [nested | ex]; simpl;
          [| discriminate].
        intros H. injection H as <-. apply nested_error_prefix.
      * intros H. injection H as <-. apply own_error_prefix. exact Hs.
    + destruct (Column_validate_update name a m) as [e0 | ex] eqn:H0;
        simpl; [| discriminate].
      pose proof (Column_validate_single OnUpdate name a m e0 H0) as Hs.
      destruct e0 as [| kv e0]; simpl.
      * destruct (negb (is_none (py_get name m)));
          [| intros H; injection H as <-; discriminate].
        destruct (check_names _); simpl; [| discriminate].
        destruct (record_validate_update _ _ _) as [nested | ex]; simpl;
          [| discriminate].
        intros H. injection H as <-. apply nested_error_prefix.
      * intros H. injection H as <-. apply own_error_prefix. exact Hs.
  - assert (Hitems : forall values e',
              for_enumerate values []
                (fun value => validate_with k name item [(name, value)]) = Ok e' ->
              forall key, dict_in key e' = true -> String.prefix name key = true).
    { intros values e'. apply for_enumerate_prefix.
      intros v e0 key Hb. exact (IH name [(name, v)] e0 Hb key). }
    destruct k; simpl.
    + destruct (Column_validate_query name a m) as [e0 | ex] eqn:H0;
        simpl; [| discriminate].
      pose proof (Column_validate_single OnQuery name a m e0 H0) as Hs.
      destruct e0 as [| kv e0]; simpl.
      * destruct (py_iter _) as [values | ex]; simpl; [| discriminate].
        apply (Hitems values).
      * intros H. injection H as <-. apply own_error_prefix. exact Hs.
    + destruct (Column_validate_insert name a m) as [e0 | ex] eqn:H0;
        simpl; [| discriminate].
      pose proof (Column_validate_single OnInsert name a m e0 H0) as Hs.
      destruct e0 as [| kv e0]; simpl.
      * destruct (py_iter _) as [values | ex]; simpl; [| discriminate].
        apply (Hitems values).
      * intros H. injection H as <-. apply own_error_prefix. exact Hs.
    + destruct (Column_validate_update name a m) as [e0 | ex] eqn:H0;
        simpl; [| discriminate].
      pose proof (Column_validate_single OnUpdate name a m e0 H0) as Hs.
      destruct e0 as [| kv e0]; simpl.
      * destruct (py_getitem name m) as [values | ex]; simpl; [| discriminate].
        destruct (py_iter _) as [values' | ex]; simpl; [| discriminate].
        apply (Hitems values').
      * intros H. injection H as <-. apply own_error_prefix. exact Hs.
Qed.

(** The loops over the fields of the record-level validators. *)
Lemma validate_fields_paths (k : method) (fields : list (string * column))
    (guard : string -> column -> bool) (new_model_as_dict : dict) :
  forall (acc e : errors),
    foldM (fun errors f =>
             let '(name, c) := f in
             if guard name c then
               e ← validate_with k name c new_model_as_dict;
               Ok (dict_update errors e)
             else Ok errors)
          acc fields = Ok e ->
    forall key, dict_in key e = true ->
      dict_in key acc = true
      \/ exists name c, In (name, c) fields
                        /\ String.prefix name key = true.
Proof.
  induction fields as [| [n c] fields IH]; intros acc e; simpl.
  - intros H. injection H as <-. auto.
  - destruct (guard n c).
    + destruct (validate_with k n c new_model_as_dict) as [e0 | ex] eqn:Hfield;
        simpl; [| discriminate].
      intros Hrun key Hkey.
      destruct (IH _ _ Hrun key Hkey) as [Hacc | (name & c' & Hin & Hp)].
      * rewrite dict_in_update in Hacc. apply orb_prop in Hacc as [Hacc | Hnew];
          [left; exact Hacc |].
        right. exists n, c. split; [left; reflexivity |].
        exact (field_error_paths k c n _ e0 Hfield key Hnew).
      * right. exists name, c'. split; [right; exact Hin | exact Hp].
    + intros Hrun key Hkey.
      destruct (IH _ _ Hrun key Hkey) as [Hacc | (name & c' & Hin & Hp)];
        [left; exact Hacc |].
      right. exists name, c'. split; [right; exact Hin | exact Hp].
Qed.

(** X17. Every error [CRUDModel.validate_insert],
    [validate_update] and [validate_query] report is under a key that
    starts with the name of a declared field; the one exception is the
    empty key of 'No data provided.'. *)
Theorem record_errors_name_a_field (cls : CRUDModel) (model_as_dict : value)
    (m : dict) (e : errors) :
  CRUDModel_validate_insert cls model_as_dict = Ok e
  \/ CRUDModel_validate_update cls model_as_dict = Ok e
  \/ CRUDModel_validate_query cls m = Ok e ->
  forall key, dict_in key e = true ->
    key = EmptyString
    \/ exists name c, In (name, c) (__fields__ cls)
                      /\ String.prefix name key = true.
Proof.
  assert (Hnone : forall key, dict_in key no_data = true -> key = EmptyString).
  { intros key. simpl. rewrite orb_false_r. intros H.
    apply String.eqb_eq in H. auto. }
  intros [H | [H | H]] key Hkey.
  - unfold CRUDModel_validate_insert, record_validate_insert in H.
    destruct (negb (truthy model_as_dict)).
    + injection H as <-. left. auto.
    + destruct (as_mapping model_as_dict) as [m0 |]; simpl in H; [| discriminate].
      destruct (fold_dot_notation _ _ _) as [new |]; simpl in H; [| discriminate].
      right.
      destruct (validate_fields_paths OnInsert (__fields__ cls) (fun _ _ => true)
                  new [] e H key Hkey) as [Hacc | Hfield];
        [discriminate | exact Hfield].
  - unfold CRUDModel_validate_update, record_validate_update in H.
    destruct (negb (truthy model_as_dict)).
    + injection H as <-. left. auto.
    + destruct (as_mapping model_as_dict) as [m0 |]; simpl in H; [| discriminate].
      destruct (fold_dot_notation _ _ _) as [new |]; simpl in H; [| discriminate].
      right.
      destruct (validate_fields_paths OnUpdate (__fields__ cls)
                  (fun name c => dict_in name new || is_primary_key (column_attrs c))
                  new [] e H key Hkey) as [Hacc | Hfield];
        [discriminate | exact Hfield].
  - unfold CRUDModel_validate_query, record_validate_query in H.
    destruct (fold_dot_notation _ _ _) as [new |]; simpl in H; [| discriminate].
    right.
    destruct (validate_fields_paths OnQuery (__fields__ cls)
                (fun name c => dict_in name new)
                new [] e H key Hkey) as [Hacc | Hfield];
      [discriminate | exact Hfield].
Qed.
End ErrorPaths.

(** ** The record lifecycle, case by case *)

Section Lifecycle.
Context {rt : Runtime} {dr : Driver}.
Variable cls : CRUDModel.

Lemma fold_dot_notation_absent (fields : list (string * column))
    (name : string) (unknown_fields : list string) :
  forall m new : dict,
    fold_dot_notation fields unknown_fields m = Ok new ->
    (forall u child, In u unknown_fields -> u <> name ++ "." ++ child) ->
    dict_in name m = false ->
    dict_in name new = false.
Proof.
  unfold fold_dot_notation.
  induction unknown_fields as [| u unknown IH]; intros m new; simpl.
  - intros H. injection H as <-. auto.
  - destruct (dict_lookup u m) as [v |]; [| discriminate].
    intros Hrun Hkeys Habs.
    assert (Hrest : forall u' child, In u' unknown -> u' <> name ++ "." ++ child)
      by (intros u' child Hin; apply Hkeys; right; exact Hin).
    destruct (_handle_dot_notation fields u v) as [[known fv] |] eqn:Hdot;
      [| exact (IH _ _ Hrun Hrest Habs)].
    apply _handle_dot_notation_spec in Hdot as (child & Hu & _).
    assert (Hne : String.eqb known name = false).
    { apply String.eqb_neq. intros ->. apply (Hkeys u child); [left; reflexivity | exact Hu]. }
    unfold setdefault_update in Hrun.
    destruct (dict_lookup known m) as [[] |]; try discriminate;
      simpl in Hrun; apply (IH _ _ Hrun Hrest);
      rewrite dict_in_set, Hne, Habs; reflexivity.
Qed.

Lemma validate_update_missing (name : string) (c : column) (m : dict) :
  is_nullable (column_attrs c) = false ->
  dict_in name m = false ->
  validate_update name c m = Ok (missing_data name).
Proof.
  intros Hnull Habs. apply dict_in_lookup_None in Habs.
  destruct c as [a | a get_fields | a item]; simpl in *;
    unfold Column_validate_update, py_get; rewrite Habs, Hnull; reflexivity.
Qed.

Lemma validate_fields_update_missing (name : string) (c : column)
    (new : dict) (fields : list (string * column)) :
  forall acc e : errors,
    is_primary_key (column_attrs c) = true ->
    is_nullable (column_attrs c) = false ->
    dict_in name new = false ->
    foldM (fun errors f =>
             let '(name, c) := f in
             if dict_in name new || is_primary_key (column_attrs c) then
               e ← validate_update name c new;
               Ok (dict_update errors e)
             else Ok errors)
          acc fields = Ok e ->
    dict_in name acc = true \/ In (name, c) fields ->
    dict_in name e = true.
Proof.
  intros acc e Hpk Hnull Habs. revert acc e.
  induction fields as [| [n c0] fields IH]; intros acc e; simpl.
  - intros H. injection H as <-. intros [H | []]. exact H.
  - intros Hrun Hcase.
    destruct Hcase as [Hacc | [Heq | Hin]].
    + destruct (dict_in n new || is_primary_key (column_attrs c0));
        [| apply (IH _ _ Hrun); auto].
      destruct (validate_update n c0 new) as [e0 |]; simpl in Hrun; [| discriminate].
      apply (IH _ _ Hrun). left. rewrite dict_in_update, Hacc. reflexivity.
    + injection Heq as -> ->. rewrite Hpk, orb_true_r in Hrun.
      rewrite (validate_update_missing name c new Hnull Habs) in Hrun.
      simpl in Hrun. apply (IH _ _ Hrun). left.
      rewrite dict_in_set, String.eqb_refl. reflexivity.
    + destruct (dict_in n new || is_primary_key (column_attrs c0));
        [| apply (IH _ _ Hrun); auto].
      destruct (validate_update n c0 new) as [e0 |]; simpl in Hrun; [| discriminate].
      apply (IH _ _ Hrun). auto.
Qed.

(** X18. [update] cannot be used without the primary key: when a
    mandatory primary key field is missing from a non-empty record (and
    no dotted key stands for it), the errors [validate_update] returns
    have an entry for that field, and [update] raises [ValidationFailed]
    with them, before any call to the collection. *)
Theorem update_requires_primary_key (model_as_dict : dict) (e : errors)
    (name : string) (c : column) (w : world) :
  In (name, c) (__fields__ cls) ->
  is_primary_key (column_attrs c) = true ->
  is_nullable (column_attrs c) = false ->
  model_as_dict <> [] ->
  dict_in name model_as_dict = false ->
  no_dotted_key name model_as_dict ->
  CRUDModel_validate_update cls (VDict model_as_dict) = Ok e ->
  dict_in name e = true
  /\ update cls (VDict model_as_dict) w
     = (Raise (ValidationFailed (VDict model_as_dict) (FieldErrors e)), w).
Proof.
  intros Hin Hpk Hnull Hdata Habs Hdots Hvalid.
  assert (Htruthy : truthy (VDict model_as_dict) = true)
    by (destruct model_as_dict; [congruence | reflexivity]).
  assert (Hname : dict_in name e = true).
  { unfold CRUDModel_validate_update, record_validate_update in Hvalid.
    rewrite Htruthy in Hvalid. simpl in Hvalid.
    destruct (fold_dot_notation _ _ _) as [new |] eqn:Hfold; simpl in Hvalid;
      [| discriminate].
    assert (Hnew : dict_in name new = false).
    { apply (fold_dot_notation_absent _ name _ _ _ Hfold); [| exact Habs].
      intros u child Hu ->. unfold keys_not_in in Hu.
      apply filter_In in Hu as [Hu _]. unfold dict_keys in Hu.
      apply in_map_iff in Hu as ([k x] & Hk & Hu). simpl in Hk. subst k.
      specialize (Hdots child).
      apply dict_in_lookup_None in Hdots.
      assert (Hsome : dict_in (name ++ "." ++ child) model_as_dict = true).
      { apply existsb_exists. exists (name ++ "." ++ child, x).
        split; [exact Hu | apply String.eqb_refl]. }
      apply dict_in_lookup in Hsome. congruence. }
    apply (validate_fields_update_missing name c new _ [] e Hpk Hnull Hnew Hvalid).
    right. exact Hin. }
  split; [exact Hname |].
  unfold update. rewrite Htruthy. simpl.
  unfold bind, lift. rewrite Hvalid.
  destruct e as [| kv e]; [discriminate | reflexivity].
Qed.

(** X19. [update] of a record that passes validation but whose
    primary key selects no stored document raises [ModelCouldNotBeFound]
    with the primary key of the record; it has then issued one [find_one]
    and nothing else: no [update_one], no audit, and the collection is as
    it was. *)
Theorem update_of_missing_record (model_as_dict deserialized : dict) (w : world) :
  has_base cls = true ->
  model_as_dict <> [] ->
  CRUDModel_validate_update cls (VDict model_as_dict) = Ok [] ->
  CRUDModel_deserialize_update cls model_as_dict = Ok deserialized ->
  selected (_to_primary_keys_model cls deserialized) w = [] ->
  update cls (VDict model_as_dict) w
  = (Raise (ModelCouldNotBeFound (_to_primary_keys_model cls deserialized)),
     emit (FindOne (_to_primary_keys_model cls deserialized)) w).
Proof.
  intros Hbase Hdata Hvalid Hdeser Hnone.
  assert (Htruthy : truthy (VDict model_as_dict) = true)
    by (destruct model_as_dict; [congruence | reflexivity]).
  unfold update. rewrite Htruthy. simpl.
  unfold bind, lift. rewrite Hvalid. simpl. rewrite Hdeser.
  unfold _update_one, bind, find_one, bound. rewrite Hbase.
  unfold ret. simpl.
  unfold selected in Hnone. rewrite find_filter, Hnone. reflexivity.
Qed.

(** X20. When the driver refuses the document for a duplicate
    key, [add] raises [ValidationFailed] with 'This item already exists.'
    and, as the data received, the serialization of the document it tried
    to store; the collection is as it was and no audit hook was called. *)
Theorem add_of_duplicate_is_rejected (model_as_dict deserialized received : dict)
    (w w1 : world) :
  has_base cls = true ->
  CRUDModel_validate_insert cls (VDict model_as_dict) = Ok [] ->
  CRUDModel_deserialize_insert cls model_as_dict w = (Ok deserialized, w1) ->
  duplicate_key (unique_fields cls) (documents w)
    (fst (with_id deserialized w1)) = true ->
  CRUDModel_serialize cls (VDict (fst (with_id deserialized w1))) = Ok received ->
  fst (add cls (VDict model_as_dict) w)
  = Raise (ValidationFailed (VDict received) (Message "This item already exists."))
  /\ documents (snd (add cls (VDict model_as_dict) w)) = documents w
  /\ Forall (fun e => is_audit e = false)
            (new_events (add cls (VDict model_as_dict)) w).
Proof.
  intros Hbase Hvalid Hdeser Hdup Hser.
  pose proof (CRUDModel_deserialize_insert_counters_only cls model_as_dict w)
    as (Hdocs & _ & incs & Hlog & Hincs).
  rewrite Hdeser in Hdocs, Hlog. cbn [snd] in Hdocs, Hlog.
  pose proof (with_id_documents deserialized w1) as Hid.
  pose proof (with_id_log deserialized w1) as Hidlog.
  assert (Hrun : add cls (VDict model_as_dict) w
                 = (Raise (ValidationFailed (VDict received)
                             (Message "This item already exists.")),
                    emit (InsertOne (fst (with_id deserialized w1)) false)
                         (snd (with_id deserialized w1)))).
  { unfold add, bind, lift. rewrite Hvalid. simpl. rewrite Hdeser.
    unfold insert_one, bind, bound. rewrite Hbase. unfold ret.
    destruct (with_id deserialized w1) as [doc w2]. cbn [fst snd] in *.
    rewrite Hid, Hdocs, Hdup, Hser. reflexivity. }
  rewrite Hrun. cbn [fst snd emit documents].
  split; [reflexivity |]. split; [rewrite Hid; exact Hdocs |].
  rewrite (new_events_of_log _ w (app incs [InsertOne (fst (with_id deserialized w1)) false])).
  - apply Forall_app. split; [apply counter_events_no_audit; exact Hincs |].
    repeat constructor.
  - rewrite Hrun. cbn [snd emit log]. rewrite Hidlog, Hlog, app_assoc. reflexivity.
Qed.

Lemma filter_none_left {A : Type} (p : A -> bool) (l : list A) :
  List.filter p (List.filter (fun x => negb (p x)) l) = [].
Proof.
  induction l as [| x l IH]; simpl; [reflexivity |].
  destruct (p x) eqn:Hp; simpl; [exact IH | rewrite Hp; exact IH].
Qed.

(** X21. For a filter that passes validation, [remove] on a bound
    model returns the number of stored documents the deserialized filter
    selects, and leaves the collection with the other documents, in their
    order: the filter then selects nothing. *)
Theorem remove_outcome (model_to_query filter : dict) (w : world) :
  has_base cls = true ->
  CRUDModel_validate_query cls model_to_query = Ok [] ->
  CRUDModel_deserialize_query cls model_to_query = Ok filter ->
  fst (remove cls model_to_query w) = Ok (length (selected filter w))
  /\ documents (snd (remove cls model_to_query w))
     = List.filter (fun doc => negb (doc_matches filter doc)) (documents w)
  /\ selected filter (snd (remove cls model_to_query w)) = [].
Proof.
  intros Hbase Hvalid Hdeser.
  assert (Hrun : remove cls model_to_query w
                 = delete_many cls filter
                     (if audit_model cls then emit (AuditRemove filter) w else w)).
  { unfold remove, bind, lift. rewrite Hvalid, Hdeser. simpl.
    rewrite audit_log. reflexivity. }
  rewrite Hrun. unfold delete_many, bind, bound. rewrite Hbase.
  unfold ret, selected.
  assert (Hdocs : documents (if audit_model cls then emit (AuditRemove filter) w else w)
                  = documents w) by (destruct (audit_model cls); reflexivity).
  cbn [fst snd emit set_documents documents]. rewrite Hdocs.
  split; [| split; [reflexivity | apply filter_none_left]].
  f_equal.
  pose proof (List.filter_length (doc_matches filter) (documents w)). lia.
Qed.

Lemma serialize_all_length (models : list dict) :
  forall (acc returned : list dict),
    foldM (fun acc model =>
             r ← CRUDModel_serialize cls (VDict model); Ok (app acc [r]))
          acc models = Ok returned ->
    length returned = (length acc + length models)%nat.
Proof.
  induction models as [| model models IH]; intros acc returned; simpl.
  - intros H. injection H as <-. lia.
  - destruct (CRUDModel_serialize cls (VDict model)); simpl; [| discriminate].
    intros Hrun. rewrite (IH _ _ Hrun), length_app. simpl. lia.
Qed.

(** X22. [get_all] takes [limit] and [offset] out of the query
    before it validates it, and returns the serialization of the
    documents the deserialized filter selects, from position [offset] on
    and at most [limit] of them; a [limit] of 0, [None] or absent is no
    limit. *)
Theorem get_all_window (model_to_query filter : dict) (limit offset : Z)
    (w : world) :
  has_base cls = true ->
  pop_or_zero "limit" model_to_query = Ok limit ->
  pop_or_zero "offset" (dict_pop "limit" model_to_query) = Ok offset ->
  CRUDModel_validate_query cls
    (dict_pop "offset" (dict_pop "limit" model_to_query)) = Ok [] ->
  CRUDModel_deserialize_query cls
    (dict_pop "offset" (dict_pop "limit" model_to_query)) = Ok filter ->
  fst (get_all cls model_to_query w)
  = serialize_all cls (window offset limit (selected filter w))
  /\ forall returned,
       fst (get_all cls model_to_query w) = Ok returned ->
       (length returned <= length (selected filter w))%nat
       /\ (0 < limit -> (length returned <= Z.to_nat limit)%nat).
Proof.
  intros Hbase Hlimit Hoffset Hvalid Hdeser.
  assert (Hrun : fst (get_all cls model_to_query w)
                 = serialize_all cls (window offset limit (selected filter w))).
  { unfold get_all, bind, lift. rewrite Hvalid, Hdeser, Hlimit, Hoffset. simpl.
    unfold find, bind, bound. rewrite Hbase. unfold ret. reflexivity. }
  split; [exact Hrun |].
  intros returned Hret. rewrite Hrun in Hret.
  unfold serialize_all in Hret. apply serialize_all_length in Hret.
  simpl in Hret. rewrite Hret. unfold window.
  split.
  - destruct (limit =? 0); rewrite ?length_take, length_drop; lia.
  - intros Hpos. destruct (limit =? 0) eqn:E; [lia |].
    rewrite length_take. lia.
Qed.
End Lifecycle.

(** ** Model classes, descriptions and examples *)

Lemma insert_sorted_perm (f : string * column) (l : list (string * column)) :
  Permutation (f :: l) (insert_sorted f l).
Proof.
  induction l as [| g l IH]; simpl; [reflexivity |].
  destruct (String.leb (fst f) (fst g)); [reflexivity |].
  rewrite perm_swap. apply perm_skip. exact IH.
Qed.

Lemma insert_sorted_sorted (f : string * column) (l : list (string * column)) :
  sorted_by_name l -> sorted_by_name (insert_sorted f l).
Proof.
  induction l as [| g l IH]; simpl; [tauto |].
  intros [Hhead Htail].
  destruct (String.leb (fst f) (fst g)) eqn:Hle; simpl.
  - split; [exact Hle |]. split; assumption.
  - assert (Hgf : String.leb (fst g) (fst f) = true).
    { destruct (String.leb_total (fst f) (fst g)); congruence. }
    split; [| apply IH; exact Htail].
    destruct l as [| h l]; simpl; [exact Hgf |].
    destruct (String.leb (fst f) (fst h)); [exact Hgf | exact Hhead].
Qed.

Lemma check_names_spec (fields : list (string * column)) :
  check_names fields = Ok tt ->
  Forall (fun f => contains_dot (fst f) = false) fields.
Proof.
  unfold check_names.
  induction fields as [| f fields IH]; simpl; [constructor |].
  unfold _update_name at 1.
  destruct (contains_dot (fst f)) eqn:Hdot; [discriminate |].
  intros H. constructor; [exact Hdot | exact (IH H)].
Qed.

(** X23. The fields of a model class that [__init_subclass__]
    accepts are the column attributes of the class, each once, in the
    order of their names, and no name holds a dot; the table name, the
    binding to a database and the audit flag are those the class was
    declared with. *)
Theorem init_subclass_fields (attributes : list (string * column))
    (base : bool) (table_name : option string) (audit : bool) (cls : CRUDModel) :
  init_subclass attributes base table_name audit = Ok cls ->
  Permutation attributes (__fields__ cls)
  /\ sorted_by_name (__fields__ cls)
  /\ Forall (fun f => contains_dot (fst f) = false) (__fields__ cls)
  /\ __tablename__ cls = table_name
  /\ has_base cls = base
  /\ audit_model cls = audit.
Proof.
  unfold init_subclass.
  destruct (check_names (getmembers attributes)) as [[] | ex] eqn:Hnames;
    simpl; [| discriminate].
  destruct (if base then _ else _); simpl; [| discriminate].
  intros H. injection H as <-. simpl.
  split; [| split; [| split; [apply check_names_spec; exact Hnames | auto]]].
  - clear Hnames. unfold getmembers.
    induction attributes as [| f l IH]; simpl; [reflexivity |].
    etransitivity; [apply perm_skip; exact IH | apply insert_sorted_perm].
  - clear Hnames. unfold getmembers.
    induction attributes as [| f l IH]; simpl; [exact I |].
    apply insert_sorted_sorted. exact IH.
Qed.

Lemma description_fold (fields : list (string * column)) :
  forall (d : dict),
    let d' := fold_left (fun description f =>
                           dict_set (fst f) (VStr (fst f)) description)
                        fields d in
    (forall name, declared fields name = true ->
       dict_lookup name d' = Some (VStr name))
    /\ (forall name, declared fields name = false ->
          dict_lookup name d' = dict_lookup name d).
Proof.
  induction fields as [| [n c] fields IH]; intros d; simpl.
  - split; [discriminate | reflexivity].
  - destruct (IH (dict_set n (VStr n) d)) as [Hin Hout].
    split.
    + intros name Hname.
      destruct (declared fields name) eqn:Hlater; [apply Hin; exact Hlater |].
      rewrite (Hout name Hlater).
      unfold declared, str_in in Hname, Hlater. simpl in Hname.
      fold (str_in name (field_names fields)) in Hname.
      unfold str_in in Hname. rewrite Hlater, orb_false_r in Hname.
      apply String.eqb_eq in Hname. subst n. apply dict_lookup_set_eq.
    + intros name Hname.
      unfold declared, str_in in Hname. simpl in Hname.
      apply orb_false_elim in Hname as [Hne Hlater].
      rewrite (Hout name Hlater). apply dict_lookup_set_neq.
      rewrite String.eqb_sym. exact Hne.
Qed.

(** X24. [description_dictionary] maps the name of every field
    to itself, and ['collection'] to the name of the table unless a field
    is called [collection]: the entry of that field replaces it. *)
Theorem description_dictionary_entries (cls : CRUDModel) :
  (forall name, declared (__fields__ cls) name = true ->
     dict_lookup name (description_dictionary cls) = Some (VStr name))
  /\ (declared (__fields__ cls) "collection" = false ->
        dict_lookup "collection" (description_dictionary cls)
        = Some (match __tablename__ cls with
                | Some name => VStr name
                | None => VNone
                end)).
Proof.
  unfold description_dictionary.
  destruct (description_fold (__fields__ cls)
              [("collection",
                match __tablename__ cls with
                | Some name => VStr name
                | None => VNone
                end)]) as [Hin Hout].
  split; [exact Hin |].
  intros Hfree. rewrite (Hout _ Hfree). reflexivity.
Qed.

Section Examples.
Context {rt : Runtime}.

(** X25. The documentation example [_get_example] builds for a
    plain column of type [str], [int], [float], [bool], [dict] or [list]
    that declares no default and no choices is a value the column
    accepts on insert. *)
Theorem plain_example_is_valid (name : string) (a : attrs) :
  stored_as_received (self_field_type name a) = true ->
  truthy (choices_value a) = false ->
  default_value a = VNone ->
  exists example,
    _get_example name (Column a) = Ok example
    /\ validate_insert name (Column a) [(name, example)] = Ok [].
Proof.
  intros Hplain Hchoices Hdefault.
  exists (_get_default_example name a). split.
  - simpl. rewrite Hdefault. simpl.
    unfold choices_value in Hchoices.
    destruct (get_choices a) as [[| x l] |]; try reflexivity. discriminate.
  - simpl. unfold Column_validate_insert, py_get. simpl.
    rewrite String.eqb_refl. simpl.
    assert (Hsome : is_none (_get_default_example name a) = false).
    { unfold _get_default_example. destruct (self_field_type name a); reflexivity. }
    rewrite Hsome.
    rewrite (_validate_value_plain name a _ Hplain Hchoices).
    unfold _get_default_example.
    destruct (self_field_type name a); try discriminate; reflexivity.
Qed.
End Examples.

(** ** What the operations leave alone *)

Section Frames.
Context {rt : Runtime} {dr : Driver}.
Variable cls : CRUDModel.

(** X26. [get] and [get_all] only read: whatever they return or
    raise, the documents of the collection, its counters and the
    identifiers generated so far are as they were. *)
Theorem reading_leaves_the_collection (model_to_query : dict) (w : world) :
  (documents (snd (get cls model_to_query w)) = documents w
   /\ counters (snd (get cls model_to_query w)) = counters w
   /\ generated (snd (get cls model_to_query w)) = generated w)
  /\ (documents (snd (get_all cls model_to_query w)) = documents w
      /\ counters (snd (get_all cls model_to_query w)) = counters w
      /\ generated (snd (get_all cls model_to_query w)) = generated w).
Proof.
  split.
  - unfold get, bind, lift, raise, count, find_one, bound, ret.
    destruct (CRUDModel_validate_query cls model_to_query) as [[| kv e] |];
      simpl; auto.
    destruct (CRUDModel_deserialize_query cls model_to_query); simpl; auto.
    destruct (has_base cls); simpl; auto.
    destruct (1 <? _)%nat; simpl; auto.
  - unfold get_all, bind, lift, raise, find, bound, ret.
    destruct (CRUDModel_validate_query cls _) as [[| kv e] |]; simpl; auto.
    destruct (CRUDModel_deserialize_query cls _); simpl; auto.
    destruct (pop_or_zero "offset" _); simpl; auto.
    destruct (pop_or_zero "limit" _); simpl; auto.
    destruct (has_base cls); simpl; auto.
Qed.

Lemma insert_each_appends (docs : list dict) :
  forall index w,
    exists stored,
      documents (snd (insert_each cls index docs w)) = app (documents w) stored
      /\ (length stored <= length docs)%nat.
Proof.
  induction docs as [| doc docs IH]; intros index w; simpl.
  - exists []. split; [symmetry; apply app_nil_r | simpl; lia].
  - pose proof (with_id_documents doc w) as Hdocs.
    destruct (with_id doc w) as [doc' w1]. cbn [snd] in *.
    destruct (duplicate_key (unique_fields cls) (documents w1) doc').
    + simpl. exists []. split; [rewrite app_nil_r; exact Hdocs | simpl; lia].
    + specialize (IH (S index) (set_documents (app (documents w1) [doc']) w1)).
      destruct (insert_each cls (S index) docs
                  (set_documents (app (documents w1) [doc']) w1))
        as [[rest failure] w2].
      cbn [fst snd] in *. destruct IH as (stored & Hstored & Hlen).
      exists (doc' :: stored). simpl in Hstored.
      split; [rewrite Hstored, Hdocs, <- app_assoc; reflexivity | simpl; lia].
Qed.

Lemma as_mappings_length (models : list value) :
  forall acc docs,
    foldM (fun acc model => m ← as_mapping model; Ok (app acc [m])) acc models
    = Ok docs ->
    length docs = (length acc + length models)%nat.
Proof.
  induction models as [| model models IH]; intros acc docs; simpl.
  - intros H. injection H as <-. lia.
  - destruct (as_mapping model); simpl; [| discriminate].
    intros Hrun. rewrite (IH _ _ Hrun), length_app. simpl. lia.
Qed.

Lemma validate_loop_visited (items : list value) :
  forall index errs visited st w w',
    forM (validate_step cls) (index, errs, visited) items w = (Ok st, w') ->
    length (snd st) = (length visited + length items)%nat.
Proof.
  induction items as [| item items IH]; intros index errs visited st w w'; simpl.
  - unfold ret. intros H. injection H as <- <-. simpl. lia.
  - unfold bind at 1. unfold validate_step at 1, bind, lift, ret.
    destruct (CRUDModel_validate_insert cls item) as [e |]; [| discriminate].
    destruct (is_empty e); cbn [negb].
    + destruct (as_mapping item) as [m |]; [| discriminate].
      destruct (CRUDModel_deserialize_insert cls m w) as [[m' |] w1];
        [| discriminate].
      intros Hrun. rewrite (IH _ _ _ _ _ _ Hrun), length_app. simpl. lia.
    + intros Hrun. rewrite (IH _ _ _ _ _ _ Hrun), length_app. simpl. lia.
Qed.

(** X27. [add] and [add_all] only append: whatever they return or
    raise, the documents stored before are still there, in the same
    order and unchanged; [add] stores at most one more document and
    [add_all] at most as many as the batch holds. *)
Theorem insertion_only_appends :
  (forall (model_as_dict : value) (w : world),
      exists stored,
        documents (snd (add cls model_as_dict w)) = app (documents w) stored
        /\ (length stored <= 1)%nat)
  /\ (forall (batch : list value) (w : world),
         exists stored,
           documents (snd (add_all cls batch w)) = app (documents w) stored
           /\ (length stored <= length batch)%nat).
Proof.
  split.
  - intros model_as_dict w.
    assert (Hsame : forall w', documents w' = documents w ->
              exists stored, documents w' = app (documents w) stored
                             /\ (length stored <= 1)%nat).
    { intros w' H. exists []. rewrite app_nil_r. split; [exact H | simpl; lia]. }
    unfold add. unfold bind at 1, lift at 1.
    destruct (CRUDModel_validate_insert cls model_as_dict) as [errs | ex];
      [| apply Hsame; reflexivity].
    destruct (is_empty errs); cbn [negb]; [| apply Hsame; reflexivity].
    unfold bind at 1, lift at 1.
    destruct (as_mapping model_as_dict) as [m | ex]; [| apply Hsame; reflexivity].
    unfold bind at 1.
    pose proof (CRUDModel_deserialize_insert_counters_only cls m w) as (Hdocs & _).
    destruct (CRUDModel_deserialize_insert cls m w) as [[m' | ex] w2];
      cbn [snd] in Hdocs; [| apply Hsame; exact Hdocs].
    unfold bind at 1. unfold insert_one, bind at 1, bound.
    destruct (has_base cls); unfold ret, raise; [| apply Hsame; exact Hdocs].
    pose proof (with_id_documents m' w2) as Hid.
    destruct (with_id m' w2) as [doc w3]. cbn [snd] in Hid.
    destruct (duplicate_key (unique_fields cls) (documents w3) doc).
    + unfold bind, lift, raise.
      destruct (CRUDModel_serialize cls (VDict doc)); cbn [snd emit documents];
        apply Hsame; cbn [emit documents]; congruence.
    + unfold bind at 1. rewrite audit_log. unfold lift. cbn [snd].
      exists [doc]. split; [| simpl; lia].
      destruct (audit_model cls); cbn [emit set_documents documents];
        rewrite Hid, Hdocs; reflexivity.
  - intros batch w.
    assert (Hsame : forall w', documents w' = documents w ->
              exists stored, documents w' = app (documents w) stored
                             /\ (length stored <= length batch)%nat).
    { intros w' H. exists []. rewrite app_nil_r. split; [exact H | simpl; lia]. }
    unfold add_all.
    destruct (is_empty batch); [apply Hsame; reflexivity |].
    unfold bind at 1. unfold validate_each, bind at 1.
    pose proof (validate_loop_counters_only cls batch (O, [], []) w) as (Hdocs & _).
    destruct (forM (validate_step cls) (O, [], []) batch w)
      as [[[[index errs] visited] | ex] w1] eqn:Hloop; cbn [snd] in Hdocs;
      [| apply Hsame; exact Hdocs].
    pose proof (validate_loop_visited batch O [] [] _ w w1 Hloop) as Hvisited.
    simpl in Hvisited.
    unfold ret at 1. cbn [fst snd].
    destruct (is_empty errs); cbn [negb]; [| apply Hsame; exact Hdocs].
    unfold bind at 1, lift at 1.
    destruct (as_mappings visited) as [docs | ex] eqn:Hmaps;
      [| apply Hsame; exact Hdocs].
    unfold as_mappings in Hmaps. apply as_mappings_length in Hmaps.
    simpl in Hmaps.
    unfold bind at 1. unfold insert_many, bind at 1, bound.
    destruct (has_base cls); unfold ret, raise; [| apply Hsame; exact Hdocs].
    destruct (insert_each_appends docs O w1) as (stored & Hstored & Hlen).
    destruct (insert_each cls O docs w1) as [[out failure] w2].
    cbn [fst snd] in *.
    assert (Hgoal : exists stored0,
              documents w2 = app (documents w) stored0
              /\ (length stored0 <= length batch)%nat).
    { exists stored. split; [rewrite Hstored, Hdocs; reflexivity | lia]. }
    destruct failure as [details |]; [exact Hgoal |].
    unfold bind at 1. rewrite audit_each_log. unfold lift. exact Hgoal.
Qed.

Lemma update_first_length (filter : dict) (f : dict -> dict) (docs : list dict) :
  length (update_first filter f docs) = length docs.
Proof.
  induction docs as [| doc docs IH]; simpl; [reflexivity |].
  destruct (doc_matches filter doc); simpl; [reflexivity | rewrite IH; reflexivity].
Qed.

(** X28. [update] neither inserts nor deletes: whatever it returns
    or raises, the collection holds as many documents as before. *)
Theorem update_keeps_the_count (model_as_dict : value) (w : world) :
  length (documents (snd (update cls model_as_dict w)))
  = length (documents w).
Proof.
  unfold update.
  destruct (truthy model_as_dict); cbn [negb]; [| reflexivity].
  unfold bind at 1, lift at 1.
  destruct (CRUDModel_validate_update cls model_as_dict) as [errs | ex];
    [| reflexivity].
  destruct (is_empty errs); cbn [negb]; [| reflexivity].
  unfold bind at 1, lift at 1.
  destruct (as_mapping model_as_dict) as [m | ex]; [| reflexivity].
  unfold bind at 1, lift at 1.
  destruct (CRUDModel_deserialize_update cls m) as [m' | ex]; [| reflexivity].
  unfold bind at 1. unfold _update_one.
  set (keys := _to_primary_keys_model cls m').
  unfold bind at 1. unfold find_one at 1, bind at 1, bound.
  destruct (has_base cls) eqn:Hbase; unfold ret, raise; [| reflexivity].
  destruct (List.find (doc_matches keys) (documents w)) as [doc |] eqn:Hfind;
    [| reflexivity].
  destruct (truthy (VDict doc)); cbn [negb]; [| reflexivity].
  unfold bind at 1. unfold update_one, bind at 1, bound.
  rewrite Hbase. unfold ret. cbn [emit documents]. rewrite Hfind.
  destruct (duplicate_key (unique_fields cls)
              (without_first keys (documents w)) (apply_set doc m')).
  - reflexivity.
  - unfold bind at 1. unfold find_one, bind at 1, bound.
    rewrite Hbase. unfold ret.
    unfold bind at 1. rewrite audit_log.
    unfold bind, lift.
    match goal with
    | |- context [AuditUpdate (audited ?new)] => set (new_model := new)
    end.
    destruct (audit_model cls);
      destruct (CRUDModel_serialize cls (VDict doc));
      try destruct (CRUDModel_serialize cls new_model);
      cbn [snd emit set_documents documents]; apply update_first_length.
Qed.
End Frames.

(** ** Dotted filters *)

Lemma contains_dot_join (parent child : string) :
  contains_dot (parent ++ "." ++ child) = true.
Proof.
  unfold contains_dot.
  induction parent as [| c parent IH]; simpl in *; [reflexivity |].
  rewrite IH. apply orb_true_r.
Qed.

Section DottedFilters.
Context {rt : Runtime}.

Lemma dotted_key_is_no_field (fields : list (string * column))
    (parent child name : string) (c : column) :
  Forall (fun f => contains_dot (fst f) = false) fields ->
  In (name, c) fields ->
  String.eqb (parent ++ "." ++ child) name = false.
Proof.
  intros Hdots Hin. apply String.eqb_neq. intros Heq.
  rewrite Forall_forall in Hdots. specialize (Hdots (name, c)).
  rewrite list_elem_of_In in Hdots. specialize (Hdots Hin). simpl in Hdots.
  rewrite <- Heq, contains_dot_join in Hdots. discriminate.
Qed.

(** The second loop of [deserialize_query] on the fields that are not
    keys of [dot_model_as_dict]. *)
Lemma deserialize_dotted_skips (dot : dict) (fields : list (string * column)) :
  forall (st : dict * dict),
    (forall name c, In (name, c) fields -> dict_in name dot = false) ->
    foldM (fun st f =>
             let '(name, c) := f in
             let '(dot0, m) := st in
             if dict_in name dot then
               dot0 ← deserialize_query name c dot0;
               m ← put_back_dotted name dot0 m;
               Ok (dot0, m)
             else Ok (dot0, m))
          st fields = Ok st.
Proof.
  induction fields as [| [n c] fields IH]; intros [dot0 m] Hout; simpl;
    [reflexivity |].
  rewrite (Hout n c) by (left; reflexivity).
  apply IH. intros name c' Hin. apply (Hout name c'). right. exact Hin.
Qed.

Lemma deserialize_dotted_one (parent child : string) (a : attrs) (v : value)
    (fields : list (string * column)) :
  self_field_type parent a = TDict ->
  NoDup (field_names fields) ->
  In (parent, Column a) fields ->
  deserialize_dotted deserialize_query fields
    [(parent, VDict [(child, v)])] []
  = Ok [(parent ++ "." ++ child, v)].
Proof.
  intros Hft Hnodup Hin. unfold deserialize_dotted.
  set (dot := [(parent, VDict [(child, v)])]).
  assert (Hloop : forall m0,
            foldM (fun st f =>
                     let '(name, c) := f in
                     let '(dot0, m) := st in
                     if dict_in name dot then
                       dot0 ← deserialize_query name c dot0;
                       m ← put_back_dotted name dot0 m;
                       Ok (dot0, m)
                     else Ok (dot0, m))
                  (dot, m0) fields
            = Ok (dot, dict_set (parent ++ "." ++ child) v m0)).
  { induction fields as [| [n c] fields IH]; intros m0; [destruct Hin |].
    change (field_names ((n, c) :: fields)) with (n :: field_names fields)
      in Hnodup.
    apply NoDup_cons in Hnodup as [Hfresh Hnodup].
    rewrite list_elem_of_In in Hfresh.
    destruct Hin as [Heq | Hin].
    - injection Heq as -> ->. simpl.
      unfold Column_deserialize_query, py_get, _deserialize_value,
             put_back_dotted, py_getitem, dot.
      repeat (simpl; rewrite ?String.eqb_refl, ?Hft).
      apply (deserialize_dotted_skips [(parent, VDict [(child, v)])]).
      intros name c' Hin'. simpl. rewrite orb_false_r.
      apply String.eqb_neq. intros <-. apply Hfresh.
      apply in_map_iff. exists (parent, c'). split; [reflexivity | exact Hin'].
    - assert (Hne : String.eqb parent n = false).
      { apply String.eqb_neq. intros <-. apply Hfresh.
        apply in_map_iff. exists (parent, Column a).
        split; [reflexivity | exact Hin]. }
      simpl. unfold dot at 1. simpl. rewrite Hne. simpl.
      apply (IH Hnodup Hin). }
  rewrite Hloop. reflexivity.
Qed.

(** X29. A filter on a key of a [dict] field, in dot notation, goes
    through [deserialize_query] unchanged: for a model whose field names
    are distinct and without dots, the filter [{parent.child: value}] over
    a plain [Column] of type [dict] deserializes to itself, so the driver
    receives the dotted key, whatever the value (a [None] included). *)
Theorem dotted_filter_is_kept (cls : CRUDModel) (parent child : string)
    (a : attrs) (v : value) :
  Forall (fun f => contains_dot (fst f) = false) (__fields__ cls) ->
  NoDup (field_names (__fields__ cls)) ->
  In (parent, Column a) (__fields__ cls) ->
  self_field_type parent a = TDict ->
  CRUDModel_deserialize_query cls [(parent ++ "." ++ child, v)]
  = Ok [(parent ++ "." ++ child, v)].
Proof.
  intros Hdots Hnodup Hin Hft.
  set (key := parent ++ "." ++ child).
  assert (Hkey : forall name c, In (name, c) (__fields__ cls) ->
                                String.eqb key name = false).
  { intros name c. apply dotted_key_is_no_field. exact Hdots. }
  assert (Hnone : forall (x : value) (fields : list (string * column)),
            (forall name c, In (name, c) fields -> String.eqb key name = false) ->
            List.filter (fun f => dict_in (fst f) [(key, x)]) fields = []).
  { intros x fields. induction fields as [| [n c] fields IH]; intros Hk;
      [reflexivity |].
    simpl. rewrite (Hk n c) by (left; reflexivity). simpl.
    apply IH. intros name c' Hin'. apply (Hk name c'). right. exact Hin'. }
  assert (Hskip : forall (fields : list (string * column)),
            (forall name c, In (name, c) fields -> String.eqb key name = false) ->
            foldM (fun m f =>
                     let '(name, c) := f in
                     if dict_in name [(key, v)] then deserialize_query name c m
                     else Ok m)
                  [(key, v)] fields = Ok [(key, v)]).
  { intros fields. induction fields as [| [n c] fields IH]; intros Hk;
      [reflexivity |].
    simpl. rewrite (Hk n c) by (left; reflexivity). simpl.
    apply IH. intros name c' Hin'. apply (Hk name c'). right. exact Hin'. }
  unfold CRUDModel_deserialize_query, record_deserialize_query.
  unfold present_field_names. rewrite (Hnone v _ Hkey).
  unfold keys_not_in, gather_dot_notation. simpl.
  unfold py_getitem. simpl. fold key. rewrite String.eqb_refl. simpl.
  rewrite dict_pop_cons, String.eqb_refl.
  assert (Hdot : _handle_dot_notation (__fields__ cls) key v
                 = Some (parent, [(child, v)])).
  { apply _handle_dot_notation_spec. exists child.
    split; [reflexivity |]. split.
    - rewrite Forall_forall in Hdots. specialize (Hdots (parent, Column a)).
      rewrite list_elem_of_In in Hdots. exact (Hdots Hin).
    - split; [reflexivity |]. exists (Column a). split; [exact Hin |].
      simpl. rewrite Hft. reflexivity. }
  rewrite Hdot.
  change (deserialize_dotted deserialize_query (__fields__ cls)
            [(parent, VDict [(child, v)])] []
          ≫= (fun model_as_dict0 : dict =>
                foldM (fun (m : dict) '(name, c) =>
                         if dict_in name model_as_dict0
                         then deserialize_query name c m
                         else Ok m)
                      model_as_dict0 (__fields__ cls))
          = Ok [(key, v)]).
  rewrite (deserialize_dotted_one parent child a v _ Hft Hnodup Hin).
  apply Hskip. exact Hkey.
Qed.
End DottedFilters.

(** ** Bulk writes *)

Section BulkWrites.
Context {rt : Runtime} {dr : Driver}.
Variable cls : CRUDModel.

(** An ordered bulk write that fails stops at the first document the
    driver refuses: the documents before it were accepted and stored, in
    order, and nothing else was. *)
Lemma insert_each_stops (docs : list dict) :
  forall index w details,
    snd (fst (insert_each cls index docs w)) = Some details ->
    exists n refused,
      fst (fst (insert_each cls index docs w)) !! n = Some refused
      /\ details = bulk_write_details (index + n) refused
      /\ documents (snd (insert_each cls index docs w))
         = app (documents w) (take n (fst (fst (insert_each cls index docs w))))
      /\ duplicate_key (unique_fields cls)
           (app (documents w) (take n (fst (fst (insert_each cls index docs w)))))
           refused = true
      /\ (forall i doc,
            (i < n)%nat ->
            fst (fst (insert_each cls index docs w)) !! i = Some doc ->
            duplicate_key (unique_fields cls)
              (app (documents w)
                   (take i (fst (fst (insert_each cls index docs w)))))
              doc = false).
Proof.
  induction docs as [| doc docs IH]; intros index w details; simpl;
    [discriminate |].
  pose proof (with_id_documents doc w) as Hdocs.
  destruct (with_id doc w) as [doc' w1]. cbn [snd] in *.
  destruct (duplicate_key (unique_fields cls) (documents w1) doc') eqn:Hdup.
  - simpl. intros Hd. injection Hd as <-. exists O, doc'.
    rewrite Nat.add_0_r, app_nil_r, <- Hdocs.
    repeat split; auto. intros i d Hi. lia.
  - specialize (IH (S index) (set_documents (app (documents w1) [doc']) w1) details).
    destruct (insert_each cls (S index) docs
                (set_documents (app (documents w1) [doc']) w1))
      as [[rest failure] w2].
    cbn [fst snd] in *. intros Hfail.
    destruct (IH Hfail) as (n & refused & Hn & Hdetails & Hstored & Hrefused & Hfirst).
    simpl in Hstored, Hrefused, Hfirst.
    rewrite Hdocs, <- app_assoc in Hstored, Hrefused.
    exists (S n), refused.
    split; [exact Hn |].
    split; [rewrite Hdetails; f_equal; lia |].
    split; [exact Hstored |]. split; [exact Hrefused |].
    intros [| i] d Hi Hd.
    + simpl in Hd. injection Hd as <-. simpl. rewrite app_nil_r, <- Hdocs.
      exact Hdup.
    + simpl in Hd. specialize (Hfirst i d ltac:(lia) Hd).
      rewrite Hdocs, <- app_assoc in Hfirst. exact Hfirst.
Qed.

(** X30. [add_all] is not all-or-nothing. When every record of the
    batch is valid and the bulk write fails, it fails on the first
    document the driver refuses, the one of index [n]: [add_all] raises
    [ValidationFailed] with the details the driver gives for that index,
    and the [n] documents that precede it, which the driver accepted, have
    been stored after those of the collection and stay there; no audit
    hook is called. *)
Theorem add_all_stores_a_prefix_on_failure (batch visited : list value)
    (docs : list dict) (details : string) (w w1 : world) :
  has_base cls = true ->
  batch <> [] ->
  validate_each cls batch w = (Ok ([], visited), w1) ->
  as_mappings visited = Ok docs ->
  snd (fst (insert_each cls O docs w1)) = Some details ->
  fst (add_all cls batch w)
  = Raise (ValidationFailed (VList batch) (Message details))
  /\ (exists n refused,
        fst (fst (insert_each cls O docs w1)) !! n = Some refused
        /\ details = bulk_write_details n refused
        /\ documents (snd (add_all cls batch w))
           = app (documents w)
                 (take n (fst (fst (insert_each cls O docs w1))))
        /\ length (documents (snd (add_all cls batch w)))
           = (length (documents w) + n)%nat
        /\ duplicate_key (unique_fields cls)
             (documents (snd (add_all cls batch w))) refused = true
        /\ (forall i doc,
              (i < n)%nat ->
              fst (fst (insert_each cls O docs w1)) !! i = Some doc ->
              duplicate_key (unique_fields cls)
                (app (documents w)
                     (take i (fst (fst (insert_each cls O docs w1)))))
                doc = false))
  /\ Forall (fun e => is_audit e = false) (new_events (add_all cls batch) w).
Proof.
  intros Hbase Hdata Hvalid Hmaps Hfail.
  pose proof (validate_loop_counters_only cls batch (O, [], []) w)
    as (Hdocs & _ & incs & Hlog & Hincs).
  assert (Hw1 : snd (forM (validate_step cls) (O, [], []) batch w) = w1).
  { unfold validate_each, bind in Hvalid.
    destruct (forM (validate_step cls) (O, [], []) batch w) as [[st |] w'];
      unfold ret in Hvalid; simpl in *; congruence. }
  rewrite Hw1 in Hdocs, Hlog.
  destruct (insert_each_stops docs O w1 details Hfail)
    as (n & refused & Hn & Hdetails & Hstored & Hrefused & Hfirst).
  destruct (insert_each_spec cls docs O w1) as [Heach _].
  assert (Hrun : add_all cls batch w
                 = (Raise (ValidationFailed (VList batch) (Message details)),
                    emit (InsertMany (fst (fst (insert_each cls O docs w1)))
                            (length (documents (snd (insert_each cls O docs w1)))
                             - length (documents w1))%nat)
                         (snd (insert_each cls O docs w1)))).
  { unfold add_all. destruct batch as [| item batch]; [congruence |].
    cbn [is_empty]. unfold bind at 1. rewrite Hvalid. cbn [is_empty negb].
    unfold bind at 1, lift at 1. rewrite Hmaps.
    unfold bind at 1. unfold insert_many, bind at 1, bound. rewrite Hbase.
    unfold ret.
    destruct (insert_each cls O docs w1) as [[out failure] w2].
    cbn [fst snd] in *. subst failure. reflexivity. }
  rewrite Hrun. cbn [fst snd emit documents].
  rewrite Hdocs in Hstored, Hrefused, Hfirst.
  split; [reflexivity |]. split.
  - exists n, refused. rewrite Hstored.
    split; [exact Hn |]. split; [exact Hdetails |]. split; [reflexivity |].
    split.
    + rewrite length_app, length_take.
      apply lookup_lt_Some in Hn. lia.
    + split; [exact Hrefused | exact Hfirst].
  - rewrite (new_events_of_log _ w
               (app incs [InsertMany (fst (fst (insert_each cls O docs w1)))
                            (length (documents (snd (insert_each cls O docs w1)))
                             - length (documents w1))%nat])).
    + apply Forall_app. split; [apply counter_events_no_audit; exact Hincs |].
      repeat constructor.
    + rewrite Hrun. cbn [snd emit log]. rewrite Heach, Hlog, app_assoc.
      reflexivity.
Qed.
End BulkWrites.

(** * Records read back *)

(** ** Serialized records *)

Lemma dict_lookup_filter_keys {V : Type} (p : string -> bool) (k : string)
    (m : pydict V) :
  dict_lookup k (List.filter (fun kv => p (fst kv)) m)
  = if p k then dict_lookup k m else None.
Proof.
  induction m as [| [k' x] m IH]; simpl; [destruct (p k); reflexivity |].
  destruct (p k') eqn:Hp; simpl; rewrite IH;
    destruct (String.eqb k' k) eqn:E; try reflexivity;
    apply String.eqb_eq in E; subst k'; rewrite Hp; reflexivity.
Qed.

Section SerializedRecords.
Context {rt : Runtime}.

(** [serialize] of a field returns the mapping or sets its own slot. *)
Lemma serialize_shape (name : string) (c : column) (m m' : dict) :
  serialize name c m = Ok m' ->
  m' = m \/ exists x, m' = dict_set name x m.
Proof.
  destruct c as [a | a get_fields | a item]; simpl.
  - unfold Column_serialize.
    destruct (is_none (py_get name m)).
    + destruct (is_nullable a); intros H; injection H as <-; eauto.
    + destruct (self_field_type name a); try destruct (py_get name m); simpl;
        repeat match goal with
               | |- context [match ?x with _ => _ end] => destruct x; simpl
               end;
        intros H; try discriminate; injection H as <-; eauto.
  - destruct (check_names _); simpl; [| discriminate].
    destruct (negb (truthy _)).
    + intros H; injection H as <-. eauto.
    + destruct (record_serialize _ _ _); simpl; [| discriminate].
      intros H; injection H as <-. eauto.
  - destruct (py_iter _); simpl; [| discriminate].
    destruct (rebuild_list _ _ _); simpl; [| discriminate].
    intros H; injection H as <-. eauto.
Qed.

Lemma serialize_other (name : string) (c : column) (m m' : dict) (k : string) :
  serialize name c m = Ok m' ->
  String.eqb name k = false ->
  dict_lookup k m' = dict_lookup k m.
Proof.
  intros Hrun Hneq.
  destruct (serialize_shape _ _ _ _ Hrun) as [-> | [x ->]]; [reflexivity |].
  apply dict_lookup_set_neq. exact Hneq.
Qed.


Lemma not_in_names (fields : list (string * column)) (n name : string)
    (c : column) :
  n ∉ field_names fields -> In (name, c) fields -> String.eqb n name = false.
Proof.
  intros Hfresh Hin. apply String.eqb_neq. intros ->. apply Hfresh.
  apply list_elem_of_In, in_map_iff. exists (name, c). auto.
Qed.

Lemma serialize_fields_other (fields : list (string * column)) :
  forall (m m' : dict) (k : string),
    foldM (fun m f => serialize (fst f) (snd f) m) m fields = Ok m' ->
    k ∉ field_names fields ->
    dict_lookup k m' = dict_lookup k m.
Proof.
  induction fields as [| [n c] fields IH]; intros m m' k; simpl.
  - intros H _. injection H as <-. reflexivity.
  - destruct (serialize n c m) as [m1 | ex] eqn:Hfield; [| discriminate].
    intros Hrun Hfresh. apply not_elem_of_cons in Hfresh as [Hneq Hfresh].
    rewrite (IH _ _ _ Hrun Hfresh).
    apply (serialize_other _ _ _ _ _ Hfield).
    apply String.eqb_neq. congruence.
Qed.


End SerializedRecords.

Section GetOutcome.
Context {rt : Runtime} {dr : Driver}.
Variable cls : CRUDModel.

End GetOutcome.



(** ** Mappings, by their keys *)

Section DictKeys.
Context {V : Type}.

Lemma dict_keys_set_in (name : string) (x : V) (d : pydict V) :
  dict_in name d = true -> dict_keys (dict_set name x d) = dict_keys d.
Proof.
  induction d as [| [k y] d IH]; simpl; [discriminate |].
  destruct (String.eqb k name) eqn:E; simpl; [reflexivity |].
  intros Hin. rewrite (IH Hin). reflexivity.
Qed.

Lemma dict_keys_set_out (name : string) (x : V) (d : pydict V) :
  dict_in name d = false ->
  dict_keys (dict_set name x d) = app (dict_keys d) [name].
Proof.
  induction d as [| [k y] d IH]; simpl; [reflexivity |].
  destruct (String.eqb k name) eqn:E; simpl; [discriminate |].
  intros Hin. rewrite (IH Hin). reflexivity.
Qed.

Lemma dict_keys_filter (p : string -> bool) (d : pydict V) :
  dict_keys (List.filter (fun kv => p (fst kv)) d)
  = List.filter p (dict_keys d).
Proof.
  induction d as [| [k y] d IH]; simpl; [reflexivity |].
  destruct (p k); simpl; rewrite IH; reflexivity.
Qed.

Lemma dict_lookup_not_key (k : string) (d : pydict V) :
  k ∉ dict_keys d -> dict_lookup k d = None.
Proof.
  induction d as [| [k' y] d IH]; simpl; [reflexivity |].
  intros Hfresh. apply not_elem_of_cons in Hfresh as [Hneq Hfresh].
  destruct (String.eqb k' k) eqn:E; [| auto].
  apply String.eqb_eq in E. congruence.
Qed.

(** Two mappings with the same distinct keys, in the same order, and the
    same value under each key are equal. *)
Lemma dict_ext (d d' : pydict V) :
  dict_keys d = dict_keys d' ->
  NoDup (dict_keys d) ->
  (forall k, dict_lookup k d = dict_lookup k d') ->
  d = d'.
Proof.
  revert d'. induction d as [| [k x] d IH]; intros [| [k' x'] d']; simpl;
    try discriminate; [reflexivity |].
  intros Hkeys Hnodup Hlookup. injection Hkeys as <- Hkeys.
  apply NoDup_cons in Hnodup as [Hfresh Hnodup].
  pose proof (Hlookup k) as Hk. rewrite String.eqb_refl in Hk.
  injection Hk as <-. f_equal.
  apply IH; [exact Hkeys | exact Hnodup |].
  intros k0. specialize (Hlookup k0).
  destruct (String.eqb k k0) eqn:E; [| exact Hlookup].
  apply String.eqb_eq in E. subst k0.
  rewrite (dict_lookup_not_key k d Hfresh).
  rewrite Hkeys in Hfresh. rewrite (dict_lookup_not_key k d' Hfresh).
  reflexivity.
Qed.
End DictKeys.

Lemma filter_filter_sub {A : Type} (p q : A -> bool) (l : list A) :
  (forall x, p x = true -> q x = true) ->
  List.filter p (List.filter q l) = List.filter p l.
Proof.
  intros Hsub. induction l as [| x l IH]; simpl; [reflexivity |].
  destruct (q x) eqn:Hq; simpl; rewrite IH; [reflexivity |].
  destruct (p x) eqn:Hp; [| reflexivity].
  rewrite (Hsub x Hp) in Hq. discriminate.
Qed.

Lemma filter_none {A : Type} (p : A -> bool) (l : list A) :
  (forall x, In x l -> p x = false) -> List.filter p l = [].
Proof.
  induction l as [| x l IH]; simpl; [reflexivity |].
  intros Hnone. rewrite (Hnone x) by (left; reflexivity).
  apply IH. intros y Hy. apply Hnone. right. exact Hy.
Qed.

Lemma dict_in_keys {V : Type} (k : string) (d : pydict V) :
  dict_in k d = true <-> In k (dict_keys d).
Proof.
  unfold dict_in, dict_keys. rewrite existsb_exists, in_map_iff. split.
  - intros ([k' x] & Hin & Heq). simpl in Heq. apply String.eqb_eq in Heq.
    subst k'. exists (k, x). auto.
  - intros ([k' x] & Heq & Hin). simpl in Heq. subst k'.
    exists (k, x). split; [exact Hin | apply String.eqb_refl].
Qed.

(** Fields of distinct names: a name belongs to one column. *)
Lemma field_of_name (fields : list (string * column)) (name : string)
    (c c' : column) :
  NoDup (field_names fields) ->
  In (name, c) fields -> In (name, c') fields -> c = c'.
Proof.
  induction fields as [| [n c0] fields IH]; simpl; [tauto |].
  change (field_names ((n, c0) :: fields)) with (n :: field_names fields).
  intros Hnodup. apply NoDup_cons in Hnodup as [Hfresh Hnodup].
  assert (Hout : forall c1, In (n, c1) fields -> False).
  { intros c1 Hin. apply Hfresh. apply list_elem_of_In, in_map_iff.
    exists (n, c1). auto. }
  intros [Heq | Hin] [Heq' | Hin'].
  - congruence.
  - injection Heq as -> ->. destruct (Hout _ Hin').
  - injection Heq' as -> ->. destruct (Hout _ Hin).
  - apply IH; assumption.
Qed.

(** ** A stored key, serialized and read again *)

Section KeyRoundTrip.
Context {rt : Runtime}.

Lemma member_name_in_choices (members : list (string * value))
    (member : string) (v : value) :
  dict_lookup member members = Some v ->
  py_in (VStr member) (map (fun kv => VStr (fst kv)) members) = true.
Proof.
  unfold py_in.
  induction members as [| [k x] members IH]; simpl; [discriminate |].
  destruct (String.eqb k member); simpl; auto.
Qed.

Ltac as_received Hft Hiv Hval Hdes Hslot Hser :=
  match type of Hdes with
  | _deserialize_value _ _ ?iv = Ok ?sv =>
      assert (Hsv : sv = iv)
        by (unfold _deserialize_value in Hdes; rewrite Hft in Hdes;
            destruct iv; simpl in Hdes; congruence);
      subst sv; split; [exact Hiv |]; exists iv;
      unfold Column_serialize, py_get in Hser;
      rewrite Hslot in Hser; simpl in Hser; rewrite Hiv, Hft in Hser;
      injection Hser as <-;
      split; [exact Hslot |]; split; [exact Hiv |];
      split; [exact Hval | exact Hdes]
  end.

(** The value stored for a key comes back from its serialized form: that
    form passes validation and deserializes into the stored value. *)
Lemma key_round_trip (name : string) (a : attrs) (sv : value) (m0 m1 : dict) :
  storable name a sv ->
  (is_enum (self_field_type name a) = true -> choices a = NoChoices) ->
  text_read_back (self_field_type name a) sv ->
  dict_lookup name m0 = Some sv ->
  Column_serialize name a m0 = Ok m1 ->
  is_none sv = false
  /\ exists rv,
       dict_lookup name m1 = Some rv
       /\ is_none rv = false
       /\ _validate_value name a rv = Ok []
       /\ _deserialize_value name a rv = Ok sv.
Proof.
  intros (iv & Hiv & Hval & Hdes) Henum Hback Hslot Hser.
  destruct (self_field_type name a) as [| | | | | | cls members | | |] eqn:Hft.
  1-4, 9-10: as_received Hft Hiv Hval Hdes Hslot Hser.
  - (* date *)
    assert (Hsv : exists d, sv = VDateTime d).
    { unfold _validate_value in Hval. unfold _deserialize_value in Hdes.
      rewrite Hft in Hval, Hdes.
      destruct iv; simpl in *; try discriminate; try (injection Hdes as <-; eauto).
      destruct (dateutil_parse s); [injection Hdes as <-; eauto | discriminate]. }
    destruct Hsv as [d ->]. simpl in Hback.
    unfold Column_serialize, py_get in Hser. rewrite Hslot, Hft in Hser.
    simpl in Hser. injection Hser as <-.
    split; [reflexivity |]. eexists. split; [apply dict_lookup_set_eq |].
    split; [reflexivity |].
    unfold _validate_value, _deserialize_value. rewrite Hft. simpl.
    rewrite Hback. simpl. split; reflexivity.
  - (* datetime *)
    assert (Hsv : exists d, sv = VDateTime d).
    { unfold _validate_value in Hval. unfold _deserialize_value in Hdes.
      rewrite Hft in Hval, Hdes.
      destruct iv; simpl in *; try discriminate; try (injection Hdes as <-; eauto).
      destruct (dateutil_parse s); [injection Hdes as <-; eauto | discriminate]. }
    destruct Hsv as [d ->]. simpl in Hback.
    unfold Column_serialize, py_get in Hser. rewrite Hslot, Hft in Hser.
    simpl in Hser. injection Hser as <-.
    split; [reflexivity |]. eexists. split; [apply dict_lookup_set_eq |].
    split; [reflexivity |].
    unfold _validate_value, _deserialize_value. rewrite Hft. simpl.
    rewrite Hback. simpl. split; reflexivity.
  - (* Enum *)
    simpl in Hback. destruct Hback as [Hsome Hback].
    assert (Hnone : is_none sv = false) by (destruct sv; simpl; congruence).
    assert (Hty : field_type a = TEnum cls members).
    { unfold self_field_type in Hft.
      destruct (String.eqb "_id" name); [discriminate | exact Hft]. }
    unfold Column_serialize, py_get in Hser. rewrite Hslot, Hft in Hser.
    simpl in Hser. rewrite Hnone in Hser.
    destruct (enum_name_of_value cls members sv) as [member | ex] eqn:Hname;
      simpl in Hser; [| discriminate].
    injection Hser as <-. specialize (Hback member eq_refl).
    split; [exact Hnone |]. eexists. split; [apply dict_lookup_set_eq |].
    split; [reflexivity |].
    unfold _validate_value, _deserialize_value. rewrite Hft. simpl.
    unfold get_choices. rewrite (Henum eq_refl), Hty.
    unfold enum_value_of_name in Hback.
    destruct (dict_lookup member members) as [v |] eqn:Hmember;
      [| discriminate].
    rewrite (member_name_in_choices _ _ _ Hmember). simpl.
    split; [reflexivity |]. unfold enum_value_of_name. rewrite Hmember.
    exact Hback.
  - (* ObjectId *)
    assert (Hsv : exists oid, sv = VObjectId oid).
    { unfold _validate_value in Hval. unfold _deserialize_value in Hdes.
      rewrite Hft in Hval, Hdes.
      destruct iv; simpl in *; try discriminate;
        try (injection Hdes as <-; eauto; fail);
        destruct (objectid_of _); try discriminate;
        injection Hdes as <-; eauto. }
    destruct Hsv as [oid ->]. simpl in Hback.
    unfold Column_serialize, py_get in Hser. rewrite Hslot, Hft in Hser.
    simpl in Hser. injection Hser as <-.
    split; [reflexivity |]. eexists. split; [apply dict_lookup_set_eq |].
    split; [reflexivity |].
    unfold _validate_value, _deserialize_value. rewrite Hft. simpl.
    rewrite Hback. simpl. split; reflexivity.
Qed.
End KeyRoundTrip.

(** ** The keys of a document that was added *)

Lemma declared_neq (fields : list (string * column)) (u n : string) :
  declared fields u = false -> declared fields n = true ->
  String.eqb u n = false.
Proof.
  intros Hu Hn. apply String.eqb_neq. intros ->. congruence.
Qed.

Section InsertedKeys.
Context {rt : Runtime}.

(** A record without validation errors has none in any of its fields. *)
Lemma validate_fields_insert_all (fields : list (string * column)) (mv : dict) :
  forall acc : errors,
    foldM (fun errors f =>
             let '(name, c) := f in
             e ← validate_insert name c mv;
             Ok (dict_update errors e))
          acc fields = Ok [] ->
    acc = []
    /\ forall name c, In (name, c) fields -> validate_insert name c mv = Ok [].
Proof.
  induction fields as [| [n c] fields IH]; intros acc; simpl.
  - intros H. injection H as ->. split; [reflexivity | tauto].
  - destruct (validate_insert n c mv) as [e | ex] eqn:Hfield; simpl;
      [| discriminate].
    intros Hrun. destruct (IH _ Hrun) as [Hupd Hrest].
    apply dict_update_nil in Hupd as [-> ->].
    split; [reflexivity |].
    intros name c0 [Heq | Hin]; [injection Heq as <- <-; exact Hfield | auto].
Qed.

(** Validation folds dot notation into a copy and deserialization into
    the record itself: the declared fields end up the same in both. *)
Lemma fold_dot_link (fields : list (string * column)) (unknown : list string) :
  forall new md new' md' : dict,
    (forall u, In u unknown -> declared fields u = false) ->
    (forall k v, dict_lookup k md = Some v -> dict_lookup k new = Some v) ->
    (forall n, declared fields n = true ->
               dict_lookup n new = dict_lookup n md) ->
    fold_dot_notation fields unknown new = Ok new' ->
    fold_unknown_insert fields unknown md = Ok md' ->
    forall n, declared fields n = true ->
              dict_lookup n new' = dict_lookup n md'.
Proof.
  unfold fold_dot_notation, fold_unknown_insert.
  induction unknown as [| u unknown IH]; intros new md new' md' Hunknown Hsub Hdecl;
    simpl.
  - intros H1 H2. injection H1 as <-. injection H2 as <-. exact Hdecl.
  - unfold py_getitem.
    destruct (dict_lookup u md) as [v |] eqn:Hu; simpl;
      [| intros _ H; discriminate H].
    rewrite (Hsub u v Hu).
    assert (Hfresh : declared fields u = false)
      by (apply Hunknown; left; reflexivity).
    assert (Hrest : forall u', In u' unknown -> declared fields u' = false)
      by (intros u' Hin; apply Hunknown; right; exact Hin).
    assert (Hpop_sub : forall k v', dict_lookup k (dict_pop u md) = Some v' ->
                                    dict_lookup k new = Some v').
    { intros k v' Hk. destruct (String.eqb u k) eqn:E.
      - apply String.eqb_eq in E. subst k.
        rewrite dict_lookup_pop_eq in Hk. discriminate.
      - rewrite (dict_lookup_pop_neq _ _ _ E) in Hk. auto. }
    assert (Hpop_decl : forall n, declared fields n = true ->
                                  dict_lookup n new = dict_lookup n (dict_pop u md)).
    { intros n Hn.
      rewrite (dict_lookup_pop_neq _ _ _ (declared_neq _ _ _ Hfresh Hn)).
      auto. }
    destruct (_handle_dot_notation fields u v) as [[known fv] |] eqn:Hdot.
    + apply _handle_dot_notation_spec in Hdot
        as (child & _ & _ & _ & c & Hin & _).
      assert (Hknown : declared fields known = true)
        by (apply (declared_In _ _ _ Hin)).
      unfold setdefault_update. rewrite <- (Hpop_decl known Hknown).
      assert (Hset : forall x new1 md1,
                new1 = dict_set known x new ->
                md1 = dict_set known x (dict_pop u md) ->
                (forall k v', dict_lookup k md1 = Some v' ->
                              dict_lookup k new1 = Some v')
                /\ (forall n, declared fields n = true ->
                              dict_lookup n new1 = dict_lookup n md1)).
      { intros x new1 md1 -> ->. split.
        - intros k v'. destruct (String.eqb known k) eqn:E.
          + apply String.eqb_eq in E. subst k.
            rewrite !dict_lookup_set_eq. auto.
          + rewrite !(dict_lookup_set_neq _ _ _ _ E). auto.
        - intros n Hn. destruct (String.eqb known n) eqn:E.
          + apply String.eqb_eq in E. subst n.
            rewrite !dict_lookup_set_eq. reflexivity.
          + rewrite !(dict_lookup_set_neq _ _ _ _ E). auto. }
      destruct (dict_lookup known new) as [[] |]; simpl;
        try (intros H; discriminate H).
      all: intros H1 H2;
        match type of H1 with
        | foldM _ (dict_set _ ?x _) _ = _ =>
            destruct (Hset x _ _ eq_refl eq_refl) as [Hsub' Hdecl']
        end;
        exact (IH _ _ _ _ Hrest Hsub' Hdecl' H1 H2).
    + intros H1 H2. exact (IH _ _ _ _ Hrest Hpop_sub Hpop_decl H1 H2).
Qed.

Lemma deserialize_insert_fields_other {S : Type}
    (_increment : string -> S -> result value * S)
    (fields : list (string * column)) :
  forall (m m' : dict) (s : S) (k : string),
    fst (deserialize_insert_fields deserialize_insert _increment fields m s)
    = Ok m' ->
    k ∉ field_names fields ->
    dict_lookup k m' = dict_lookup k m.
Proof.
  induction fields as [| [n c] fields IH]; intros m m' s k; simpl.
  - intros H _. injection H as <-. reflexivity.
  - destruct (deserialize_insert n c m) as [m1 | ex] eqn:Hfield; simpl;
      [| discriminate].
    apply deserialize_insert_keys in Hfield as [_ Hother].
    intros Hrun Hfresh. apply not_elem_of_cons in Hfresh as [Hneq Hfresh].
    assert (Hnk : String.eqb n k = false)
      by (apply String.eqb_neq; congruence).
    destruct (should_auto_increment (column_attrs c)).
    + destruct (_increment n s) as [[v | ex] s1]; simpl in Hrun;
        [| discriminate].
      rewrite (IH _ _ _ _ Hrun Hfresh), (dict_lookup_set_neq _ _ _ _ Hnk).
      auto.
    + rewrite (IH _ _ _ _ Hrun Hfresh). auto.
Qed.

(** The second loop of [deserialize_insert], read at a plain field: an
    auto-incremented field holds what [_increment] returned, another
    field holds its value, deserialized. *)
Lemma deserialize_insert_fields_key {S : Type}
    (_increment : string -> S -> result value * S)
    (fields : list (string * column)) :
  NoDup (field_names fields) ->
  forall (m m' : dict) (s : S) (name : string) (a : attrs),
    fst (deserialize_insert_fields deserialize_insert _increment fields m s)
    = Ok m' ->
    In (name, Column a) fields ->
    if should_auto_increment a then
      exists v s0 s1,
        _increment name s0 = (Ok v, s1) /\ dict_lookup name m' = Some v
    else
      is_none (py_get name m) = false ->
      exists sv,
        _deserialize_value name a (py_get name m) = Ok sv
        /\ dict_lookup name m' = Some sv.
Proof.
  induction fields as [| [n c] fields IH]; intros Hnodup m m' s name a; simpl;
    [tauto |].
  change (field_names ((n, c) :: fields)) with (n :: field_names fields)
    in Hnodup.
  apply NoDup_cons in Hnodup as [Hfresh Hnodup].
  destruct (deserialize_insert n c m) as [m1 | ex] eqn:Hfield; simpl;
    [| discriminate].
  intros Hrun [Heq | Hin].
  - injection Heq as -> ->. simpl in Hfield, Hrun.
    destruct (should_auto_increment a).
    + destruct (_increment name s) as [[v | ex] s1] eqn:Hinc; simpl in Hrun;
        [| discriminate].
      exists v, s, s1. split; [exact Hinc |].
      rewrite (deserialize_insert_fields_other _ _ _ _ _ _ Hrun Hfresh).
      apply dict_lookup_set_eq.
    + intros Hnone. unfold Column_deserialize_insert in Hfield.
      rewrite Hnone in Hfield.
      destruct (_deserialize_value name a (py_get name m)) as [sv | ex];
        simpl in Hfield; [| discriminate].
      injection Hfield as <-. exists sv. split; [reflexivity |].
      rewrite (deserialize_insert_fields_other _ _ _ _ _ _ Hrun Hfresh).
      apply dict_lookup_set_eq.
  - assert (Hneq : String.eqb n name = false)
      by (apply (not_in_names _ _ _ _ Hfresh Hin)).
    apply deserialize_insert_keys in Hfield as [_ Hother].
    assert (Hget : forall m2, dict_lookup name m2 = dict_lookup name m ->
                              py_get name m2 = py_get name m)
      by (intros m2 H; unfold py_get; rewrite H; reflexivity).
    destruct (should_auto_increment (column_attrs c)).
    + destruct (_increment n s) as [[v | ex] s1]; simpl in Hrun;
        [| discriminate].
      specialize (IH Hnodup _ _ _ _ _ Hrun Hin).
      rewrite (Hget (dict_set n v m1)) in IH; [exact IH |].
      rewrite (dict_lookup_set_neq _ _ _ _ Hneq). auto.
    + specialize (IH Hnodup _ _ _ _ _ Hrun Hin).
      rewrite (Hget m1) in IH; [exact IH | auto].
Qed.
End InsertedKeys.

Section StoredKeys.
Context {rt : Runtime} {dr : Driver}.
Variable cls : CRUDModel.

Lemma with_id_lookup (doc : dict) (w : world) (k : string) (v : value) :
  dict_lookup k doc = Some v ->
  dict_lookup k (fst (with_id doc w)) = Some v.
Proof.
  intros Hk. unfold with_id.
  destruct (dict_in "_id" doc) eqn:Hid; simpl; [exact Hk |].
  destruct (String.eqb "_id" k) eqn:E.
  - apply String.eqb_eq in E. subst k.
    apply dict_in_lookup_None in Hid. congruence.
  - rewrite (dict_lookup_set_neq _ _ _ _ E). exact Hk.
Qed.

Lemma with_id_not_empty (doc : dict) (w : world) : fst (with_id doc w) <> [].
Proof.
  unfold with_id. destruct (dict_in "_id" doc) eqn:Hid; simpl.
  - destruct doc; [discriminate | discriminate].
  - destruct doc as [| [k x] doc]; simpl; [discriminate |].
    destruct (String.eqb k "_id"); discriminate.
Qed.

(** The document [add] stores holds, for each of its keys, a value that
    validation accepted and deserialization produced. *)
Lemma stored_key (m m' : dict) (w w2 : world) (name : string) (a : attrs) :
  NoDup (field_names (__fields__ cls)) ->
  CRUDModel_validate_insert cls (VDict m) = Ok [] ->
  CRUDModel_deserialize_insert cls m w = (Ok m', w2) ->
  In (name, Column a) (__fields__ cls) ->
  key_column name (Column a) = true ->
  exists sv,
    dict_lookup name (fst (with_id m' w2)) = Some sv /\ storable name a sv.
Proof.
  intros Hnodup Hvalid Hdes Hin Hkey.
  unfold CRUDModel_validate_insert, record_validate_insert in Hvalid.
  destruct (truthy (VDict m)); cbn [negb] in Hvalid; [| discriminate].
  cbn [as_mapping mbind result_bind] in Hvalid.
  destruct (fold_dot_notation _ _ m) as [mv | ex] eqn:Hfold; [| discriminate].
  cbn [mbind result_bind] in Hvalid.
  apply validate_fields_insert_all in Hvalid as [_ Hfields].
  specialize (Hfields name (Column a) Hin). simpl in Hfields.
  unfold CRUDModel_deserialize_insert, record_deserialize_insert in Hdes.
  destruct (fold_unknown_insert _ _ m) as [md | ex] eqn:Hfold';
    [| discriminate].
  assert (Hlink : dict_lookup name mv = dict_lookup name md).
  { apply (fold_dot_link (__fields__ cls)
             (keys_not_in (field_names (__fields__ cls)) m) m m mv md);
      auto.
    - intros u Hu. apply filter_In in Hu as [_ Hu].
      apply negb_true_iff in Hu. exact Hu.
    - apply (declared_In _ _ _ Hin). }
  assert (Hget : py_get name mv = py_get name md)
    by (unfold py_get; rewrite Hlink; reflexivity).
  pose proof (deserialize_insert_fields_key (_increment cls) _ Hnodup
                md m' w name a) as Hstored.
  rewrite Hdes in Hstored. specialize (Hstored eq_refl Hin).
  simpl in Hkey. apply andb_prop in Hkey as [Hkind _].
  destruct (should_auto_increment a).
  - apply andb_prop in Hkind as [Hint Hchoices].
    destruct Hstored as (v & s0 & s1 & Hinc & Hv).
    assert (Hcounter : exists n, v = VInt n).
    { unfold _increment, bind, bound, ret, raise in Hinc.
      destruct (has_base cls); simpl in Hinc; [| discriminate].
      injection Hinc as <- _. eauto. }
    destruct Hcounter as [n ->].
    exists (VInt n). split; [apply with_id_lookup; exact Hv |].
    exists (VInt n). split; [reflexivity |].
    unfold _validate_value, _deserialize_value.
    unfold choices_value in Hchoices.
    destruct (get_choices a); [discriminate |].
    destruct (self_field_type name a); try discriminate.
    split; reflexivity.
  - apply negb_true_iff in Hkind.
    unfold Column_validate_insert in Hfields. rewrite Hkind in Hfields.
    destruct (is_none (py_get name mv)) eqn:Hnone; [discriminate |].
    rewrite Hget in Hnone. destruct (Hstored Hnone) as (sv & Hsv & Hv).
    exists sv. split; [apply with_id_lookup; exact Hv |].
    exists (py_get name md). rewrite <- Hget at 2.
    split; [exact Hnone |]. split; [exact Hfields | exact Hsv].
Qed.
End StoredKeys.

(** ** Distinct keys *)

Lemma distinct_keys_set {V : Type} (name : string) (x : V) (d : pydict V) :
  NoDup (dict_keys d) -> NoDup (dict_keys (dict_set name x d)).
Proof.
  intros Hnodup. destruct (dict_in name d) eqn:Hin.
  - rewrite (dict_keys_set_in _ _ _ Hin). exact Hnodup.
  - rewrite (dict_keys_set_out _ _ _ Hin).
    apply NoDup_app. split; [exact Hnodup |]. split.
    + intros k Hk Hname. apply list_elem_of_singleton in Hname. subst k.
      apply list_elem_of_In, dict_in_keys in Hk. congruence.
    + apply NoDup_singleton.
Qed.

Lemma distinct_keys_pop {V : Type} (name : string) (d : pydict V) :
  NoDup (dict_keys d) -> NoDup (dict_keys (dict_pop name d)).
Proof.
  induction d as [| [k x] d IH]; [intros _; constructor |].
  rewrite dict_pop_cons. simpl. intros Hnodup.
  apply NoDup_cons in Hnodup as [Hfresh Hnodup].
  destruct (String.eqb k name); [auto |].
  simpl. apply NoDup_cons. split; [| auto].
  intros Hk. apply Hfresh.
  apply list_elem_of_In, dict_in_keys in Hk. rewrite dict_in_pop in Hk.
  apply andb_prop in Hk as [_ Hk].
  apply list_elem_of_In, dict_in_keys. exact Hk.
Qed.

Section DistinctKeys.
Context {rt : Runtime}.

(** [deserialize_insert] of a field removes its slot or sets it. *)
Lemma deserialize_insert_shape (name : string) (c : column) (m m' : dict) :
  deserialize_insert name c m = Ok m' ->
  m' = dict_pop name m \/ exists x, m' = dict_set name x m.
Proof.
  destruct c as [a | a get_fields | a item]; simpl;
    unfold Column_deserialize_insert;
    destruct (is_none (py_get name m)); simpl.
  all: try (intros H; injection H as <-; auto; fail).
  - destruct (_deserialize_value name a _); simpl; [| discriminate].
    intros H; injection H as <-. eauto.
  - destruct (check_names _); simpl; [| discriminate].
    destruct (as_mapping _); simpl; [| discriminate].
    destruct (fst _); simpl; [| discriminate].
    intros H; injection H as <-. eauto.
  - destruct (py_iter _); simpl; [| discriminate].
    destruct (rebuild_list _ _ _); simpl; [| discriminate].
    intros H; injection H as <-. eauto.
Qed.

Lemma fold_unknown_insert_distinct (fields : list (string * column))
    (unknown : list string) :
  forall m m' : dict,
    fold_unknown_insert fields unknown m = Ok m' ->
    NoDup (dict_keys m) -> NoDup (dict_keys m').
Proof.
  unfold fold_unknown_insert.
  induction unknown as [| u unknown IH]; intros m m'; simpl.
  - intros H. injection H as <-. auto.
  - destruct (py_getitem u m) as [v | ex]; simpl; [| discriminate].
    destruct (_handle_dot_notation fields u v) as [[known fv] |].
    + unfold setdefault_update.
      destruct (dict_lookup known (dict_pop u m)) as [[] |]; simpl;
        try discriminate.
      all: intros Hrun Hnodup; apply (IH _ _ Hrun);
        apply distinct_keys_set, distinct_keys_pop; exact Hnodup.
    + intros Hrun Hnodup. apply (IH _ _ Hrun).
      apply distinct_keys_pop. exact Hnodup.
Qed.

Lemma deserialize_insert_fields_distinct {S : Type}
    (_increment : string -> S -> result value * S)
    (fields : list (string * column)) :
  forall (m m' : dict) (s : S),
    fst (deserialize_insert_fields deserialize_insert _increment fields m s)
    = Ok m' ->
    NoDup (dict_keys m) -> NoDup (dict_keys m').
Proof.
  induction fields as [| [n c] fields IH]; intros m m' s; simpl.
  - intros H. injection H as <-. auto.
  - destruct (deserialize_insert n c m) as [m1 | ex] eqn:Hfield; simpl;
      [| discriminate].
    intros Hrun Hnodup.
    assert (Hm1 : NoDup (dict_keys m1)).
    { destruct (deserialize_insert_shape _ _ _ _ Hfield) as [-> | [x ->]];
        [apply distinct_keys_pop | apply distinct_keys_set]; exact Hnodup. }
    destruct (should_auto_increment (column_attrs c)).
    + destruct (_increment n s) as [[v | ex] s1]; simpl in Hrun;
        [| discriminate].
      apply (IH _ _ _ Hrun). apply distinct_keys_set. exact Hm1.
    + apply (IH _ _ _ Hrun Hm1).
Qed.
End DistinctKeys.

Section StoredDistinct.
Context {rt : Runtime} {dr : Driver}.
Variable cls : CRUDModel.

(** A record with distinct keys is stored as a document with distinct
    keys. *)
Lemma stored_distinct (m m' : dict) (w w2 : world) :
  CRUDModel_deserialize_insert cls m w = (Ok m', w2) ->
  NoDup (dict_keys m) ->
  NoDup (dict_keys (fst (with_id m' w2))).
Proof.
  intros Hdes Hnodup.
  unfold CRUDModel_deserialize_insert, record_deserialize_insert in Hdes.
  destruct (fold_unknown_insert _ _ m) as [md | ex] eqn:Hfold;
    [| discriminate].
  apply fold_unknown_insert_distinct in Hfold; [| exact Hnodup].
  pose proof (deserialize_insert_fields_distinct (_increment cls)
                (__fields__ cls) md m' w) as Hfields.
  rewrite Hdes in Hfields. specialize (Hfields eq_refl Hfold).
  unfold with_id. destruct (dict_in "_id" m'); simpl; [exact Hfields |].
  apply distinct_keys_set. exact Hfields.
Qed.
End StoredDistinct.

(** ** A filter made of the primary keys *)

Section KeyFilters.
Context {rt : Runtime}.

(** The step of a field in the loop of [CRUDModel.serialize]: it ran on a
    mapping that held the slot of the document, and what it left in the
    slot is what the loop returns there. *)
Lemma serialize_fields_step (fields : list (string * column)) :
  NoDup (field_names fields) ->
  forall (m m' : dict) (name : string) (c : column),
    foldM (fun m f => serialize (fst f) (snd f) m) m fields = Ok m' ->
    In (name, c) fields ->
    exists m0 m1,
      serialize name c m0 = Ok m1
      /\ dict_lookup name m0 = dict_lookup name m
      /\ dict_lookup name m1 = dict_lookup name m'.
Proof.
  induction fields as [| [n c0] fields IH]; intros Hnodup m m' name c; simpl;
    [tauto |].
  change (field_names ((n, c0) :: fields)) with (n :: field_names fields)
    in Hnodup.
  apply NoDup_cons in Hnodup as [Hfresh Hnodup].
  destruct (serialize n c0 m) as [m1 | ex] eqn:Hfield; [| discriminate].
  intros Hrun [Heq | Hin].
  - injection Heq as -> ->. exists m, m1.
    split; [exact Hfield |]. split; [reflexivity |].
    symmetry. apply (serialize_fields_other _ _ _ _ Hrun Hfresh).
  - destruct (IH Hnodup _ _ _ _ Hrun Hin) as (m0 & m2 & Hstep & Hbefore & Hafter).
    exists m0, m2. split; [exact Hstep |]. split; [| exact Hafter].
    rewrite Hbefore.
    apply (serialize_other _ _ _ _ _ Hfield (not_in_names _ _ _ _ Hfresh Hin)).
Qed.

(** Serialization leaves the keys [p] selects where they are, when the
    mapping holds all of them. *)
Lemma serialize_fields_key_list (p : string -> bool)
    (fields : list (string * column)) :
  forall m m' : dict,
    foldM (fun m f => serialize (fst f) (snd f) m) m fields = Ok m' ->
    (forall k, p k = true -> dict_in k m = true) ->
    List.filter p (dict_keys m') = List.filter p (dict_keys m).
Proof.
  induction fields as [| [n c] fields IH]; intros m m'; simpl.
  - intros H _. injection H as <-. reflexivity.
  - destruct (serialize n c m) as [m1 | ex] eqn:Hfield; [| discriminate].
    intros Hrun Hall.
    assert (Hall1 : forall k, p k = true -> dict_in k m1 = true).
    { intros k Hk. apply serialize_keys in Hfield as [Hmono _]. auto. }
    rewrite (IH _ _ Hrun Hall1).
    destruct (serialize_shape _ _ _ _ Hfield) as [-> | [x ->]]; [reflexivity |].
    destruct (dict_in n m) eqn:Hn.
    + rewrite (dict_keys_set_in _ _ _ Hn). reflexivity.
    + rewrite (dict_keys_set_out _ _ _ Hn), List.filter_app. simpl.
      destruct (p n) eqn:Hp; [| apply app_nil_r].
      rewrite (Hall n Hp) in Hn. discriminate.
Qed.

(** Every key of the filter is a field the filter holds: no key is
    unknown. *)
Lemma no_unknown_key (fields : list (string * column)) (q : dict) :
  (forall k, dict_in k q = true -> exists c, In (k, c) fields) ->
  keys_not_in (present_field_names fields q) q = [].
Proof.
  intros Hknown. unfold keys_not_in. apply filter_none.
  intros k Hk. apply negb_false_iff, str_in_In.
  apply dict_in_keys in Hk. destruct (Hknown k Hk) as [c Hin].
  unfold present_field_names. apply in_map_iff. exists (k, c).
  split; [reflexivity |]. apply filter_In. auto.
Qed.

Lemma validate_fields_query_ok (fields : list (string * column)) (q : dict) :
  (forall name c, In (name, c) fields -> dict_in name q = true ->
                  validate_query name c q = Ok []) ->
  validate_fields_query validate_query fields q = Ok [].
Proof.
  unfold validate_fields_query.
  induction fields as [| [n c] fields IH]; intros Hvalid; simpl;
    [reflexivity |].
  destruct (dict_in n q) eqn:Hn.
  - rewrite (Hvalid n c) by (auto; left; reflexivity). simpl.
    apply IH. intros name c' Hin. apply Hvalid. right. exact Hin.
  - apply IH. intros name c' Hin. apply Hvalid. right. exact Hin.
Qed.

(** The last loop of [deserialize_query] over a filter whose keys are
    plain fields: each value is replaced by its deserialized form, and
    the keys stay where they are. *)
Lemma deserialize_selected (q P : dict) (fields : list (string * column)) :
  NoDup (field_names fields) ->
  forall m : dict,
    (forall name c, In (name, c) fields -> dict_in name q = true ->
       exists a rv sv,
         c = Column a
         /\ dict_lookup name m = Some rv
         /\ is_none rv = false
         /\ _deserialize_value name a rv = Ok sv
         /\ dict_lookup name P = Some sv) ->
    (forall name c, In (name, c) fields -> dict_in name q = false ->
                    dict_lookup name m = dict_lookup name P) ->
    (forall k, k ∉ field_names fields -> dict_lookup k m = dict_lookup k P) ->
    exists filter,
      foldM (fun m f =>
               let '(name, c) := f in
               if dict_in name q then deserialize_query name c m else Ok m)
            m fields = Ok filter
      /\ dict_keys filter = dict_keys m
      /\ forall k, dict_lookup k filter = dict_lookup k P.
Proof.
  induction fields as [| [n c] fields IH]; intros Hnodup m Hin Hout Hother.
  - simpl. exists m. split; [reflexivity |]. split; [reflexivity |].
    intros k. apply Hother. apply not_elem_of_nil.
  - change (field_names ((n, c) :: fields)) with (n :: field_names fields)
      in Hnodup, Hother.
    apply NoDup_cons in Hnodup as [Hfresh Hnodup].
    assert (Hneq : forall name c', In (name, c') fields ->
                                   String.eqb n name = false)
      by (intros name c'; apply not_in_names; exact Hfresh).
    cbn [foldM].
    destruct (dict_in n q) eqn:Hn.
    + destruct (Hin n c (or_introl eq_refl) Hn)
        as (a & rv & sv & -> & Hrv & Hnone & Hsv & HP).
      simpl. unfold Column_deserialize_query, py_get. rewrite Hrv. simpl.
      rewrite Hnone, Hsv. simpl.
      destruct (IH Hnodup (dict_set n sv m)) as (filter & Hrun & Hkeys & Hlookup).
      * intros name c' Hc' Hq.
        destruct (Hin name c' (or_intror Hc') Hq)
          as (a' & rv' & sv' & -> & Hrv' & Hrest).
        exists a', rv', sv'. split; [reflexivity |].
        rewrite (dict_lookup_set_neq _ _ _ _ (Hneq _ _ Hc')). auto.
      * intros name c' Hc' Hq.
        rewrite (dict_lookup_set_neq _ _ _ _ (Hneq _ _ Hc')).
        apply (Hout name c' (or_intror Hc') Hq).
      * intros k Hk. destruct (String.eqb n k) eqn:E.
        -- apply String.eqb_eq in E. subst k.
           rewrite dict_lookup_set_eq. congruence.
        -- rewrite (dict_lookup_set_neq _ _ _ _ E). apply Hother.
           apply not_elem_of_cons. split; [| exact Hk].
           apply String.eqb_neq in E. congruence.
      * exists filter. split; [exact Hrun |]. split; [| exact Hlookup].
        rewrite Hkeys. apply dict_keys_set_in.
        apply dict_in_lookup. rewrite Hrv. discriminate.
    + destruct (IH Hnodup m) as (filter & Hrun & Hkeys & Hlookup).
      * intros name c' Hc'. apply (Hin name c'). right. exact Hc'.
      * intros name c' Hc'. apply (Hout name c'). right. exact Hc'.
      * intros k Hk. destruct (String.eqb n k) eqn:E.
        -- apply String.eqb_eq in E. subst k.
           apply (Hout n c (or_introl eq_refl) Hn).
        -- apply Hother. apply not_elem_of_cons. split; [| exact Hk].
           apply String.eqb_neq in E. congruence.
      * exists filter. auto.
Qed.
End KeyFilters.

(** ** Insert, then read back by primary key *)

Section ReadBack.
Context {rt : Runtime} {dr : Driver}.
Variable cls : CRUDModel.

(** C1, as the code has it. After a successful [add] of a record, [get]
    on the primary key of the mapping [add] returned gives that mapping
    back, whatever the types of the fields of the record, when
    - the fields of the model have distinct names and its primary keys
      are plain columns, mandatory or auto-incremented;
    - the libraries read the stored keys back from the text they print
      for them;
    - the driver selects the document stored by its own primary key, and
      none of the documents stored before: a primary key is no unique
      index.
    The filter [get] validates and deserializes is then, entry for entry,
    the primary key of the stored document. The keys of the record are
    distinct, as those of any dict. *)
Theorem add_then_get (model_as_dict : value) (w w1 : world) (r doc : dict) :
  NoDup (field_names (__fields__ cls)) ->
  (forall name c, In (name, c) (__fields__ cls) ->
     is_primary_key (column_attrs c) = true -> key_column name c = true) ->
  (forall m, model_as_dict = VDict m -> NoDup (dict_keys m)) ->
  add cls model_as_dict w = (Ok r, w1) ->
  last (documents w1) = Some doc ->
  (forall name a stored,
     In (name, Column a) (__fields__ cls) -> is_primary_key a = true ->
     dict_lookup name doc = Some stored ->
     text_read_back (self_field_type name a) stored) ->
  doc_matches (_to_primary_keys_model cls doc) doc = true ->
  Forall (fun stored => doc_matches (_to_primary_keys_model cls doc) stored = false)
         (documents w) ->
  CRUDModel_deserialize_query cls (_to_primary_keys_model cls r)
  = Ok (_to_primary_keys_model cls doc)
  /\ fst (get cls (_to_primary_keys_model cls r) w1) = Ok r.
Proof.
  intros Hnodup Hkeys Hrecord Hadd Hlast Hback Hself Hunique.
  destruct (add_stores cls _ _ _ _ Hadd) as [Hbase _].
  destruct (add_run cls _ _ _ _ Hadd)
    as (m & m' & w2 & -> & Hvalid & Hdes & Hdocs & Hser).
  rewrite Hdocs, last_snoc in Hlast. injection Hlast as Hdoc.
  assert (Hdistinct : NoDup (dict_keys doc)).
  { rewrite <- Hdoc. apply (stored_distinct cls m m' w w2 Hdes).
    apply Hrecord. reflexivity. }
  set (pknames := map fst (List.filter
                             (fun f => is_primary_key (column_attrs (snd f)))
                             (__fields__ cls))) in *.
  set (pk := fun k : string => str_in k pknames).
  assert (Hpk_of : forall d : dict,
            _to_primary_keys_model cls d
            = List.filter (fun kv => pk (fst kv)) d) by reflexivity.
  (* the primary keys are key columns of the model *)
  assert (F1 : forall k, pk k = true ->
                 exists a, In (k, Column a) (__fields__ cls)
                           /\ is_primary_key a = true
                           /\ key_column k (Column a) = true).
  { intros k Hk. apply str_in_In, in_map_iff in Hk as ([k' c] & Heq & Hin).
    simpl in Heq. subst k'. apply filter_In in Hin as [Hin Hp].
    simpl in Hp. pose proof (Hkeys k c Hin Hp) as Hkc.
    destruct c as [a | |]; try discriminate. eauto. }
  assert (F2 : forall name a, In (name, Column a) (__fields__ cls) ->
                 is_primary_key a = true -> pk name = true).
  { intros name a Hin Hp. apply str_in_In, in_map_iff.
    exists (name, Column a). split; [reflexivity |].
    apply filter_In. auto. }
  (* what serialization made of the document *)
  unfold CRUDModel_serialize, record_serialize in Hser.
  assert (Htruthy : truthy (VDict doc) = true).
  { rewrite <- Hdoc. pose proof (with_id_not_empty m' w2) as Hne.
    destruct (fst (with_id m' w2)); [congruence | reflexivity]. }
  rewrite Hdoc, Htruthy in Hser. cbn [negb as_mapping mbind result_bind] in Hser.
  destruct (foldM _ doc (__fields__ cls)) as [sdoc | ex] eqn:Hrun;
    [| discriminate].
  cbn [mbind result_bind] in Hser. injection Hser as Hr.
  pose (known := fun k : string => str_in k (field_names (__fields__ cls))).
  assert (Hr' : r = List.filter (fun kv => known (fst kv)) sdoc)
    by (symmetry; exact Hr).
  assert (Hq : forall k, dict_lookup k (_to_primary_keys_model cls r)
                         = if pk k then dict_lookup k sdoc else None).
  { intros k. rewrite Hpk_of, (dict_lookup_filter_keys pk).
    destruct (pk k) eqn:Hk; [| reflexivity].
    rewrite Hr', (dict_lookup_filter_keys known).
    destruct (F1 k Hk) as (a & Hin & _).
    replace (known k) with true
      by (symmetry; apply (declared_In _ _ _ Hin)).
    reflexivity. }
  (* each key: stored, serialized, valid again and read back *)
  assert (F4 : forall k, pk k = true ->
                 exists a sv rv,
                   In (k, Column a) (__fields__ cls)
                   /\ dict_lookup k doc = Some sv
                   /\ dict_lookup k (_to_primary_keys_model cls r) = Some rv
                   /\ is_none rv = false
                   /\ _validate_value k a rv = Ok []
                   /\ _deserialize_value k a rv = Ok sv).
  { intros k Hk. destruct (F1 k Hk) as (a & Hin & Hp & Hkc).
    destruct (stored_key cls m m' w w2 k a Hnodup Hvalid Hdes Hin Hkc)
      as (sv & Hsv & Hstorable).
    rewrite Hdoc in Hsv.
    destruct (serialize_fields_step _ Hnodup _ _ _ _ Hrun Hin)
      as (m0 & m1 & Hstep & Hbefore & Hafter).
    simpl in Hstep. rewrite Hsv in Hbefore.
    assert (Henum : is_enum (self_field_type k a) = true ->
                    choices a = NoChoices).
    { intros He. simpl in Hkc. apply andb_prop in Hkc as [_ Hc].
      rewrite He in Hc. destruct (choices a); [reflexivity | |]; discriminate. }
    destruct (key_round_trip k a sv m0 m1 Hstorable Henum
                (Hback k a sv Hin Hp Hsv) Hbefore Hstep)
      as (_ & rv & Hrv & Hnone & Hval & Hdeser).
    exists a, sv, rv. rewrite Hq, Hk, <- Hafter.
    repeat split; assumption. }
  assert (F5 : forall k, dict_in k (_to_primary_keys_model cls r) = true ->
                         pk k = true).
  { intros k. rewrite Hpk_of, (dict_in_filter_keys pk).
    intros H. apply andb_prop in H as [_ H]. exact H. }
  assert (Hknown_key : forall k,
            dict_in k (_to_primary_keys_model cls r) = true ->
            exists c, In (k, c) (__fields__ cls)).
  { intros k Hk. destruct (F1 k (F5 k Hk)) as (a & Hin & _). eauto. }
  assert (Hfield : forall name c,
            In (name, c) (__fields__ cls) ->
            dict_in name (_to_primary_keys_model cls r) = true ->
            exists a sv rv,
              c = Column a
              /\ dict_lookup name doc = Some sv
              /\ dict_lookup name (_to_primary_keys_model cls r) = Some rv
              /\ is_none rv = false
              /\ _validate_value name a rv = Ok []
              /\ _deserialize_value name a rv = Ok sv).
  { intros name c Hin Hhere.
    destruct (F4 name (F5 name Hhere)) as (a & sv & rv & Hin' & Hrest).
    exists a, sv, rv. split; [| exact Hrest].
    apply (field_of_name _ _ _ _ Hnodup Hin Hin'). }
  (* the keys of the filter are those of the stored primary key *)
  assert (F6 : dict_keys (_to_primary_keys_model cls r)
               = dict_keys (_to_primary_keys_model cls doc)).
  { rewrite !Hpk_of, !dict_keys_filter, Hr'.
    rewrite (dict_keys_filter known).
    rewrite filter_filter_sub.
    - apply (serialize_fields_key_list pk _ _ _ Hrun).
      intros k Hk. destruct (F4 k Hk) as (a & sv & rv & _ & Hsv & _).
      apply dict_in_lookup. rewrite Hsv. discriminate.
    - intros k Hk. destruct (F1 k Hk) as (a & Hin & _).
      apply (declared_In _ _ _ Hin). }
  (* validation of the filter *)
  assert (Hvq : CRUDModel_validate_query cls (_to_primary_keys_model cls r)
                = Ok []).
  { unfold CRUDModel_validate_query, record_validate_query.
    rewrite (no_unknown_key _ _ Hknown_key).
    cbn [fold_dot_notation foldM mbind result_bind].
    apply validate_fields_query_ok. intros name c Hin Hhere.
    destruct (Hfield name c Hin Hhere)
      as (a & sv & rv & -> & _ & Hrv & Hnone & Hval & _).
    simpl. unfold Column_validate_query, py_get. rewrite Hrv. simpl.
    rewrite Hnone. exact Hval. }
  (* deserialization of the filter *)
  assert (Hdq : CRUDModel_deserialize_query cls (_to_primary_keys_model cls r)
                = Ok (_to_primary_keys_model cls doc)).
  { unfold CRUDModel_deserialize_query, record_deserialize_query.
    rewrite (no_unknown_key _ _ Hknown_key).
    cbn [gather_dot_notation foldM mbind result_bind].
    unfold deserialize_dotted.
    rewrite (deserialize_dotted_skips [] (__fields__ cls)
               ([], _to_primary_keys_model cls r))
      by (intros; reflexivity).
    cbn [mbind result_bind snd].
    destruct (deserialize_selected (_to_primary_keys_model cls r)
                (_to_primary_keys_model cls doc) (__fields__ cls) Hnodup
                (_to_primary_keys_model cls r))
      as (filter & Hfold & Hfkeys & Hflookup).
    - intros name c Hin Hhere.
      destruct (Hfield name c Hin Hhere)
        as (a & sv & rv & -> & Hsv & Hrv & Hnone & _ & Hdeser).
      exists a, rv, sv. repeat split; try assumption.
      rewrite Hpk_of, (dict_lookup_filter_keys pk), (F5 name Hhere).
      exact Hsv.
    - intros name c Hin Hout.
      apply dict_in_lookup_None in Hout. rewrite Hout.
      rewrite (Hpk_of doc), (dict_lookup_filter_keys pk).
      destruct (pk name) eqn:Hk; [| reflexivity].
      destruct (F4 name Hk) as (a & sv & rv & _ & _ & Hrv & _). congruence.
    - intros k Hk.
      assert (Hnot : pk k = false).
      { destruct (pk k) eqn:Hpk; [| reflexivity].
        destruct (F1 k Hpk) as (a & Hin & _). exfalso. apply Hk.
        apply list_elem_of_In, in_map_iff. exists (k, Column a). auto. }
      rewrite !Hpk_of, !(dict_lookup_filter_keys pk), Hnot. reflexivity.
    - rewrite Hfold. f_equal. apply dict_ext.
      + rewrite Hfkeys. exact F6.
      + rewrite Hfkeys, F6, Hpk_of, dict_keys_filter.
        apply NoDup_ListNoDup, List.NoDup_filter, NoDup_ListNoDup.
        exact Hdistinct.
      + exact Hflookup. }
  split; [exact Hdq |].
  rewrite (get_run cls _ _ w1 Hbase Hvq Hdq).
  assert (Hsel : selected (_to_primary_keys_model cls doc) w1 = [doc]).
  { unfold selected. rewrite Hdocs, List.filter_app, Hdoc. simpl.
    rewrite Hself.
    replace (List.filter (doc_matches (_to_primary_keys_model cls doc))
               (documents w)) with (@nil dict); [reflexivity |].
    symmetry. clear -Hunique.
    induction Hunique as [| d l Hd _ IH]; simpl; [reflexivity |].
    rewrite Hd. exact IH. }
  rewrite Hsel. simpl.
  unfold CRUDModel_serialize, record_serialize.
  rewrite Htruthy. cbn [negb as_mapping mbind result_bind].
  rewrite Hrun. cbn [mbind result_bind]. rewrite Hr. reflexivity.
Qed.
End ReadBack.

Lemma add_then_get_witness :
  CRUDModel_deserialize_query (rt := Reference.runtime) day_model
    (_to_primary_keys_model day_model
       [("day", VStr "2020-01-02"); ("value", VInt 0)])
  = Ok (_to_primary_keys_model day_model day_document)
  /\ fst (get (rt := Reference.runtime) (dr := Reference.driver) day_model
            (_to_primary_keys_model day_model
               [("day", VStr "2020-01-02"); ("value", VInt 0)])
            one_day)
     = Ok [("day", VStr "2020-01-02"); ("value", VInt 0)].
Proof.
  apply (add_then_get (rt := Reference.runtime) (dr := Reference.driver)
           day_model (VDict [("day", VStr "2020-01-02")])
           Reference.empty_world one_day
           [("day", VStr "2020-01-02"); ("value", VInt 0)] day_document).
  - apply NoDup_ListNoDup. repeat constructor; simpl; intuition discriminate.
  - intros name c [H | [H | []]] Hkey; injection H as <- <-;
      [reflexivity | discriminate Hkey].
  - intros m Hm. injection Hm as <-.
    apply NoDup_ListNoDup. repeat constructor; simpl; intuition discriminate.
  - reflexivity.
  - reflexivity.
  - intros name a stored [H | [H | []]] Hkey Hstored; injection H as <- <-;
      [| discriminate Hkey].
    vm_compute in Hstored. injection Hstored as <-. reflexivity.
  - reflexivity.
  - constructor.
Defined.

(** A primary key with a default is outside this round trip: the record
    [{'value': 1}] is stored without its [key], [add] returns it with the
    default ['x'], and [get(key='x')] finds no document. *)
Lemma defaulted_key_is_not_read_back :
  fst (add (rt := Reference.runtime) (dr := Reference.driver)
         defaulted_key_model (VDict [("value", VInt 1)])
         Reference.empty_world)
  = Ok [("value", VInt 1); ("key", VStr "x")]
  /\ ~ reads_back Reference.runtime Reference.driver defaulted_key_model
         (VDict [("value", VInt 1)]) Reference.empty_world.
Proof.
  split; [reflexivity |].
  intros Hclaim.
  specialize (Hclaim [("value", VInt 1); ("key", VStr "x")]
                (snd (add (rt := Reference.runtime) (dr := Reference.driver)
                        defaulted_key_model (VDict [("value", VInt 1)])
                        Reference.empty_world))
                eq_refl).
  vm_compute in Hclaim. discriminate Hclaim.
Qed.

(** C1 as stated fails: a primary key is not a unique index. On the
    example model, where no field declares [index_type], a second
    [{'key': 'a'}] is stored next to the first, and [get(key='a')] then
    raises [ValidationFailed] for its two results. *)
Lemma second_record_is_not_read_back :
  ~ reads_back Reference.runtime Reference.driver
      (Reference.key_value_model false) (VDict [("key", VStr "a")])
      (one_record false).
Proof.
  intros Hclaim.
  specialize (Hclaim [("key", VStr "a"); ("value", VInt 0)]
                (snd (add (rt := Reference.runtime) (dr := Reference.driver)
                        (Reference.key_value_model false)
                        (VDict [("key", VStr "a")]) (one_record false)))
                eq_refl).
  vm_compute in Hclaim. discriminate Hclaim.
Qed.

(** * The further properties on examples *)

Lemma declared_column_invariants_witness :
  (should_auto_increment Reference.key_attrs = true ->
     field_type Reference.key_attrs = TInt
     /\ is_nullable Reference.key_attrs = true)
  /\ (is_nullable Reference.key_attrs = false ->
        truthy (default_value Reference.key_attrs) = false)
  /\ (is_primary_key Reference.key_attrs = false ->
        is_nullable Reference.key_attrs = kw_is_nullable Reference.primary_key)
  /\ (is_primary_key Reference.key_attrs = true ->
        kw_is_nullable Reference.primary_key = true ->
        is_nullable Reference.key_attrs
        = truthy (default_value Reference.key_attrs)
          || should_auto_increment Reference.key_attrs).
Proof.
  apply (declared_column_invariants (Some TStr) Reference.primary_key
           Reference.key_attrs).
  reflexivity.
Defined.

Lemma column_reports_one_error_witness :
  [("key", ["Missing data for required field."])] = ([] : errors)
  \/ exists msg,
       [("key", ["Missing data for required field."])] = [("key", [msg])].
Proof.
  apply (column_reports_one_error (rt := Reference.runtime) "key"
           Reference.key_attrs [("value", VInt 1)]).
  right. left. reflexivity.
Defined.

Lemma plain_column_accepts_instances_witness :
  _validate_value (rt := Reference.runtime) "value" Reference.value_attrs
    (VStr "x")
  = Ok (if isinstance (VStr "x")
             (self_field_type "value" Reference.value_attrs)
        then []
        else [("value",
               ["Not a valid "
                ++ type_name (self_field_type "value" Reference.value_attrs)
                ++ "."])]).
Proof.
  apply (plain_column_accepts_instances (rt := Reference.runtime) "value"
           Reference.value_attrs (VStr "x")); reflexivity.
Defined.

Lemma choices_ignored_for_other_types_witness :
  _validate_value (rt := Reference.runtime) "details"
    (with_choices (ChoiceList [VInt 1]) Reference.details_attrs) (VDict [])
  = _validate_value (rt := Reference.runtime) "details"
      Reference.details_attrs (VDict []).
Proof.
  apply (choices_ignored_for_other_types (rt := Reference.runtime) "details"
           Reference.details_attrs (ChoiceList [VInt 1]) (VDict [])).
  reflexivity.
Defined.

Lemma validated_value_deserializes_witness :
  exists stored,
    _deserialize_value (rt := Reference.runtime) "key" Reference.key_attrs
      (VStr "a") = Ok stored
    /\ stored_form (self_field_type "key" Reference.key_attrs) (VStr "a") stored.
Proof.
  apply (validated_value_deserializes (rt := Reference.runtime) "key"
           Reference.key_attrs (VStr "a")).
  - discriminate.
  - simpl. discriminate.
  - reflexivity.
Defined.

Lemma date_field_drops_time_witness :
  exists stored,
    Column_deserialize_insert (rt := Reference.runtime) "day" day_attrs
      [("day", VDateTime sample_datetime)] = Ok stored
    /\ dict_lookup "day" stored
       = Some (VDateTime (mk_datetime (dt_date sample_datetime) midnight))
    /\ exists returned,
         Column_serialize (rt := Reference.runtime) "day" day_attrs stored
         = Ok returned
         /\ dict_lookup "day" returned
            = Some (VStr (date_isoformat (Runtime := Reference.runtime)
                            (dt_date sample_datetime))).
Proof.
  apply (date_field_drops_time (rt := Reference.runtime) "day" day_attrs
           sample_datetime [("day", VDateTime sample_datetime)]);
    reflexivity.
Defined.

Lemma list_valid_iff_items_valid_witness :
  exists e,
    validate_with (rt := Reference.runtime) OnInsert "tags"
      (ListColumn Reference.tags_attrs (Column Reference.text_attrs))
      mixed_tags = Ok e
    /\ (e = [] <->
        Forall (fun v =>
                  validate_with (rt := Reference.runtime) OnInsert "tags"
                    (Column Reference.text_attrs) [("tags", v)] = Ok [])
               [VStr "a"; VInt 1]).
Proof.
  apply (list_valid_iff_items_valid (rt := Reference.runtime) OnInsert "tags"
           Reference.tags_attrs (Column Reference.text_attrs)
           [VStr "a"; VInt 1] mixed_tags).
  - reflexivity.
  - reflexivity.
  - repeat constructor; eexists; reflexivity.
Defined.

Lemma list_item_errors_are_indexed_witness :
  (forall i v, [VStr "a"; VInt 1] !! i = Some v ->
     exists item_errors,
       validate_with (rt := Reference.runtime) OnInsert "tags"
         (Column Reference.text_attrs) [("tags", v)] = Ok item_errors
       /\ dict_lookup (item_path "tags" i) [("tags[1]", ["Not a valid str."])]
          = dict_lookup "tags" item_errors)
  /\ (forall key,
        dict_in key [("tags[1]", ["Not a valid str."])] = true ->
        exists i, (i < length [VStr "a"; VInt 1])%nat
                  /\ key = item_path "tags" i).
Proof.
  apply (list_item_errors_are_indexed (rt := Reference.runtime) OnInsert "tags"
           Reference.tags_attrs Reference.text_attrs
           [VStr "a"; VInt 1] mixed_tags
           [("tags[1]", ["Not a valid str."])]);
    reflexivity.
Defined.

Lemma dict_column_errors_are_prefixed_witness :
  "details.inner" = "details"
  \/ exists child, "details.inner" = "details" ++ "." ++ child.
Proof.
  apply (dict_column_errors_are_prefixed (rt := Reference.runtime) OnInsert
           "details" Reference.details_attrs
           (fun _ => [("inner", Column Reference.key_attrs)])
           [("details", VDict [("x", VInt 1)])]
           [("details.inner", ["Missing data for required field."])]);
    reflexivity.
Defined.

Lemma deserialize_insert_keeps_declared_fields_witness :
  dict_in "other" [("key", VStr "a")] = false
  /\ declared (__fields__ (Reference.key_value_model false)) "key" = true.
Proof.
  split; [reflexivity |].
  apply (deserialize_insert_keeps_declared_fields
           (rt := Reference.runtime)
           (Reference.key_value_model false)
           [("key", VStr "a"); ("other", VInt 1)] Reference.empty_world
           [("key", VStr "a")]);
    reflexivity.
Defined.

Lemma add_stores_declared_fields_witness :
  exists doc,
    documents (one_record false)
    = app (documents Reference.empty_world) [doc]
    /\ forall key, dict_in key doc = true ->
         key = "_id"
         \/ declared (__fields__ (Reference.key_value_model false)) key = true.
Proof.
  apply (add_stores_declared_fields
           (rt := Reference.runtime) (dr := Reference.driver)
           (Reference.key_value_model false) (VDict [("key", VStr "a")])
           Reference.empty_world (one_record false)
           [("key", VStr "a"); ("value", VInt 0)]).
  reflexivity.
Defined.

Lemma list_deserialize_drops_none_witness :
  deserialize_insert (rt := Reference.runtime) "tags"
    (ListColumn Reference.tags_attrs (Column Reference.text_attrs)) sparse_tags
  = (stored ← traverse (_deserialize_value (rt := Reference.runtime) "tags"
                          Reference.text_attrs)
                       (non_null [VStr "a"; VNone; VStr "b"]);
     Ok (dict_set "tags" (VList stored) sparse_tags))
  /\ deserialize_update (rt := Reference.runtime) "tags"
       (ListColumn Reference.tags_attrs (Column Reference.text_attrs)) sparse_tags
  = (stored ← traverse (_deserialize_value (rt := Reference.runtime) "tags"
                          Reference.text_attrs)
                       (non_null [VStr "a"; VNone; VStr "b"]);
     Ok (dict_set "tags" (VList stored) sparse_tags)).
Proof.
  apply (list_deserialize_drops_none (rt := Reference.runtime) "tags"
           Reference.tags_attrs Reference.text_attrs
           [VStr "a"; VNone; VStr "b"] sparse_tags).
  reflexivity.
Defined.

Lemma serialize_output_shape_witness :
  (forall key,
     dict_in key [("key", VStr "a"); ("value", VInt 0)] = true ->
     declared (__fields__ (Reference.key_value_model false)) key = true)
  /\ (forall name c,
        In (name, c) (__fields__ (Reference.key_value_model false)) ->
        dict_in name [("key", VStr "a"); ("_id", VObjectId "0")] = true
        \/ (always_serialized c = true
            /\ [("key", VStr "a"); ("_id", VObjectId "0")] <> []) ->
        dict_in name [("key", VStr "a"); ("value", VInt 0)] = true)
  /\ ([("key", VStr "a"); ("_id", VObjectId "0")] = [] ->
      [("key", VStr "a"); ("value", VInt 0)] = ([] : dict)).
Proof.
  apply (serialize_output_shape (rt := Reference.runtime)
           (Reference.key_value_model false)
           [("key", VStr "a"); ("_id", VObjectId "0")]
           [("key", VStr "a"); ("value", VInt 0)]).
  reflexivity.
Defined.

Lemma deserialize_insert_stores_no_none_witness :
  fst (CRUDModel_deserialize_insert (rt := Reference.runtime)
         (Reference.key_value_model false)
         [("key", VStr "a"); ("value", VNone)] Reference.empty_world)
  = Ok [("key", VStr "a")]
  /\ dict_lookup "value" [("key", VStr "a")] <> Some VNone.
Proof.
  split; [reflexivity |].
  apply (deserialize_insert_stores_no_none
           (rt := Reference.runtime)
           (Reference.key_value_model false)
           [("key", VStr "a"); ("value", VNone)] Reference.empty_world
           [("key", VStr "a")] "value" (Column Reference.value_attrs)).
  - right. left. reflexivity.
  - intros c' [H | [H | []]]; injection H as <-; try discriminate; reflexivity.
  - reflexivity.
Defined.

Lemma auto_increment_overrides_input_witness :
  dict_lookup "id" [("key", VStr "a"); ("id", VInt 1)]
  = Some (VInt (counter_of "id" Reference.empty_world + 1))
  /\ counter_of "id"
       (snd (CRUDModel_deserialize_insert
               (rt := Reference.runtime)
               counted_model [("key", VStr "a"); ("id", VInt 40)]
               Reference.empty_world))
     = counter_of "id" Reference.empty_world + 1.
Proof.
  apply (auto_increment_overrides_input
           (rt := Reference.runtime)
           counted_model [("key", VStr "a"); ("id", VInt 40)]
           [("key", VStr "a"); ("id", VInt 1)] Reference.empty_world
           _ "id" (Column counter_attrs)).
  - reflexivity.
  - apply NoDup_ListNoDup. repeat constructor; simpl; intuition discriminate.
  - left. reflexivity.
  - reflexivity.
  - reflexivity.
Defined.

Lemma record_errors_name_a_field_witness :
  "key" = EmptyString
  \/ exists name c,
       In (name, c) (__fields__ (Reference.key_value_model false))
       /\ String.prefix name "key" = true.
Proof.
  apply (record_errors_name_a_field (rt := Reference.runtime)
           (Reference.key_value_model false) (VDict [("value", VInt 1)]) []
           [("key", ["Missing data for required field."])]).
  - left. reflexivity.
  - reflexivity.
Defined.

Lemma update_requires_primary_key_witness :
  dict_in "key" [("key", ["Missing data for required field."])] = true
  /\ update (rt := Reference.runtime) (dr := Reference.driver)
       (Reference.key_value_model false) (VDict [("value", VInt 1)])
       Reference.empty_world
     = (Raise (ValidationFailed (VDict [("value", VInt 1)])
                 (FieldErrors [("key", ["Missing data for required field."])])),
        Reference.empty_world).
Proof.
  apply (update_requires_primary_key
           (rt := Reference.runtime) (dr := Reference.driver)
           (Reference.key_value_model false) [("value", VInt 1)]
           [("key", ["Missing data for required field."])]
           "key" (Column Reference.key_attrs) Reference.empty_world).
  - left. reflexivity.
  - reflexivity.
  - reflexivity.
  - discriminate.
  - reflexivity.
  - intros child. reflexivity.
  - reflexivity.
Defined.

Lemma update_of_missing_record_witness :
  update (rt := Reference.runtime) (dr := Reference.driver)
    (Reference.key_value_model false)
    (VDict [("key", VStr "a"); ("value", VInt 2)]) Reference.empty_world
  = (Raise (ModelCouldNotBeFound
              (_to_primary_keys_model (Reference.key_value_model false)
                 [("key", VStr "a"); ("value", VInt 2)])),
     emit (FindOne (_to_primary_keys_model (Reference.key_value_model false)
                      [("key", VStr "a"); ("value", VInt 2)]))
          Reference.empty_world).
Proof.
  apply (update_of_missing_record
           (rt := Reference.runtime) (dr := Reference.driver)
           (Reference.key_value_model false)
           [("key", VStr "a"); ("value", VInt 2)]
           [("key", VStr "a"); ("value", VInt 2)] Reference.empty_world);
    try reflexivity.
  discriminate.
Defined.

Lemma add_of_duplicate_is_rejected_witness :
  fst (add (rt := Reference.runtime) (dr := Reference.driver)
         unique_key_model (VDict [("key", VStr "a")]) stored_once)
  = Raise (ValidationFailed (VDict [("key", VStr "a"); ("value", VInt 0)])
             (Message "This item already exists."))
  /\ documents (snd (add (rt := Reference.runtime) (dr := Reference.driver)
                       unique_key_model (VDict [("key", VStr "a")]) stored_once))
     = documents stored_once
  /\ Forall (fun e => is_audit e = false)
            (new_events (add (rt := Reference.runtime) (dr := Reference.driver)
                           unique_key_model (VDict [("key", VStr "a")]))
                        stored_once).
Proof.
  apply (add_of_duplicate_is_rejected
           (rt := Reference.runtime) (dr := Reference.driver)
           unique_key_model [("key", VStr "a")] [("key", VStr "a")]
           [("key", VStr "a"); ("value", VInt 0)] stored_once stored_once);
    reflexivity.
Defined.

Lemma remove_outcome_witness :
  fst (remove (rt := Reference.runtime) (dr := Reference.driver)
         (Reference.key_value_model false) [("key", VStr "a")]
         (one_record false))
  = Ok (length (selected (dr := Reference.driver) [("key", VStr "a")]
                  (one_record false)))
  /\ documents (snd (remove (rt := Reference.runtime) (dr := Reference.driver)
                       (Reference.key_value_model false) [("key", VStr "a")]
                       (one_record false)))
     = List.filter (fun doc => negb (doc_matches (Driver := Reference.driver)
                                       [("key", VStr "a")] doc))
                   (documents (one_record false))
  /\ selected (dr := Reference.driver) [("key", VStr "a")]
       (snd (remove (rt := Reference.runtime) (dr := Reference.driver)
               (Reference.key_value_model false) [("key", VStr "a")]
               (one_record false)))
     = [].
Proof.
  apply (remove_outcome (rt := Reference.runtime) (dr := Reference.driver)
           (Reference.key_value_model false) [("key", VStr "a")]
           [("key", VStr "a")] (one_record false));
    reflexivity.
Defined.

Lemma get_all_window_witness :
  fst (get_all (rt := Reference.runtime) (dr := Reference.driver)
         (Reference.key_value_model false) [("limit", VInt 1)]
         (one_record false))
  = serialize_all (rt := Reference.runtime) (Reference.key_value_model false)
      (window 0 1 (selected (dr := Reference.driver) [] (one_record false)))
  /\ forall returned,
       fst (get_all (rt := Reference.runtime) (dr := Reference.driver)
              (Reference.key_value_model false) [("limit", VInt 1)]
              (one_record false)) = Ok returned ->
       (length returned
        <= length (selected (dr := Reference.driver) [] (one_record false)))%nat
       /\ (0 < 1 -> (length returned <= Z.to_nat 1)%nat).
Proof.
  apply (get_all_window (rt := Reference.runtime) (dr := Reference.driver)
           (Reference.key_value_model false) [("limit", VInt 1)] [] 1 0
           (one_record false));
    reflexivity.
Defined.

Lemma init_subclass_fields_witness :
  Permutation [("value", Column Reference.value_attrs);
               ("key", Column Reference.key_attrs)]
              (__fields__ (Reference.key_value_model false))
  /\ sorted_by_name (__fields__ (Reference.key_value_model false))
  /\ Forall (fun f => contains_dot (fst f) = false)
            (__fields__ (Reference.key_value_model false))
  /\ __tablename__ (Reference.key_value_model false) = Some "sample_table_name"
  /\ has_base (Reference.key_value_model false) = true
  /\ audit_model (Reference.key_value_model false) = false.
Proof.
  apply (init_subclass_fields
           [("value", Column Reference.value_attrs);
            ("key", Column Reference.key_attrs)]
           true (Some "sample_table_name") false
           (Reference.key_value_model false)).
  reflexivity.
Defined.

Lemma plain_example_is_valid_witness :
  exists example,
    _get_example "tag" (Column Reference.text_attrs) = Ok example
    /\ validate_insert (rt := Reference.runtime) "tag"
         (Column Reference.text_attrs) [("tag", example)] = Ok [].
Proof.
  apply (plain_example_is_valid (rt := Reference.runtime) "tag"
           Reference.text_attrs); reflexivity.
Defined.

Lemma dotted_filter_is_kept_witness :
  CRUDModel_deserialize_query (rt := Reference.runtime) Reference.details_model
    [("details" ++ "." ++ "y", VStr "z")]
  = Ok [("details" ++ "." ++ "y", VStr "z")].
Proof.
  apply (dotted_filter_is_kept (rt := Reference.runtime)
           Reference.details_model "details" "y" Reference.details_attrs
           (VStr "z")).
  - repeat constructor.
  - apply NoDup_ListNoDup. repeat constructor; simpl; intuition discriminate.
  - left. reflexivity.
  - reflexivity.
Defined.

Lemma add_all_stores_a_prefix_on_failure_witness :
  fst (add_all (rt := Reference.runtime) (dr := Reference.driver)
         unique_key_model
         [VDict [("key", VStr "a")]; VDict [("key", VStr "a")]]
         Reference.empty_world)
  = Raise (ValidationFailed
             (VList [VDict [("key", VStr "a")]; VDict [("key", VStr "a")]])
             (Message "E11000 duplicate key error at index 1"))
  /\ (exists n refused,
        fst (fst (insert_each (dr := Reference.driver) unique_key_model O
                    [[("key", VStr "a")]; [("key", VStr "a")]]
                    Reference.empty_world)) !! n = Some refused
        /\ "E11000 duplicate key error at index 1"
           = bulk_write_details (Driver := Reference.driver) n refused
        /\ documents
             (snd (add_all (rt := Reference.runtime) (dr := Reference.driver)
                     unique_key_model
                     [VDict [("key", VStr "a")]; VDict [("key", VStr "a")]]
                     Reference.empty_world))
           = app (documents Reference.empty_world)
                 (take n (fst (fst (insert_each (dr := Reference.driver)
                                      unique_key_model O
                                      [[("key", VStr "a")]; [("key", VStr "a")]]
                                      Reference.empty_world))))
        /\ length
             (documents
                (snd (add_all (rt := Reference.runtime) (dr := Reference.driver)
                        unique_key_model
                        [VDict [("key", VStr "a")]; VDict [("key", VStr "a")]]
                        Reference.empty_world)))
           = (length (documents Reference.empty_world) + n)%nat
        /\ duplicate_key (Driver := Reference.driver)
             (unique_fields unique_key_model)
             (documents
                (snd (add_all (rt := Reference.runtime) (dr := Reference.driver)
                        unique_key_model
                        [VDict [("key", VStr "a")]; VDict [("key", VStr "a")]]
                        Reference.empty_world)))
             refused = true
        /\ (forall i doc,
              (i < n)%nat ->
              fst (fst (insert_each (dr := Reference.driver) unique_key_model O
                          [[("key", VStr "a")]; [("key", VStr "a")]]
                          Reference.empty_world)) !! i = Some doc ->
              duplicate_key (Driver := Reference.driver)
                (unique_fields unique_key_model)
                (app (documents Reference.empty_world)
                     (take i (fst (fst (insert_each (dr := Reference.driver)
                                          unique_key_model O
                                          [[("key", VStr "a")]; [("key", VStr "a")]]
                                          Reference.empty_world)))))
                doc = false))
  /\ Forall (fun e => is_audit e = false)
            (new_events
               (add_all (rt := Reference.runtime) (dr := Reference.driver)
                  unique_key_model
                  [VDict [("key", VStr "a")]; VDict [("key", VStr "a")]])
               Reference.empty_world).
Proof.
  apply (add_all_stores_a_prefix_on_failure
           (rt := Reference.runtime) (dr := Reference.driver)
           unique_key_model
           [VDict [("key", VStr "a")]; VDict [("key", VStr "a")]]
           [VDict [("key", VStr "a")]; VDict [("key", VStr "a")]]
           [[("key", VStr "a")]; [("key", VStr "a")]]
           "E11000 duplicate key error at index 1"
           Reference.empty_world Reference.empty_world);
    try reflexivity.
  discriminate.
Defined.
